(** * Builder lifecycle orchestrator: [internal/build/imgsrc/ensure_builder.go]

    A shallow embedding of [EnsureBuilder], [validateBuilder],
    [validateBuilderVolumes], [validateBuilderMachines] and [createBuilder].

    The remote collaborators (the API client taken from the context, the
    flaps client and the name generator) are Go interfaces; they are a type
    class here, and the code is a state-passing program over a world made of
    the collaborator's state, the random source, the clock advanced by
    [time.Sleep], and the log of every call together with its answer.
    Tracing spans only observe the run and are left out. *)

From Stdlib Require Import ZArith String List Bool Lia.
From Equations Require Import Equations.
From Equations.Prop Require Import Logic.
Import ListNotations.

Local Open Scope Z_scope.

(** ** Errors *)

(** [type ValidateBuilderError int] with its three [iota] constants. *)
Definition ValidateBuilderError := Z.

Definition NoBuilderApp : ValidateBuilderError := 0.
Definition NoBuilderVolume : ValidateBuilderError := 1.
Definition InvalidMachineCount : ValidateBuilderError := 2.

(** [func (e ValidateBuilderError) Error() string]. *)
Definition ValidateBuilderError_Error (e : ValidateBuilderError) : string :=
  if e =? NoBuilderApp then "no builder app"
  else if e =? NoBuilderVolume then "no builder volume"
  else if e =? InvalidMachineCount then "invalid machine count"
  else "unknown error validating builder".

(** Go [error] values as this file meets them: a [*flaps.FlapsError] with its
    [ResponseStatusCode], a [ValidateBuilderError], an error wrapped by
    [fmt.Errorf("...: %w", err)], and any other error. *)
Inductive error : Type :=
| FlapsError (ResponseStatusCode : Z)
| ValidateErr (e : ValidateBuilderError)
| WrapErr (prefix : string) (cause : error)
| OtherErr (msg : string).

(** [errors.As(err, &flapsErr)] with [flapsErr *flaps.FlapsError]: the first
    error of that type along the chain, its status code returned. *)
Fixpoint asFlapsError (err : error) : option Z :=
  match err with
  | FlapsError code => Some code
  | WrapErr _ cause => asFlapsError cause
  | ValidateErr _ | OtherErr _ => None
  end.

(** [errors.As(err, &validateBuilderErr)]. *)
Fixpoint asValidateBuilderError (err : error) : option ValidateBuilderError :=
  match err with
  | ValidateErr e => Some e
  | WrapErr _ cause => asValidateBuilderError cause
  | FlapsError _ | OtherErr _ => None
  end.

(** The test shared by the three retry loops:
    [errors.As(err, &flapsErr) && flapsErr.ResponseStatusCode >= 500 &&
     flapsErr.ResponseStatusCode < 600]. *)
Definition isServerError (err : error) : bool :=
  match asFlapsError err with
  | Some code => (code >=? 500) && (code <? 600)
  | None => false
  end.

(** A Go [(value, error)] return. *)
Inductive result (A : Type) : Type :=
| Ok (a : A)
| Err (e : error).
Arguments Ok {A} a.
Arguments Err {A} e.

(** ** Data *)

Record OrganizationBasic := {
  ob_ID : string;
  ob_Name : string;
  ob_Slug : string;
  ob_RawSlug : string;
  ob_PaidPlan : bool
}.

(** [fly.App], with the fields [EnsureBuilder] reads. *)
Record App := {
  app_ID : string;
  app_Name : string;
  app_Status : string;
  app_Deployed : bool;
  app_Hostname : string;
  app_AppURL : string;
  app_Organization : OrganizationBasic;
  app_PlatformVersion : string;
  app_PostgresAppRole : option string
}.

Record AppCompact := {
  ac_ID : string;
  ac_Name : string;
  ac_Status : string;
  ac_Deployed : bool;
  ac_Hostname : string;
  ac_AppURL : string;
  ac_Organization : OrganizationBasic;
  ac_PlatformVersion : string;
  ac_PostgresAppRole : option string
}.

(** [fly.Organization]. *)
Record Organization := {
  org_ID : string;
  org_Slug : string;
  org_RemoteBuilderImage : string;
  org_RemoteBuilderApp : option App
}.

Record Volume := { vol_ID : string }.

Record Machine := { mach_ID : string }.

Record MachineGuest := {
  CPUKind : string;
  CPUs : Z;
  MemoryMB : Z
}.

Record CreateAppInput := {
  cai_OrganizationID : string;
  cai_Name : string;
  cai_AppRoleID : string;
  cai_Machines : bool;
  cai_PreferredRegion : option string
}.

Record CreateVolumeRequest := {
  cvr_Name : string;
  cvr_SizeGb : option Z;
  cvr_AutoBackupEnabled : option bool;
  cvr_ComputeRequirements : option MachineGuest;
  cvr_Region : string
}.

Record MachineMount := {
  mm_Path : string;
  mm_Volume : string;
  mm_Name : string
}.

Record MachinePort := {
  mp_Port : option Z;
  mp_Handlers : list string;
  mp_ForceHTTPS : bool;
  mp_TLSOptions_ALPN : option (list string);
  mp_HTTPOptions_H2Backend : option (option bool)
}.

Record MachineService := {
  ms_Protocol : string;
  ms_InternalPort : Z;
  ms_Autostop : option bool;
  ms_Autostart : option bool;
  ms_MinMachinesRunning : option Z;
  ms_Ports : list MachinePort;
  ms_ForceInstanceKey : option string
}.

Record MachineConfig := {
  mc_Env : list (string * string);
  mc_Guest : option MachineGuest;
  mc_Mounts : list MachineMount;
  mc_Services : list MachineService;
  mc_Image : string
}.

Record LaunchMachineInput := {
  lmi_Region : string;
  lmi_Config : option MachineConfig
}.

(** [flaps.NewClientOpts]; a flaps client is determined by the options it was
    built with. *)
Record NewClientOpts := {
  nco_AppName : string;
  nco_AppCompact : option AppCompact;
  nco_OrgSlug : string
}.

Definition FlapsClient := NewClientOpts.

(** [time.Second], in nanoseconds. *)
Definition Second : Z := 1000000000.

(** ** Calls to the collaborators, and the log *)

Inductive Call : Type :=
| NewClientWithOptions (opts : NewClientOpts)
| GetVolumes (c : FlapsClient)
| ListMachines (c : FlapsClient) (state : string)
| WaitForApp (c : FlapsClient) (name : string)
| CreateVolume (c : FlapsClient) (req : CreateVolumeRequest)
| DeleteVolume (c : FlapsClient) (volumeId : string)
| Launch (c : FlapsClient) (input : LaunchMachineInput)
| CreateApp (input : CreateAppInput)
| DeleteApp (name : string)
| AllocateIPAddress (appName addrType region : string) (org : Organization)
    (network : string)
| Sleep (d : Z).

Inductive Response : Type :=
| RErr (e : error)
| RDone
| RVolumes (vs : list Volume)
| RMachines (ms : list Machine)
| RApp (a : App)
| RVolume (v : Volume)
| RMachine (m : Machine).

Record Event := Called {
  ev_call : Call;
  ev_response : Response
}.

Definition responseOf {A} (inj : A -> Response) (r : result A) : Response :=
  match r with Ok a => inj a | Err e => RErr e end.

Definition responseOfErr (r : option error) : Response :=
  match r with None => RDone | Some e => RErr e end.

(** The calls that change the remote state. *)
Definition isCreation (c : Call) : bool :=
  match c with
  | CreateApp _ | CreateVolume _ _ | Launch _ _ | AllocateIPAddress _ _ _ _ _ => true
  | _ => false
  end.

Definition isDeletion (c : Call) : bool :=
  match c with
  | DeleteApp _ | DeleteVolume _ _ => true
  | _ => false
  end.

Definition isRead (c : Call) : bool :=
  match c with
  | GetVolumes _ | ListMachines _ _ => true
  | _ => false
  end.

Definition isGetVolumes (c : Call) : bool :=
  match c with GetVolumes _ => true | _ => false end.

Definition isListMachines (c : Call) : bool :=
  match c with ListMachines _ _ => true | _ => false end.

Definition isSleep (c : Call) : bool :=
  match c with Sleep _ => true | _ => false end.

Definition isRemote (c : Call) : bool :=
  match c with
  | Sleep _ => false
  | _ => true
  end.

(** ** The collaborators *)

(** The API client ([flyutil.Client]), the flaps client
    ([flapsutil.FlapsClient], with its constructor), over a collaborator
    state [E].  Every remote call receives the context; what it can see of
    it is whether it is done. *)
Class Fleet (E : Type) := {
  flapsutil_NewClientWithOptions : bool -> NewClientOpts -> E -> option error * E;
  flaps_GetVolumes : bool -> FlapsClient -> E -> result (list Volume) * E;
  flaps_List : bool -> FlapsClient -> string -> E -> result (list Machine) * E;
  flaps_WaitForApp : bool -> FlapsClient -> string -> E -> option error * E;
  flaps_CreateVolume : bool -> FlapsClient -> CreateVolumeRequest -> E -> result Volume * E;
  flaps_DeleteVolume : bool -> FlapsClient -> string -> E -> option error * E;
  flaps_Launch : bool -> FlapsClient -> LaunchMachineInput -> E -> result Machine * E;
  client_CreateApp : bool -> CreateAppInput -> E -> result App * E;
  client_DeleteApp : bool -> string -> E -> option error * E;
  client_AllocateIPAddress :
    bool -> string -> string -> string -> Organization -> string -> E -> option error * E
}.

(** Modelled from the spec: the random word-pair generator
    ([haikunator.Haikunator().Build()], whose package is not among the
    sources at hand), drawing from a random source [G]; which words it draws
    is left to the instance. *)
Class Haikunator (G : Type) := {
  haikunator_Build : G -> string * G
}.

Record World (E G : Type) := mkWorld {
  env : E;
  rng : G;
  now : Z;
  trace : list Event
}.
Arguments mkWorld {E G}.
Arguments env {E G}.
Arguments rng {E G}.
Arguments now {E G}.
Arguments trace {E G}.

(** The API client ([flyutil.Client]) a context can carry: the one whose
    methods are the [client_...] operations of the [Fleet]. *)
Inductive Client : Type := fleetClient.

(** What the code uses of a [context.Context]: the moment its [Done] channel
    closes, if any, the API client and the flaps client stored in it. *)
Record Context := {
  ctx_doneAt : option Z;
  ctx_client : option Client;
  ctx_flapsClient : option FlapsClient
}.

(** [flapsutil.NewContextWithClient]. *)
Definition NewContextWithClient (ctx : Context) (c : FlapsClient) : Context :=
  {| ctx_doneAt := ctx_doneAt ctx;
     ctx_client := ctx_client ctx;
     ctx_flapsClient := Some c |}.

(** [flapsutil.ClientFromContext]; [None] is the nil interface. *)
Definition ClientFromContext (ctx : Context) : option FlapsClient :=
  ctx_flapsClient ctx.

(** [flyutil.ClientFromContext]; [None] is the nil interface. *)
Definition flyutil_ClientFromContext (ctx : Context) : option Client :=
  ctx_client ctx.

Definition doneAt (ctx : Context) (t : Z) : bool :=
  match ctx_doneAt ctx with
  | Some d => d <=? t
  | None => false
  end.

(** How many more failed attempts a retry loop with the given budget can
    see; the measure the loops below decrease. *)
Definition retriesLeft (budget numRetries : Z) : nat :=
  Z.to_nat (budget - numRetries).
Arguments retriesLeft : simpl never.

(** ** The program *)

Declare Scope go_scope.
Delimit Scope go_scope with go.

Section Program.

Context {E G : Type} {fleet : Fleet E} {haiku : Haikunator G}.

Let world := World E G.

(** A computation returns a value and the next world, or panics ([None]):
    the panics of this file are the method calls on a nil client, be it the
    API client or the flaps client taken from the context.  The organization
    handed to [EnsureBuilder], the organization of its builder app and the
    values the collaborators answer together with a nil error are taken to
    be non-nil, as their types here say. *)
Definition M (A : Type) : Type := world -> option (A * world).

Definition ret {A} (a : A) : M A := fun w => Some (a, w).

Definition bind {A B} (m : M A) (k : A -> M B) : M B :=
  fun w => match m w with
           | Some (a, w') => k a w'
           | None => None
           end.

Definition panic {A} : M A := fun _ => None.

Definition lift {A} (f : world -> A * world) : M A := fun w => Some (f w).

Notation "x <- m ;; k" := (bind m (fun x => k))
  (at level 100, m at next level, right associativity) : go_scope.

Local Open Scope go_scope.

Definition logged (w : world) (e : E) (c : Call) (r : Response) : world :=
  mkWorld e (rng w) (now w) (trace w ++ [Called c r]).

(** One call to a collaborator: it sees whether [ctx] is done now, answers,
    and the call is logged with its answer. *)
Definition invoke {A} (ctx : Context) (c : Call) (inj : A -> Response)
    (op : bool -> E -> A * E) (w : world) : A * world :=
  let (a, e) := op (doneAt ctx (now w)) (env w) in
  (a, logged w e c (inj a)).

(** [time.Sleep(d)]. *)
Definition time_Sleep (d : Z) (w : world) : world :=
  mkWorld (env w) (rng w) (now w + d) (trace w ++ [Called (Sleep d) RDone]).

(** [haikunator.Haikunator().Build()]. *)
Definition Haikunator_Build : M string :=
  fun w => let (s, g) := haikunator_Build (rng w) in
           Some (s, mkWorld (env w) g (now w) (trace w)).

Definition call_NewClientWithOptions (ctx : Context) (opts : NewClientOpts) :=
  invoke ctx (NewClientWithOptions opts) responseOfErr
    (fun d => flapsutil_NewClientWithOptions d opts).

Definition call_GetVolumes (ctx : Context) (c : FlapsClient) :=
  invoke ctx (GetVolumes c) (responseOf RVolumes) (fun d => flaps_GetVolumes d c).

Definition call_List (ctx : Context) (c : FlapsClient) (state : string) :=
  invoke ctx (ListMachines c state) (responseOf RMachines)
    (fun d => flaps_List d c state).

Definition call_WaitForApp (ctx : Context) (c : FlapsClient) (name : string) :=
  invoke ctx (WaitForApp c name) responseOfErr (fun d => flaps_WaitForApp d c name).

Definition call_CreateVolume (ctx : Context) (c : FlapsClient) (req : CreateVolumeRequest) :=
  invoke ctx (CreateVolume c req) (responseOf RVolume)
    (fun d => flaps_CreateVolume d c req).

Definition call_DeleteVolume (ctx : Context) (c : FlapsClient) (id : string) :=
  invoke ctx (DeleteVolume c id) responseOfErr (fun d => flaps_DeleteVolume d c id).

Definition call_Launch (ctx : Context) (c : FlapsClient) (input : LaunchMachineInput) :=
  invoke ctx (Launch c input) (responseOf RMachine) (fun d => flaps_Launch d c input).

Definition call_CreateApp (ctx : Context) (input : CreateAppInput) :=
  invoke ctx (CreateApp input) (responseOf RApp) (fun d => client_CreateApp d input).

Definition call_DeleteApp (ctx : Context) (name : string) :=
  invoke ctx (DeleteApp name) responseOfErr (fun d => client_DeleteApp d name).

Definition call_AllocateIPAddress (ctx : Context) (appName addrType region : string)
    (org : Organization) (network : string) :=
  invoke ctx (AllocateIPAddress appName addrType region org network) responseOfErr
    (fun d => client_AllocateIPAddress d appName addrType region org network).

(** A method call on the flaps client taken from the context: on the nil
    interface it panics. *)
Definition onClient {A} (flapsClient : option FlapsClient)
    (f : FlapsClient -> world -> A * world) : M A :=
  match flapsClient with
  | Some c => lift (f c)
  | None => panic
  end.

(** The [for] loop of [validateBuilderVolumes]: [Ok] is its [break], [Err]
    its [return nil, err]. *)
Equations? validateBuilderVolumes_loop (ctx : Context) (flapsClient : FlapsClient)
    (numRetries : Z) (w : world) : result (list Volume) * world
    by wf (retriesLeft 3 numRetries) lt :=
validateBuilderVolumes_loop ctx flapsClient numRetries w
  with call_GetVolumes ctx flapsClient w := {
  | (Ok volumes, w1) => (Ok volumes, w1)
  | (Err err, w1) with isServerError err := {
    | false => (Err err, w1)
    | true with inspect (numRetries + 1 >=? 3) := {
      | exist _ true _ => (Err err, w1)
      | exist _ false _ =>
          validateBuilderVolumes_loop ctx flapsClient (numRetries + 1)
            (time_Sleep (1 * Second) w1) } } }.
Proof.
  unfold retriesLeft. rewrite Z.geb_leb, Z.leb_gt in *. lia.
Qed.

Definition validateBuilderVolumes (ctx : Context) (flapsClient : option FlapsClient)
    : M (result Volume) :=
  r <- onClient flapsClient (fun c => validateBuilderVolumes_loop ctx c 0) ;;
  match r with
  | Err err => ret (Err err)
  | Ok volumes =>
      match volumes with
      | [] => ret (Err (ValidateErr NoBuilderVolume))
      | v :: _ => ret (Ok v)
      end
  end.

(** The [for] loop of [validateBuilderMachines]. *)
Equations? validateBuilderMachines_loop (ctx : Context) (flapsClient : FlapsClient)
    (numRetries : Z) (w : world) : result (list Machine) * world
    by wf (retriesLeft 3 numRetries) lt :=
validateBuilderMachines_loop ctx flapsClient numRetries w
  with call_List ctx flapsClient "" w := {
  | (Ok machines, w1) => (Ok machines, w1)
  | (Err err, w1) with isServerError err := {
    | false => (Err err, w1)
    | true with inspect (numRetries + 1 >=? 3) := {
      | exist _ true _ => (Err err, w1)
      | exist _ false _ =>
          validateBuilderMachines_loop ctx flapsClient (numRetries + 1)
            (time_Sleep (1 * Second) w1) } } }.
Proof.
  unfold retriesLeft. rewrite Z.geb_leb, Z.leb_gt in *. lia.
Qed.

Definition validateBuilderMachines (ctx : Context) (flapsClient : option FlapsClient)
    : M (result Machine) :=
  r <- onClient flapsClient (fun c => validateBuilderMachines_loop ctx c 0) ;;
  match r with
  | Err err => ret (Err err)
  | Ok machines =>
      match machines with
      | [m] => ret (Ok m)
      | _ => ret (Err (ValidateErr InvalidMachineCount))
      end
  end.

Definition validateBuilder (ctx : Context) (app : option App) : M (result Machine) :=
  match app with
  | None => ret (Err (ValidateErr NoBuilderApp))
  | Some _ =>
      let flapsClient := ClientFromContext ctx in
      r <- validateBuilderVolumes ctx flapsClient ;;
      match r with
      | Err err => ret (Err err)
      | Ok _ =>
          r <- validateBuilderMachines ctx flapsClient ;;
          match r with
          | Err err => ret (Err err)
          | Ok machine => ret (Ok machine)
          end
      end
  end.

(** [guest] of [createBuilder]. *)
Definition guest : MachineGuest :=
  {| CPUKind := "shared"; CPUs := 4; MemoryMB := 4096 |}.

Definition createVolumeRequest (region : string) : CreateVolumeRequest :=
  {| cvr_Name := "machine_data";
     cvr_SizeGb := Some 50;
     cvr_AutoBackupEnabled := Some false;
     cvr_ComputeRequirements := Some guest;
     cvr_Region := region |}.

(** The [for] loop of [createBuilder]. *)
Equations? createBuilder_loop (ctx : Context) (flapsClient : FlapsClient)
    (region : string) (numRetries : Z) (w : world) : result Volume * world
    by wf (retriesLeft 5 numRetries) lt :=
createBuilder_loop ctx flapsClient region numRetries w
  with call_CreateVolume ctx flapsClient (createVolumeRequest region) w := {
  | (Ok volume, w1) => (Ok volume, w1)
  | (Err err, w1) with isServerError err := {
    | false => (Err err, w1)
    | true with inspect (numRetries + 1 >=? 5) := {
      | exist _ true _ => (Err err, w1)
      | exist _ false _ =>
          createBuilder_loop ctx flapsClient region (numRetries + 1)
            (time_Sleep (1 * Second) w1) } } }.
Proof.
  unfold retriesLeft. rewrite Z.geb_leb, Z.leb_gt in *. lia.
Qed.

(** The argument of [client.CreateApp] in [createBuilder]. *)
Definition createAppInput (org : Organization) (region builderName : string)
    : CreateAppInput :=
  {| cai_OrganizationID := org_ID org;
     cai_Name := builderName;
     cai_AppRoleID := "remote-docker-builder";
     cai_Machines := true;
     cai_PreferredRegion := Some region |}.

(** The argument of [flapsClient.Launch] in [createBuilder]. *)
Definition launchInput (org : Organization) (region : string) (app : App)
    (volume : Volume) : LaunchMachineInput :=
  {| lmi_Region := region;
     lmi_Config := Some
       {| mc_Env := [("ALLOW_ORG_SLUG", org_Slug org);
                     ("DATA_DIR", "/data");
                     ("LOG_LEVEL", "debug")]%string;
          mc_Guest := Some guest;
          mc_Mounts := [ {| mm_Path := "/data";
                            mm_Volume := vol_ID volume;
                            mm_Name := app_Name app |} ];
          mc_Services :=
            [ {| ms_Protocol := "tcp";
                 ms_InternalPort := 8080;
                 ms_Autostop := Some false;
                 ms_Autostart := Some true;
                 ms_MinMachinesRunning := Some 0;
                 ms_Ports :=
                   [ {| mp_Port := Some 80;
                        mp_Handlers := ["http"%string];
                        mp_ForceHTTPS := true;
                        mp_TLSOptions_ALPN := None;
                        mp_HTTPOptions_H2Backend := Some (Some true) |};
                     {| mp_Port := Some 443;
                        mp_Handlers := ["http"; "tls"]%string;
                        mp_ForceHTTPS := false;
                        mp_TLSOptions_ALPN := Some ["h2"%string];
                        mp_HTTPOptions_H2Backend := Some (Some true) |} ];
                 ms_ForceInstanceKey := None |} ];
          mc_Image :=
            if negb (String.eqb (org_RemoteBuilderImage org) "")
            then org_RemoteBuilderImage org
            else "docker-hub-mirror.fly.io/flyio/rchab:sha-9346699" |} |}.

(** [defer func() { if err != nil { cleanup } }()] around the rest of the
    function body: the cleanup runs when the body returns an error, its own
    result dropped. *)
Definition deferOnError {A B} (cleanup : world -> B * world) (body : M (result A))
    : M (result A) :=
  r <- body ;;
  match r with
  | Err err => _ <- lift cleanup ;; ret (Err err)
  | Ok a => ret (Ok a)
  end.

Definition createBuilder (ctx : Context) (org : Organization)
    (region builderName : string) : M (result (App * Machine)) :=
  let client := flyutil_ClientFromContext ctx in
  (* a nil [flapsClient] panics at its first method call, [WaitForApp] *)
  let flapsClient := ClientFromContext ctx in
  match client with
  | None => panic (* [client.CreateApp] on the nil interface *)
  | Some _ =>
    r <- lift (call_CreateApp ctx (createAppInput org region builderName)) ;;
    match r with
    | Err err => ret (Err err)
    | Ok app =>
      deferOnError (call_DeleteApp ctx builderName) (
        r <- lift (call_AllocateIPAddress ctx (app_Name app) "shared_v4" "" org "") ;;
        match r with
        | Some err => ret (Err err)
        | None =>
          match flapsClient with
          | None => panic
          | Some flaps =>
            r <- lift (call_WaitForApp ctx flaps (app_Name app)) ;;
            match r with
            | Some err =>
                ret (Err (WrapErr ("waiting for app " ++ app_Name app ++ ": ") err))
            | None =>
              r <- lift (createBuilder_loop ctx flaps region 0) ;;
              match r with
              | Err err => ret (Err err)
              | Ok volume =>
                deferOnError (call_DeleteVolume ctx flaps (vol_ID volume)) (
                  r <- lift (call_Launch ctx flaps (launchInput org region app volume)) ;;
                  match r with
                  | Err err => ret (Err err)
                  | Ok mach => ret (Ok (app, mach))
                  end)
              end
            end
          end
        end)
    end
  end.

(** The options of the flaps client [EnsureBuilder] builds for the
    organization's builder app. *)
Definition builderClientOpts (builderApp : App) : NewClientOpts :=
  {| nco_AppName := app_Name builderApp;
     nco_AppCompact := Some
       {| ac_ID := app_ID builderApp;
          ac_Name := app_Name builderApp;
          ac_Status := app_Status builderApp;
          ac_Deployed := app_Deployed builderApp;
          ac_Hostname := app_Hostname builderApp;
          ac_AppURL := app_AppURL builderApp;
          ac_Organization :=
            {| ob_ID := ob_ID (app_Organization builderApp);
               ob_Name := ob_Name (app_Organization builderApp);
               ob_Slug := ob_Slug (app_Organization builderApp);
               ob_RawSlug := ob_RawSlug (app_Organization builderApp);
               ob_PaidPlan := ob_PaidPlan (app_Organization builderApp) |};
          ac_PlatformVersion := app_PlatformVersion builderApp;
          ac_PostgresAppRole := app_PostgresAppRole builderApp |};
     nco_OrgSlug := ob_Slug (app_Organization builderApp) |}.

(** The options of the flaps client [EnsureBuilder] builds for the app it
    is about to create. *)
Definition newClientOpts (org : Organization) (builderName : string) : NewClientOpts :=
  {| nco_AppName := builderName;
     nco_AppCompact := None;
     nco_OrgSlug := org_Slug org |}.

(** The first lines of [EnsureBuilder]: with a builder app recorded, build
    its flaps client and store it in the context. *)
Definition EnsureBuilder_client (ctx : Context) (builderApp : option App)
    : M (result Context) :=
  match builderApp with
  | Some b =>
      let opts := builderClientOpts b in
      r <- lift (call_NewClientWithOptions ctx opts) ;;
      match r with
      | Some err => ret (Err err)
      | None => ret (Ok (NewContextWithClient ctx opts))
      end
  | None => ret (Ok ctx)
  end.

(** [EnsureBuilder] from its call to [validateBuilder] on, [ctx] being the
    context as the first lines left it. *)
Definition EnsureBuilder_validated (ctx : Context) (org : Organization)
    (region : string) (builderApp : option App)
    : M (result (Machine * option App)) :=
  r <- validateBuilder ctx builderApp ;;
  match r with
  | Ok builderMachine => ret (Ok (builderMachine, builderApp))
  | Err err =>
    match asValidateBuilderError err with
    | None => ret (Err err)
    | Some validateBuilderErr =>
      r <- (if negb (validateBuilderErr =? NoBuilderApp)
            then match builderApp, flyutil_ClientFromContext ctx with
                 | Some b, Some _ => lift (call_DeleteApp ctx (app_Name b))
                 | _, _ => panic (* [client.DeleteApp] or [builderApp.Name] on nil *)
                 end
            else ret None) ;;
      match r with
      | Some err => ret (Err err)
      | None =>
        word <- Haikunator_Build ;;
        let builderName := ("fly-builder-" ++ word)%string in
        let opts := newClientOpts org builderName in
        r <- lift (call_NewClientWithOptions ctx opts) ;;
        match r with
        | Some err => ret (Err err)
        | None =>
          let ctx := NewContextWithClient ctx opts in
          r <- createBuilder ctx org region builderName ;;
          match r with
          | Err err => ret (Err err)
          | Ok (app, machine) => ret (Ok (machine, Some app))
          end
        end
      end
    end
  end.

Definition EnsureBuilder (ctx : Context) (org : Organization) (region : string)
    : M (result (Machine * option App)) :=
  let builderApp := org_RemoteBuilderApp org in
  r <- EnsureBuilder_client ctx builderApp ;;
  match r with
  | Err err => ret (Err err)
  | Ok ctx => EnsureBuilder_validated ctx org region builderApp
  end.

(** ** The retry policy in the words of the specification

    The "Retrying Remote Call": run the operation; on a transient failure
    sleep one second and run it again, at most [extra] more times; on any
    other outcome return at once.  [1 + extra] attempts in total. *)
Fixpoint retrying {A} (extra : nat) (attempt : world -> result A * world)
    (w : world) : result A * world :=
  let (r, w1) := attempt w in
  match r with
  | Ok a => (Ok a, w1)
  | Err e =>
      if isServerError e then
        match extra with
        | O => (Err e, w1)
        | S k => retrying k attempt (time_Sleep (1 * Second) w1)
        end
      else (Err e, w1)
  end.

(** What validation answers when listing changes nothing on the remote side:
    a function of the remote state [e], as seen through the client [c] and
    the state [d] of the context. *)
Definition listedOutcome (d : bool) (c : FlapsClient) (e : E) : result Machine :=
  match fst (flaps_GetVolumes d c e) with
  | Err err => Err err
  | Ok [] => Err (ValidateErr NoBuilderVolume)
  | Ok (_ :: _) =>
      match fst (flaps_List d c "" e) with
      | Err err => Err err
      | Ok [m] => Ok m
      | Ok _ => Err (ValidateErr InvalidMachineCount)
      end
  end.

End Program.

(** The context does not change its state from the time [t] on. *)
Definition steady (ctx : Context) (t : Z) : Prop :=
  forall t', t <= t' -> doneAt ctx t' = doneAt ctx t.

(** The log of consecutive attempts of one call, given their answers: a
    one-second sleep sits between two attempts and nowhere else. *)
Fixpoint attemptsLog (c : Call) (answers : list Response) : list Event :=
  match answers with
  | [] => []
  | r :: rest =>
      Called c r ::
      match rest with
      | [] => []
      | _ :: _ => Called (Sleep (1 * Second)) RDone :: attemptsLog c rest
      end
  end.

(** A run of a retry loop with [budget] attempts on the call [c], from the
    world [w] to the outcome [out]: the attempts that were followed by another
    one failed with [failed], all of them server errors, fewer than [budget];
    the last attempt was answered [last], and that answer is the outcome. *)
Definition retryRun {E G A} (budget : nat) (c : Call) (inj : A -> Response)
    (w : World E G) (out : result A * World E G) : Prop :=
  exists (failed : list error) (last : Response),
    Forall (fun e => isServerError e = true) failed /\
    (length failed < budget)%nat /\
    trace (snd out) = trace w ++ attemptsLog c (map RErr failed ++ [last]) /\
    now (snd out) = now w + Z.of_nat (length failed) * Second /\
    rng (snd out) = rng w /\
    last = responseOf inj (fst out) /\
    (forall e, fst out = Err e -> isServerError e = true ->
               S (length failed) = budget).

(** ** A scripted collaborator

    A fake remote API: its state is the list of the answers still to give,
    one per call, whatever the context; the random source is the list of the
    words still to draw. *)

Definition Script := list Response.

Definition answerWith {A} (prj : Response -> option A) (q : Script)
    : result A * Script :=
  match q with
  | [] => (Err (OtherErr "no answer left"), [])
  | RErr e :: q' => (Err e, q')
  | r :: q' =>
      match prj r with
      | Some a => (Ok a, q')
      | None => (Err (OtherErr "unexpected answer"), q')
      end
  end.

Definition answerErr (q : Script) : option error * Script :=
  match q with
  | [] => (Some (OtherErr "no answer left"), [])
  | RErr e :: q' => (Some e, q')
  | RDone :: q' => (None, q')
  | _ :: q' => (Some (OtherErr "unexpected answer"), q')
  end.

Definition asVolumes (r : Response) : option (list Volume) :=
  match r with RVolumes vs => Some vs | _ => None end.

Definition asMachines (r : Response) : option (list Machine) :=
  match r with RMachines ms => Some ms | _ => None end.

Definition asApp (r : Response) : option App :=
  match r with RApp a => Some a | _ => None end.

Definition asVolume (r : Response) : option Volume :=
  match r with RVolume v => Some v | _ => None end.

Definition asMachine (r : Response) : option Machine :=
  match r with RMachine m => Some m | _ => None end.

#[export] Instance scriptFleet : Fleet Script := {|
  flapsutil_NewClientWithOptions := fun _ _ => answerErr;
  flaps_GetVolumes := fun _ _ => answerWith asVolumes;
  flaps_List := fun _ _ _ => answerWith asMachines;
  flaps_WaitForApp := fun _ _ _ => answerErr;
  flaps_CreateVolume := fun _ _ _ => answerWith asVolume;
  flaps_DeleteVolume := fun _ _ _ => answerErr;
  flaps_Launch := fun _ _ _ => answerWith asMachine;
  client_CreateApp := fun _ _ => answerWith asApp;
  client_DeleteApp := fun _ _ => answerErr;
  client_AllocateIPAddress := fun _ _ _ _ _ _ => answerErr
|}.

#[export] Instance wordList : Haikunator (list string) := {|
  haikunator_Build := fun g =>
    match g with
    | [] => (EmptyString, [])
    | s :: g' => (s, g')
    end
|}.

Definition start (q : Script) (words : list string) : World Script (list string) :=
  mkWorld q words 0 [].

(** A context that is never done and carries the API client, as the callers
    of [EnsureBuilder] prepare it, and no flaps client yet. *)
Definition background : Context :=
  {| ctx_doneAt := None; ctx_client := Some fleetClient; ctx_flapsClient := None |}.

Definition acme : OrganizationBasic :=
  {| ob_ID := "org1"; ob_Name := "Acme"; ob_Slug := "acme";
     ob_RawSlug := "acme"; ob_PaidPlan := false |}.

Definition oldBuilder : App :=
  {| app_ID := "app0"; app_Name := "fly-builder-old-moon";
     app_Status := "deployed"; app_Deployed := true;
     app_Hostname := "fly-builder-old-moon.fly.dev";
     app_AppURL := "https://fly-builder-old-moon.fly.dev";
     app_Organization := acme; app_PlatformVersion := "machines";
     app_PostgresAppRole := None |}.

Definition newBuilder : App :=
  {| app_ID := "app1"; app_Name := "fly-builder-red-sun";
     app_Status := "pending"; app_Deployed := false;
     app_Hostname := "fly-builder-red-sun.fly.dev";
     app_AppURL := "https://fly-builder-red-sun.fly.dev";
     app_Organization := acme; app_PlatformVersion := "machines";
     app_PostgresAppRole := None |}.

Definition orgWithout : Organization :=
  {| org_ID := "org1"; org_Slug := "acme"; org_RemoteBuilderImage := "";
     org_RemoteBuilderApp := None |}.

Definition orgWith : Organization :=
  {| org_ID := "org1"; org_Slug := "acme"; org_RemoteBuilderImage := "";
     org_RemoteBuilderApp := Some oldBuilder |}.

(** A remote that only answers listings, from a fixed snapshot that no call
    changes; every other call is refused. *)
Record Snapshot := {
  snap_volumes : result (list Volume);
  snap_machines : result (list Machine)
}.

#[export] Instance snapshotFleet : Fleet Snapshot := {|
  flapsutil_NewClientWithOptions := fun _ _ e => (None, e);
  flaps_GetVolumes := fun _ _ e => (snap_volumes e, e);
  flaps_List := fun _ _ _ e => (snap_machines e, e);
  flaps_WaitForApp := fun _ _ _ e => (Some (OtherErr "read-only"), e);
  flaps_CreateVolume := fun _ _ _ e => (Err (OtherErr "read-only"), e);
  flaps_DeleteVolume := fun _ _ _ e => (Some (OtherErr "read-only"), e);
  flaps_Launch := fun _ _ _ e => (Err (OtherErr "read-only"), e);
  client_CreateApp := fun _ _ e => (Err (OtherErr "read-only"), e);
  client_DeleteApp := fun _ _ e => (Some (OtherErr "read-only"), e);
  client_AllocateIPAddress := fun _ _ _ _ _ _ e => (Some (OtherErr "read-only"), e)
|}.

Definition vol1 : Volume := {| vol_ID := "vol_1" |}.
Definition m1 : Machine := {| mach_ID := "m_1" |}.
Definition m2 : Machine := {| mach_ID := "m_2" |}.

(** ** Rollbacks, read off the log *)

(** The rollback a step registers: a successful app creation registers the
    deletion of that app, a successful volume creation the deletion of that
    volume; no other step registers any. *)
Definition registers (ev : Event) : list Call :=
  match ev with
  | Called (CreateApp input) (RApp _) => [DeleteApp (cai_Name input)]
  | Called (CreateVolume c _) (RVolume v) => [DeleteVolume c (vol_ID v)]
  | _ => []
  end.

(** The rollbacks registered along [steps], last registered first. *)
Definition compensations (steps : list Event) : list Call :=
  rev (flat_map registers steps).

(** The error a failed step makes [createBuilder] return: the error of the
    call, for [WaitForApp] inside
    [fmt.Errorf("waiting for app %s: %w", app.Name, err)]. *)
Definition stepError (ev : Event) : option error :=
  match ev with
  | Called (WaitForApp _ name) (RErr e) =>
      Some (WrapErr ("waiting for app " ++ name ++ ": ") e)
  | Called _ (RErr e) => Some e
  | _ => None
  end.

(** The first three steps of [createBuilder], all successful. *)
Definition readySteps (c : FlapsClient) (org : Organization) (region name : string)
    (app : App) : list Event :=
  [Called (CreateApp (createAppInput org region name)) (RApp app);
   Called (AllocateIPAddress (app_Name app) "shared_v4" "" org "") RDone;
   Called (WaitForApp c (app_Name app)) RDone].

(** The runs of [createBuilder] with the flaps client [c]: the calls it
    makes, with their answers, and what it returns. *)
Inductive createRun (c : FlapsClient) (org : Organization) (region name : string)
    : list Event -> result (App * Machine) -> Prop :=
| CreateApp_failed e :
    createRun c org region name
      [Called (CreateApp (createAppInput org region name)) (RErr e)]
      (Err e)
| Allocate_failed app e rb :
    createRun c org region name
      [Called (CreateApp (createAppInput org region name)) (RApp app);
       Called (AllocateIPAddress (app_Name app) "shared_v4" "" org "") (RErr e);
       Called (DeleteApp name) rb]
      (Err e)
| Wait_failed app e rb :
    createRun c org region name
      [Called (CreateApp (createAppInput org region name)) (RApp app);
       Called (AllocateIPAddress (app_Name app) "shared_v4" "" org "") RDone;
       Called (WaitForApp c (app_Name app)) (RErr e);
       Called (DeleteApp name) rb]
      (Err (WrapErr ("waiting for app " ++ app_Name app ++ ": ") e))
| Volume_failed app failed e rb :
    Forall (fun e => isServerError e = true) failed ->
    (length failed < 5)%nat ->
    createRun c org region name
      (readySteps c org region name app
       ++ attemptsLog (CreateVolume c (createVolumeRequest region))
            (map RErr failed ++ [RErr e])
       ++ [Called (DeleteApp name) rb])
      (Err e)
| Launch_failed app failed volume e rb1 rb2 :
    Forall (fun e => isServerError e = true) failed ->
    (length failed < 5)%nat ->
    createRun c org region name
      (readySteps c org region name app
       ++ attemptsLog (CreateVolume c (createVolumeRequest region))
            (map RErr failed ++ [RVolume volume])
       ++ [Called (Launch c (launchInput org region app volume)) (RErr e);
           Called (DeleteVolume c (vol_ID volume)) rb1;
           Called (DeleteApp name) rb2])
      (Err e)
| Created app failed volume mach :
    Forall (fun e => isServerError e = true) failed ->
    (length failed < 5)%nat ->
    createRun c org region name
      (readySteps c org region name app
       ++ attemptsLog (CreateVolume c (createVolumeRequest region))
            (map RErr failed ++ [RVolume volume])
       ++ [Called (Launch c (launchInput org region app volume)) (RMachine mach)])
      (Ok (app, mach)).

(** What [EnsureBuilder] returns for a result of [createBuilder]. *)
Definition ensured (r : result (App * Machine)) : result (Machine * option App) :=
  match r with
  | Ok (app, machine) => Ok (machine, Some app)
  | Err err => Err err
  end.

(** The runs of the last part of [EnsureBuilder], from the generated [word]
    on: the flaps client for the new name, then [createBuilder]. *)
Inductive provisionRun (org : Organization) (region word : string)
    : list Event -> result (Machine * option App) -> Prop :=
| Client_failed e :
    provisionRun org region word
      [Called (NewClientWithOptions (newClientOpts org ("fly-builder-" ++ word)))
         (RErr e)]
      (Err e)
| Provisioned evs r :
    createRun (newClientOpts org ("fly-builder-" ++ word)) org region
      ("fly-builder-" ++ word) evs r ->
    provisionRun org region word
      (Called (NewClientWithOptions (newClientOpts org ("fly-builder-" ++ word)))
         RDone :: evs)
      (ensured r).

(** The runs of [EnsureBuilder] after a validation that reported [reason]. *)
Inductive recreateRun (org : Organization) (region : string)
    (builderApp : option App) (reason : ValidateBuilderError) (word : string)
    : list Event -> result (Machine * option App) -> Prop :=
| Delete_failed b e :
    reason <> NoBuilderApp ->
    builderApp = Some b ->
    recreateRun org region builderApp reason word
      [Called (DeleteApp (app_Name b)) (RErr e)] (Err e)
| Deleted b evs out :
    reason <> NoBuilderApp ->
    builderApp = Some b ->
    provisionRun org region word evs out ->
    recreateRun org region builderApp reason word
      (Called (DeleteApp (app_Name b)) RDone :: evs) out
| Fresh evs out :
    reason = NoBuilderApp ->
    provisionRun org region word evs out ->
    recreateRun org region builderApp reason word evs out.

(** The calls [evs] open the creation of a builder named [name]: first the
    flaps client for that name is built; when that fails its error is the
    outcome and nothing follows; when it succeeds the next call creates the
    app under that name. *)
Definition creationStarts (org : Organization) (region name : string)
    (out : result (Machine * option App)) (evs : list Event) : Prop :=
  exists resp rest,
    evs = Called (NewClientWithOptions (newClientOpts org name)) resp :: rest /\
    (forall e, resp = RErr e -> out = Err e /\ rest = []) /\
    (resp = RDone ->
     exists r later,
       rest = Called (CreateApp (createAppInput org region name)) r :: later).

(** A run of a retry loop seen through the classifier, from the world [w]
    to the outcome [out], [attempt] being its remote call.  [answers] are the
    answers to its attempts in order: there is at least one, the first is
    what the remote answers on the world as the loop found it, the last is
    the outcome, and the log holds exactly these attempts, a one-second sleep
    between two of them.  An attempt is followed by another one exactly when
    it failed with a server error and the budget allows one more; so any
    other error ends the run at once, as its outcome. *)
Definition classifiedRun {E G A} (budget : nat) (c : Call) (inj : A -> Response)
    (attempt : World E G -> result A * World E G)
    (w : World E G) (out : result A * World E G) : Prop :=
  exists answers : list (result A),
    (exists earlier, answers = earlier ++ [fst out]) /\
    hd_error answers = Some (fst (attempt w)) /\
    trace (snd out) = trace w ++ attemptsLog c (map (responseOf inj) answers) /\
    (forall i r,
       nth_error answers i = Some r ->
       ((S i < length answers)%nat <->
        exists e, r = Err e /\ isServerError e = true /\ (S i < budget)%nat)) /\
    (forall i e,
       nth_error answers i = Some (Err e) ->
       isServerError e = false ->
       fst out = Err e /\ S i = length answers).

(** ** Runs used as examples *)

Definition oldClient : FlapsClient := builderClientOpts oldBuilder.

Definition ctxOld : Context := NewContextWithClient background oldClient.

Definition newName : string := "fly-builder-red-sun".

Definition newClient : FlapsClient := newClientOpts orgWithout newName.

Definition ctxNew : Context := NewContextWithClient background newClient.

Definition unavailable : Response := RErr (FlapsError 503).

(** The builder is there, with one volume and one machine. *)
Definition healthy : World Script (list string) :=
  start [RVolumes [vol1]; RMachines [m1]] [].

Definition healthy_listed : World Script (list string) :=
  mkWorld [RMachines [m1]] [] 0 [Called (GetVolumes oldClient) (RVolumes [vol1])].

Definition healthy_validated : World Script (list string) :=
  mkWorld [] [] 0
    [Called (GetVolumes oldClient) (RVolumes [vol1]);
     Called (ListMachines oldClient "") (RMachines [m1])].

(** The volume listing fails once, then finds no volume. *)
Definition volumeless : World Script (list string) :=
  start [unavailable; RVolumes []] [].

Definition volumeless_validated : World Script (list string) :=
  mkWorld [] [] Second
    (attemptsLog (GetVolumes oldClient) [unavailable; RVolumes []]).

(** A creation whose launch fails; the two rollbacks are answered with an
    error and with success. *)
Definition launchFails : World Script (list string) :=
  start [RApp newBuilder; RDone; RDone; unavailable; RVolume vol1;
         RErr (OtherErr "no capacity"); RErr (OtherErr "volume busy"); RDone] [].

Definition launchFails_end : World Script (list string) :=
  mkWorld [] [] Second
    (readySteps newClient orgWithout "ams" newName newBuilder
     ++ attemptsLog (CreateVolume newClient (createVolumeRequest "ams"))
          [unavailable; RVolume vol1]
     ++ [Called (Launch newClient (launchInput orgWithout "ams" newBuilder vol1))
           (RErr (OtherErr "no capacity"));
         Called (DeleteVolume newClient "vol_1") (RErr (OtherErr "volume busy"));
         Called (DeleteApp newName) RDone]).

(** A creation whose volume creation is answered 503 five times. *)
Definition volumeExhausted : World Script (list string) :=
  start [RApp newBuilder; RDone; RDone; unavailable; unavailable; unavailable;
         unavailable; unavailable; RDone] [].

Definition volumeExhausted_end : World Script (list string) :=
  mkWorld [] [] (4 * Second)
    (readySteps newClient orgWithout "ams" newName newBuilder
     ++ attemptsLog (CreateVolume newClient (createVolumeRequest "ams"))
          [unavailable; unavailable; unavailable; unavailable; unavailable]
     ++ [Called (DeleteApp newName) RDone]).

(** A creation whose launch is answered 503 once. *)
Definition launchUnavailable : World Script (list string) :=
  start [RApp newBuilder; RDone; RDone; RVolume vol1; unavailable; RDone; RDone] [].

Definition launchUnavailable_end : World Script (list string) :=
  mkWorld [] [] 0
    (readySteps newClient orgWithout "ams" newName newBuilder
     ++ [Called (CreateVolume newClient (createVolumeRequest "ams")) (RVolume vol1);
         Called (Launch newClient (launchInput orgWithout "ams" newBuilder vol1))
           unavailable;
         Called (DeleteVolume newClient "vol_1") RDone;
         Called (DeleteApp newName) RDone]).

(** A creation that succeeds. *)
Definition provisions : World Script (list string) :=
  start [RApp newBuilder; RDone; RDone; RVolume vol1; RMachine m1] [].

Definition provisions_end : World Script (list string) :=
  mkWorld [] [] 0
    (readySteps newClient orgWithout "ams" newName newBuilder
     ++ [Called (CreateVolume newClient (createVolumeRequest "ams")) (RVolume vol1);
         Called (Launch newClient (launchInput orgWithout "ams" newBuilder vol1))
           (RMachine m1)]).

(** [EnsureBuilder] for an organization without a builder: the flaps client,
    then a creation that succeeds. *)
Definition firstRun : World Script (list string) :=
  start [RDone; RApp newBuilder; RDone; RDone; RVolume vol1; RMachine m1]
    ["red-sun"%string].

Definition firstRun_end : World Script (list string) :=
  mkWorld [] [] 0
    (Called (NewClientWithOptions newClient) RDone :: trace provisions_end).

(** [EnsureBuilder] for an organization whose builder has lost its volume:
    the old app is deleted and a new one created. *)
Definition replaces (word : string) (created : App) : World Script (list string) :=
  start [RDone; RVolumes []; RDone; RDone; RApp created; RDone; RDone;
         RVolume vol1; RMachine m1] [word].

Definition replaces_client (word : string) (created : App)
    : World Script (list string) :=
  mkWorld [RVolumes []; RDone; RDone; RApp created; RDone; RDone;
           RVolume vol1; RMachine m1] [word] 0
    [Called (NewClientWithOptions oldClient) RDone].

Definition replaces_validated (word : string) (created : App)
    : World Script (list string) :=
  mkWorld [RDone; RDone; RApp created; RDone; RDone; RVolume vol1; RMachine m1]
    [word] 0
    [Called (NewClientWithOptions oldClient) RDone;
     Called (GetVolumes oldClient) (RVolumes [])].

Definition replaces_end (word : string) (created : App)
    : World Script (list string) :=
  let name := ("fly-builder-" ++ word)%string in
  let c := newClientOpts orgWith name in
  mkWorld [] [] 0
    ([Called (NewClientWithOptions oldClient) RDone;
      Called (GetVolumes oldClient) (RVolumes []);
      Called (DeleteApp "fly-builder-old-moon") RDone;
      Called (NewClientWithOptions c) RDone]
     ++ readySteps c orgWith "ams" name created
     ++ [Called (CreateVolume c (createVolumeRequest "ams")) (RVolume vol1);
         Called (Launch c (launchInput orgWith "ams" created vol1)) (RMachine m1)]).

(** The app the remote answers with when asked to create
    "fly-builder-old-moon" again. *)
Definition sameNameBuilder : App :=
  {| app_ID := "app2"; app_Name := "fly-builder-old-moon";
     app_Status := "pending"; app_Deployed := false;
     app_Hostname := "fly-builder-old-moon.fly.dev";
     app_AppURL := "https://fly-builder-old-moon.fly.dev";
     app_Organization := acme; app_PlatformVersion := "machines";
     app_PostgresAppRole := None |}.

(** Two creations in a row, for two calls of [EnsureBuilder] with the same
    organization. *)
Definition otherBuilder : App :=
  {| app_ID := "app3"; app_Name := "fly-builder-blue-sky";
     app_Status := "pending"; app_Deployed := false;
     app_Hostname := "fly-builder-blue-sky.fly.dev";
     app_AppURL := "https://fly-builder-blue-sky.fly.dev";
     app_Organization := acme; app_PlatformVersion := "machines";
     app_PostgresAppRole := None |}.

Definition vol2 : Volume := {| vol_ID := "vol_2" |}.

Definition twice : World Script (list string) :=
  start [RDone; RApp newBuilder; RDone; RDone; RVolume vol1; RMachine m1;
         RDone; RApp otherBuilder; RDone; RDone; RVolume vol2; RMachine m2]
    ["red-sun"; "blue-sky"]%string.

Definition twice_once : World Script (list string) :=
  mkWorld [RDone; RApp otherBuilder; RDone; RDone; RVolume vol2; RMachine m2]
    ["blue-sky"%string] 0 (trace firstRun_end).

Definition blueClient : FlapsClient := newClientOpts orgWithout "fly-builder-blue-sky".

Definition twice_second : list Event :=
  Called (NewClientWithOptions blueClient) RDone
  :: readySteps blueClient orgWithout "ams" "fly-builder-blue-sky" otherBuilder
  ++ [Called (CreateVolume blueClient (createVolumeRequest "ams")) (RVolume vol2);
      Called (Launch blueClient (launchInput orgWithout "ams" otherBuilder vol2))
        (RMachine m2)].

Definition twice_end : World Script (list string) :=
  mkWorld [] [] 0 (trace firstRun_end ++ twice_second).

(** A valid builder on a remote that listing does not change. *)
Definition settled : World Snapshot (list string) :=
  mkWorld {| snap_volumes := Ok [vol1]; snap_machines := Ok [m1] |} [] 0 [].

Definition settled_run : list Event :=
  [Called (NewClientWithOptions oldClient) RDone;
   Called (GetVolumes oldClient) (RVolumes [vol1]);
   Called (ListMachines oldClient "") (RMachines [m1])].

Definition settled_once : World Snapshot (list string) :=
  mkWorld (env settled) [] 0 settled_run.

Definition settled_twice : World Snapshot (list string) :=
  mkWorld (env settled) [] 0 (settled_run ++ settled_run).

(** A remote call that reports the cancellation of its context. *)
Definition cancelReported : World Script (list string) :=
  start [RErr (OtherErr "context canceled"); RVolumes [vol1]] [].

Definition cancelReported_end : World Script (list string) :=
  mkWorld [RVolumes [vol1]] [] 0
    [Called (GetVolumes oldClient) (RErr (OtherErr "context canceled"))].

(** A context cancelled one nanosecond after the start, and a remote that
    keeps answering 503. *)
Definition cancelledSoon : Context :=
  {| ctx_doneAt := Some 1;
     ctx_client := Some fleetClient;
     ctx_flapsClient := Some oldClient |}.

Definition failing : World Script (list string) :=
  start [unavailable; unavailable; unavailable; RVolumes [vol1]] [].

(** A remote that answers 503, then 404. *)
Definition refusing : World Script (list string) :=
  start [unavailable; RErr (FlapsError 404); RVolumes [vol1]] [].

Definition refusing_end : World Script (list string) :=
  mkWorld [RVolumes [vol1]] [] (1 * Second)
    (attemptsLog (GetVolumes oldClient) [unavailable; RErr (FlapsError 404)]).

Definition failing_end : World Script (list string) :=
  mkWorld [RVolumes [vol1]] [] (2 * Second)
    (attemptsLog (GetVolumes oldClient) [unavailable; unavailable; unavailable]).

(** ** Measures on the log *)

(** The number of calls to the collaborators in a log, the sleeps left out. *)
Definition remoteCalls (evs : list Event) : nat :=
  length (filter (fun ev => isRemote (ev_call ev)) evs).

(** The time slept along a log, in nanoseconds. *)
Definition slept (evs : list Event) : Z :=
  fold_right (fun ev t => match ev_call ev with
                          | Sleep d => d + t
                          | _ => t
                          end) 0 evs.

(** What a log leaves behind on the remote side: the names of the apps and
    the ids of the volumes whose creation succeeded and that no later call
    deleted, and the machines launched. *)
Record Live := {
  live_apps : list string;
  live_volumes : list string;
  live_machines : list Machine
}.

Definition nothing : Live :=
  {| live_apps := []; live_volumes := []; live_machines := [] |}.

Definition without (x : string) (l : list string) : list string :=
  filter (fun y => negb (String.eqb x y)) l.

Definition account (l : Live) (ev : Event) : Live :=
  match ev with
  | Called (CreateApp input) (RApp _) =>
      {| live_apps := cai_Name input :: live_apps l;
         live_volumes := live_volumes l;
         live_machines := live_machines l |}
  | Called (CreateVolume _ _) (RVolume v) =>
      {| live_apps := live_apps l;
         live_volumes := vol_ID v :: live_volumes l;
         live_machines := live_machines l |}
  | Called (Launch _ _) (RMachine m) =>
      {| live_apps := live_apps l;
         live_volumes := live_volumes l;
         live_machines := m :: live_machines l |}
  | Called (DeleteApp name) _ =>
      {| live_apps := without name (live_apps l);
         live_volumes := live_volumes l;
         live_machines := live_machines l |}
  | Called (DeleteVolume _ id) _ =>
      {| live_apps := live_apps l;
         live_volumes := without id (live_volumes l);
         live_machines := live_machines l |}
  | _ => l
  end.

Definition leftover (evs : list Event) : Live := fold_left account evs nothing.

(** The number of calls of one sort in a log. *)
Definition calls (p : Call -> bool) (evs : list Event) : nat :=
  length (filter (fun ev => p (ev_call ev)) evs).

Definition isCreateApp (c : Call) : bool :=
  match c with CreateApp _ => true | _ => false end.

Definition isAllocateIPAddress (c : Call) : bool :=
  match c with AllocateIPAddress _ _ _ _ _ => true | _ => false end.

Definition isCreateVolume (c : Call) : bool :=
  match c with CreateVolume _ _ => true | _ => false end.

Definition isLaunch (c : Call) : bool :=
  match c with Launch _ _ => true | _ => false end.

Definition isDeleteApp (c : Call) : bool :=
  match c with DeleteApp _ => true | _ => false end.

Definition isDeleteVolume (c : Call) : bool :=
  match c with DeleteVolume _ _ => true | _ => false end.

(** ** Further runs used as examples *)

(** The longest run of [EnsureBuilder]: every listing and the volume creation
    go to their last attempt, the builder has no machine, and the launch of
    the new one fails. *)
Definition longest : World Script (list string) :=
  start [RDone;
         unavailable; unavailable; RVolumes [vol1];
         unavailable; unavailable; RMachines [];
         RDone; RDone;
         RApp newBuilder; RDone; RDone;
         unavailable; unavailable; unavailable; unavailable; RVolume vol2;
         RErr (OtherErr "no capacity"); RDone; RDone]
    ["red-sun"%string].

Definition redClient : FlapsClient := newClientOpts orgWith "fly-builder-red-sun".

Definition longest_run : list Event :=
  [Called (NewClientWithOptions oldClient) RDone]
  ++ attemptsLog (GetVolumes oldClient) [unavailable; unavailable; RVolumes [vol1]]
  ++ attemptsLog (ListMachines oldClient "") [unavailable; unavailable; RMachines []]
  ++ [Called (DeleteApp "fly-builder-old-moon") RDone;
      Called (NewClientWithOptions redClient) RDone]
  ++ readySteps redClient orgWith "ams" "fly-builder-red-sun" newBuilder
  ++ attemptsLog (CreateVolume redClient (createVolumeRequest "ams"))
       [unavailable; unavailable; unavailable; unavailable; RVolume vol2]
  ++ [Called (Launch redClient (launchInput orgWith "ams" newBuilder vol2))
        (RErr (OtherErr "no capacity"));
      Called (DeleteVolume redClient "vol_2") RDone;
      Called (DeleteApp "fly-builder-red-sun") RDone].

Definition longest_end : World Script (list string) :=
  mkWorld [] [] (8 * Second) longest_run.


(** The volume listing of the builder is answered 404. *)
Definition notFound : World Script (list string) :=
  start [RDone; RErr (FlapsError 404); RVolumes [vol1]] ["red-sun"%string].

Definition notFound_client : World Script (list string) :=
  mkWorld [RErr (FlapsError 404); RVolumes [vol1]] ["red-sun"%string] 0
    [Called (NewClientWithOptions oldClient) RDone].

Definition notFound_end : World Script (list string) :=
  mkWorld [RVolumes [vol1]] ["red-sun"%string] 0
    [Called (NewClientWithOptions oldClient) RDone;
     Called (GetVolumes oldClient) (RErr (FlapsError 404))].

(** * Properties *)

Section Facts.

Context {E G : Type} {fleet : Fleet E} {haiku : Haikunator G}.

Let world := World E G.

Notation "x <- m ;; k" := (bind m (fun x => k))
  (at level 100, m at next level, right associativity) : go_scope.

Local Open Scope go_scope.

(** ** One call *)

Lemma invoke_inv {A} ctx c (inj : A -> Response) op (w : world) a w1 :
  invoke ctx c inj op w = (a, w1) ->
  trace w1 = trace w ++ [Called c (inj a)] /\ now w1 = now w /\ rng w1 = rng w /\
  op (doneAt ctx (now w)) (env w) = (a, env w1).
Proof.
  unfold invoke. destruct (op _ _) as [a' e]. intros [= <- <-]. now cbn.
Qed.

Lemma time_Sleep_trace d (w : world) :
  trace (time_Sleep d w) = trace w ++ [Called (Sleep d) RDone].
Proof. reflexivity. Qed.

(** ** The loops are the retry policy *)

Lemma retriesLeft_last budget n :
  (n + 1 >=? budget + 1) = true -> retriesLeft budget n = 0%nat.
Proof. unfold retriesLeft. rewrite Z.geb_leb, Z.leb_le. lia. Qed.

Lemma retriesLeft_more budget n :
  (n + 1 >=? budget + 1) = false ->
  retriesLeft budget n = S (retriesLeft budget (n + 1)).
Proof. unfold retriesLeft. rewrite Z.geb_leb, Z.leb_gt. lia. Qed.

Lemma validateBuilderVolumes_loop_retrying ctx c n (w : world) :
  validateBuilderVolumes_loop ctx c n w
  = retrying (retriesLeft 2 n) (call_GetVolumes ctx c) w.
Proof.
  funelim (validateBuilderVolumes_loop ctx c n w).
  - destruct (retriesLeft 2 numRetries); cbn; now rewrite Heq.
  - destruct (retriesLeft 2 numRetries); cbn; now rewrite Heq0, Heq.
  - rewrite (retriesLeft_last 2 numRetries) by assumption.
    cbn. now rewrite Heq0, Heq.
  - rewrite (retriesLeft_more 2 numRetries) by assumption.
    cbn. now rewrite Heq0, Heq.
Qed.

Lemma validateBuilderMachines_loop_retrying ctx c n (w : world) :
  validateBuilderMachines_loop ctx c n w
  = retrying (retriesLeft 2 n) (call_List ctx c "") w.
Proof.
  funelim (validateBuilderMachines_loop ctx c n w).
  - destruct (retriesLeft 2 numRetries); cbn; now rewrite Heq.
  - destruct (retriesLeft 2 numRetries); cbn; now rewrite Heq0, Heq.
  - rewrite (retriesLeft_last 2 numRetries) by assumption.
    cbn. now rewrite Heq0, Heq.
  - rewrite (retriesLeft_more 2 numRetries) by assumption.
    cbn. now rewrite Heq0, Heq.
Qed.

Lemma createBuilder_loop_retrying ctx c region n (w : world) :
  createBuilder_loop ctx c region n w
  = retrying (retriesLeft 4 n)
      (call_CreateVolume ctx c (createVolumeRequest region)) w.
Proof.
  funelim (createBuilder_loop ctx c region n w).
  - destruct (retriesLeft 4 numRetries); cbn; now rewrite Heq.
  - destruct (retriesLeft 4 numRetries); cbn; now rewrite Heq0, Heq.
  - rewrite (retriesLeft_last 4 numRetries) by assumption.
    cbn. now rewrite Heq0, Heq.
  - rewrite (retriesLeft_more 4 numRetries) by assumption.
    cbn. now rewrite Heq0, Heq.
Qed.

(** ** What a run of the retry policy looks like *)

Lemma attemptsLog_failed c e rest last :
  attemptsLog c (RErr e :: rest ++ [last])
  = Called c (RErr e) :: Called (Sleep (1 * Second)) RDone
      :: attemptsLog c (rest ++ [last]).
Proof. cbn [attemptsLog]. now destruct rest. Qed.

Lemma retrying_retryRun {A} ctx c (inj : A -> Response) op extra (w : world) :
  retryRun (S extra) c inj w
    (retrying extra (invoke ctx c (responseOf inj) op) w).
Proof.
  revert w. induction extra as [|k IH]; intros w; cbn [retrying].
  - destruct (invoke _ _ _ _ w) as [r w1] eqn:Hcall.
    apply invoke_inv in Hcall as (Ht & Hn & Hr & _).
    assert (Hone : retryRun 1 c inj w (r, w1)).
    { exists [], (responseOf inj r). cbn.
      repeat split; auto; try lia. }
    destruct r as [a|e]; [exact Hone|].
    now destruct (isServerError e).
  - destruct (invoke _ _ _ _ w) as [r w1] eqn:Hcall.
    apply invoke_inv in Hcall as (Ht & Hn & Hr & _).
    assert (Hone : forall e', r = Err e' -> isServerError e' = false ->
                   retryRun (S (S k)) c inj w (r, w1)).
    { intros e' -> He'. exists [], (RErr e'). cbn.
      repeat split; auto; try lia.
      intros e [= <-]. congruence. }
    destruct r as [a|e].
    + exists [], (inj a). cbn. repeat split; auto; try lia. discriminate.
    + destruct (isServerError e) eqn:He; [|now apply (Hone e)].
      destruct (IH (time_Sleep (1 * Second) w1))
        as (failed & last & Hall & Hlen & Htr & Hnow & Hrng & Hlast & Hex).
      exists (e :: failed), last. cbn [map app length].
      rewrite attemptsLog_failed.
      repeat split; auto; try lia.
      * rewrite Htr, time_Sleep_trace, Ht. cbn. now rewrite <- !app_assoc.
      * rewrite Hnow. cbn [time_Sleep now]. rewrite Hn. lia.
      * rewrite Hrng. cbn. exact Hr.
      * intros e' He' Hs. f_equal. now apply (Hex e').
Qed.

Lemma validateBuilderVolumes_retrying ctx c (w : world) :
  validateBuilderVolumes ctx (Some c) w
  = match retrying 2 (call_GetVolumes ctx c) w with
    | (Err err, w1) => Some (Err err, w1)
    | (Ok [], w1) => Some (Err (ValidateErr NoBuilderVolume), w1)
    | (Ok (v :: _), w1) => Some (Ok v, w1)
    end.
Proof.
  unfold validateBuilderVolumes, bind, onClient, lift, ret.
  rewrite validateBuilderVolumes_loop_retrying.
  change (retriesLeft 2 0) with 2%nat.
  destruct (retrying 2 _ w) as [[[|v vs]|err] w1]; reflexivity.
Qed.

Lemma validateBuilderMachines_retrying ctx c (w : world) :
  validateBuilderMachines ctx (Some c) w
  = match retrying 2 (call_List ctx c "") w with
    | (Err err, w1) => Some (Err err, w1)
    | (Ok [m], w1) => Some (Ok m, w1)
    | (Ok _, w1) => Some (Err (ValidateErr InvalidMachineCount), w1)
    end.
Proof.
  unfold validateBuilderMachines, bind, onClient, lift, ret.
  rewrite validateBuilderMachines_loop_retrying.
  change (retriesLeft 2 0) with 2%nat.
  destruct (retrying 2 _ w) as [[[|m [|m' ms]]|err] w1]; reflexivity.
Qed.

Lemma validateBuilder_retrying ctx a c (w : world) :
  ClientFromContext ctx = Some c ->
  validateBuilder ctx (Some a) w
  = match retrying 2 (call_GetVolumes ctx c) w with
    | (Err err, w1) => Some (Err err, w1)
    | (Ok [], w1) => Some (Err (ValidateErr NoBuilderVolume), w1)
    | (Ok (_ :: _), w1) =>
        match retrying 2 (call_List ctx c "") w1 with
        | (Err err, w2) => Some (Err err, w2)
        | (Ok [m], w2) => Some (Ok m, w2)
        | (Ok _, w2) => Some (Err (ValidateErr InvalidMachineCount), w2)
        end
    end.
Proof.
  intros Hc. unfold validateBuilder. rewrite Hc. unfold bind.
  rewrite validateBuilderVolumes_retrying.
  destruct (retrying 2 _ w) as [[[|v vs]|err] w1]; try reflexivity.
  rewrite validateBuilderMachines_retrying.
  destruct (retrying 2 _ w1) as [[[|m [|m' ms]]|err] w2]; reflexivity.
Qed.

(** C1. [validateBuilder]: without a builder app the outcome is
    [NoBuilderApp]; with one, when the retried volume listing succeeds with an
    empty list the outcome is [NoBuilderVolume]; when it succeeds with a
    non-empty list and the retried machine listing succeeds, the outcome is
    [InvalidMachineCount] unless that list holds exactly one machine, and
    then it is that machine.  The cases cover every successful pair of
    listings. *)
Theorem validateBuilder_outcome ctx app (w : world) :
  (app = None ->
   validateBuilder ctx app w = Some (Err (ValidateErr NoBuilderApp), w)) /\
  (forall a c volumes w1,
     app = Some a ->
     ClientFromContext ctx = Some c ->
     retrying 2 (call_GetVolumes ctx c) w = (Ok volumes, w1) ->
     (volumes = [] ->
      validateBuilder ctx app w = Some (Err (ValidateErr NoBuilderVolume), w1)) /\
     (volumes <> [] ->
      forall machines w2,
        retrying 2 (call_List ctx c "") w1 = (Ok machines, w2) ->
        (length machines <> 1%nat ->
         validateBuilder ctx app w
         = Some (Err (ValidateErr InvalidMachineCount), w2)) /\
        (forall m, machines = [m] ->
         validateBuilder ctx app w = Some (Ok m, w2)))).
Proof.
  split.
  - intros ->. reflexivity.
  - intros a c volumes w1 -> Hc Hvols.
    rewrite (validateBuilder_retrying ctx a c w Hc), Hvols.
    split.
    + intros ->. reflexivity.
    + intros Hne machines w2 Hms.
      destruct volumes as [|v vs]; [congruence|].
      rewrite Hms. split.
      * intros Hlen. destruct machines as [|m [|m' ms]]; cbn in *;
          try reflexivity; congruence.
      * intros m ->. reflexivity.
Qed.

Lemma GetVolumes_retryRun ctx c extra (w : world) :
  retryRun (S extra) (GetVolumes c) RVolumes w
    (retrying extra (call_GetVolumes ctx c) w).
Proof. apply retrying_retryRun. Qed.

Lemma List_retryRun ctx c extra (w : world) :
  retryRun (S extra) (ListMachines c "") RMachines w
    (retrying extra (call_List ctx c "") w).
Proof. apply retrying_retryRun. Qed.

Lemma CreateVolume_retryRun ctx c req extra (w : world) :
  retryRun (S extra) (CreateVolume c req) RVolume w
    (retrying extra (call_CreateVolume ctx c req) w).
Proof. apply retrying_retryRun. Qed.

(** ** Retry budgets and the classifier *)

Lemma isServerError_spec e :
  isServerError e = true <->
  exists code, asFlapsError e = Some code /\ 500 <= code <= 599.
Proof.
  unfold isServerError. destruct (asFlapsError e) as [code|].
  - rewrite andb_true_iff, Z.geb_leb, Z.leb_le, Z.ltb_lt. split.
    + intros [? ?]. exists code. split; [reflexivity|lia].
    + intros (code' & [= <-] & ?). lia.
  - split; [discriminate|]. now intros (code & ? & _).
Qed.

Lemma retrying_classifiedRun {A} ctx c (inj : A -> Response) op extra (w : world) :
  classifiedRun (S extra) c inj (invoke ctx c (responseOf inj) op) w
    (retrying extra (invoke ctx c (responseOf inj) op) w).
Proof.
  revert w. induction extra as [|k IH]; intros w; cbn [retrying].
  - destruct (invoke _ _ _ _ w) as [r w1] eqn:Hcall.
    pose proof Hcall as Hinv. apply invoke_inv in Hinv as (Ht & _).
    assert (Hout : (let (r0, w0) := (r, w1) in
                    match r0 with
                    | Ok a => (Ok a, w0)
                    | Err e => if isServerError e then (Err e, w0) else (Err e, w0)
                    end) = (r, w1)).
    { destruct r as [a|e]; [reflexivity|now destruct (isServerError e)]. }
    cbv beta iota in Hout.
    replace (match r with
             | Ok a => (Ok a, w1)
             | Err e => if isServerError e then (Err e, w1) else (Err e, w1)
             end) with (r, w1).
    exists [r]. cbn [fst snd map attemptsLog length hd_error].
    split; [now exists []|]. rewrite Hcall. split; [reflexivity|].
    split; [exact Ht|]. split.
    + intros [|i] r0 Hi; [|now destruct i].
      split; [lia|]. intros (e & _ & _ & Hb). lia.
    + intros [|i] e Hi Hs; [|now destruct i].
      injection Hi as ->. now split.
  - destruct (invoke _ _ _ _ w) as [r w1] eqn:Hcall.
    pose proof Hcall as Hinv. apply invoke_inv in Hinv as (Ht & _).
    assert (Hone : (forall e, r = Err e -> isServerError e = false) ->
                   classifiedRun (S (S k)) c inj (invoke ctx c (responseOf inj) op)
                     w (r, w1)).
    { intros Hr. exists [r]. cbn [fst snd map attemptsLog length hd_error].
      split; [now exists []|]. rewrite Hcall. split; [reflexivity|].
      split; [exact Ht|]. split.
      - intros [|i] r0 Hi; [|now destruct i].
        injection Hi as <-. split; [lia|].
        intros (e & He & Hs & _). rewrite (Hr e He) in Hs. discriminate.
      - intros [|i] e Hi Hs; [|now destruct i].
        injection Hi as ->. now split. }
    destruct r as [a|e]; [apply Hone; discriminate|].
    destruct (isServerError e) eqn:He; [|apply Hone; now intros e' [= <-]].
    destruct (IH (time_Sleep (1 * Second) w1))
      as (answers & [earlier Hlast] & Hhd & Htr & Hiff & Hend).
    exists (Err e :: answers). cbn [hd_error]. rewrite Hcall. cbn [fst].
    split; [exists (Err e :: earlier); now rewrite Hlast|].
    split; [reflexivity|]. split.
    + rewrite Htr, time_Sleep_trace, Ht, Hlast, map_app. cbn [map responseOf].
      rewrite map_app. cbn [map app]. rewrite attemptsLog_failed.
      now rewrite <- !app_assoc.
    + assert (Hlen : (0 < length answers)%nat).
      { rewrite Hlast, length_app. cbn. lia. }
      split.
      * intros [|i] r0 Hi; cbn [nth_error length] in *.
        -- injection Hi as <-. split; [|lia]. intros _. exists e.
           repeat split; auto. lia.
        -- specialize (Hiff i r0 Hi). split.
           ++ intros Hlt. destruct Hiff as [Hiff _].
              destruct Hiff as (e0 & -> & Hs & Hb); [lia|].
              exists e0. repeat split; auto. lia.
           ++ intros (e0 & -> & Hs & Hb). destruct Hiff as [_ Hiff].
              assert (S i < length answers)%nat; [|lia].
              apply Hiff. exists e0. repeat split; auto. lia.
      * intros [|i] e0 Hi Hs; cbn [nth_error length] in *.
        -- injection Hi as <-. congruence.
        -- destruct (Hend i e0 Hi Hs) as [Ho Hl]. split; [exact Ho|lia].
Qed.

(** C4, amended. The two listing loops make at most 3 attempts and the
    volume creation loop at most 5; between two attempts, and only there, the
    loop sleeps [1 * time.Second]; the outcome is the answer to the last
    attempt as the remote gave it, so a loop that used up its budget returns
    the last error it saw, with nothing added to it.  A returned error that
    is a server error (status 500 to 599) always comes from a used-up budget:
    within one loop that is all that tells it from a permanent failure. *)
Theorem retry_budgets ctx c region (w : world) :
  retryRun 3 (GetVolumes c) RVolumes w (validateBuilderVolumes_loop ctx c 0 w) /\
  retryRun 3 (ListMachines c "") RMachines w
    (validateBuilderMachines_loop ctx c 0 w) /\
  retryRun 5 (CreateVolume c (createVolumeRequest region)) RVolume w
    (createBuilder_loop ctx c region 0 w).
Proof.
  split; [|split].
  - rewrite validateBuilderVolumes_loop_retrying.
    change (retriesLeft 2 0) with 2%nat. apply GetVolumes_retryRun.
  - rewrite validateBuilderMachines_loop_retrying.
    change (retriesLeft 2 0) with 2%nat. apply List_retryRun.
  - rewrite createBuilder_loop_retrying.
    change (retriesLeft 4 0) with 4%nat. apply CreateVolume_retryRun.
Qed.

(** C5. In each of the three retry loops the first attempt is the remote
    call on the world as found, and a failed attempt is followed by another
    attempt exactly when its error is a flaps error with a status from 500
    to 599 (and the loop's budget of 3, 3 and 5 attempts is not used up); a
    success, and any other error, a 404 for one, ends the loop at once as its
    outcome, with no further attempt. *)
Theorem retry_iff_server_error ctx c region (w : world) :
  (forall e, isServerError e = true <->
             exists code, asFlapsError e = Some code /\ 500 <= code <= 599) /\
  isServerError (FlapsError 404) = false /\
  classifiedRun 3 (GetVolumes c) RVolumes (call_GetVolumes ctx c) w
    (validateBuilderVolumes_loop ctx c 0 w) /\
  classifiedRun 3 (ListMachines c "") RMachines (call_List ctx c "") w
    (validateBuilderMachines_loop ctx c 0 w) /\
  classifiedRun 5 (CreateVolume c (createVolumeRequest region)) RVolume
    (call_CreateVolume ctx c (createVolumeRequest region)) w
    (createBuilder_loop ctx c region 0 w).
Proof.
  split; [exact isServerError_spec|]. split; [reflexivity|].
  rewrite validateBuilderVolumes_loop_retrying,
    validateBuilderMachines_loop_retrying, createBuilder_loop_retrying.
  change (retriesLeft 2 0) with 2%nat. change (retriesLeft 4 0) with 4%nat.
  split; [|split].
  - exact (retrying_classifiedRun ctx (GetVolumes c) RVolumes
             (fun d => flaps_GetVolumes d c) 2 w).
  - exact (retrying_classifiedRun ctx (ListMachines c "") RMachines
             (fun d => flaps_List d c "") 2 w).
  - exact (retrying_classifiedRun ctx
             (CreateVolume c (createVolumeRequest region)) RVolume
             (fun d => flaps_CreateVolume d c (createVolumeRequest region)) 4 w).
Qed.

(** ** Validation only reads *)

Lemma attemptsLog_Forall (P : Event -> Prop) c answers :
  (forall r, P (Called c r)) ->
  P (Called (Sleep (1 * Second)) RDone) ->
  Forall P (attemptsLog c answers).
Proof.
  intros Hc Hs. induction answers as [|r rest IH]; cbn [attemptsLog].
  - constructor.
  - constructor; [apply Hc|].
    destruct rest; [constructor|]. constructor; [exact Hs|exact IH].
Qed.

Lemma attemptsLog_In c answers ev :
  In ev (attemptsLog c answers) ->
  ev = Called (Sleep (1 * Second)) RDone \/
  exists r, In r answers /\ ev = Called c r.
Proof.
  induction answers as [|r rest IH]; cbn [attemptsLog]; [intros []|].
  intros [<-|Hin].
  - right. exists r. split; [now left|reflexivity].
  - destruct rest as [|r' rest']; [destruct Hin|].
    destruct Hin as [<-|Hin]; [now left|].
    destruct (IH Hin) as [->|(r0 & Hr0 & ->)]; [now left|].
    right. exists r0. split; [now right|reflexivity].
Qed.

Lemma validateBuilder_no_client ctx a (w : world) :
  ClientFromContext ctx = None -> validateBuilder ctx (Some a) w = None.
Proof. intros Hc. unfold validateBuilder. now rewrite Hc. Qed.

Lemma retryRun_answers {A} budget c (inj : A -> Response) (w : world) out :
  retryRun budget c inj w out ->
  exists answers,
    trace (snd out) = trace w ++ attemptsLog c answers /\
    forall r, In r answers -> r = responseOf inj (fst out) \/ exists e, r = RErr e.
Proof.
  intros (failed & last & _ & _ & Htr & _ & _ & Hlast & _).
  exists (map RErr failed ++ [last]). split; [exact Htr|].
  intros r Hin. apply in_app_or in Hin as [Hin|[<-|[]]].
  - apply in_map_iff in Hin as (e & <- & _). right. now exists e.
  - now left.
Qed.

(** C7. [validateBuilder] lists the volumes before the machines: its calls
    are volume listings (and the sleeps between them) followed by machine
    listings (and the sleeps between them), nothing else, so no call that
    changes the remote state; and once a volume listing answered with the
    empty list there is no machine listing at all. *)
Theorem validateBuilder_reads_only ctx app (w : world) r w' :
  validateBuilder ctx app w = Some (r, w') ->
  exists volumeCalls machineCalls,
    trace w' = trace w ++ volumeCalls ++ machineCalls /\
    Forall (fun ev => isGetVolumes (ev_call ev) || isSleep (ev_call ev) = true)
      volumeCalls /\
    Forall (fun ev => isListMachines (ev_call ev) || isSleep (ev_call ev) = true)
      machineCalls /\
    Forall (fun ev => isRemote (ev_call ev) = true -> isRead (ev_call ev) = true)
      (volumeCalls ++ machineCalls) /\
    (In (RVolumes []) (map ev_response volumeCalls) -> machineCalls = []).
Proof.
  intros Hrun.
  assert (Hfin : forall vc mc : list Event,
    Forall (fun ev => isGetVolumes (ev_call ev) || isSleep (ev_call ev) = true) vc ->
    Forall (fun ev => isListMachines (ev_call ev) || isSleep (ev_call ev) = true) mc ->
    Forall (fun ev => isRemote (ev_call ev) = true -> isRead (ev_call ev) = true)
      (vc ++ mc)).
  { intros vc mc Hv Hm. apply Forall_app. split.
    - eapply Forall_impl; [|exact Hv]. intros [[] ?]; cbn; congruence.
    - eapply Forall_impl; [|exact Hm]. intros [[] ?]; cbn; congruence. }
  destruct app as [a|].
  2:{ injection Hrun as <- <-. exists [], [].
      repeat split; auto. now rewrite app_nil_r. }
  destruct (ClientFromContext ctx) as [c|] eqn:Hc.
  2:{ now rewrite validateBuilder_no_client in Hrun. }
  rewrite (validateBuilder_retrying ctx a c w Hc) in Hrun.
  pose proof (GetVolumes_retryRun ctx c 2 w) as Hv.
  apply retryRun_answers in Hv as (va & Hvt & Hva).
  destruct (retrying 2 (call_GetVolumes ctx c) w) as [rv w1].
  cbn [fst snd] in Hvt, Hva.
  assert (HvP : Forall
    (fun ev => isGetVolumes (ev_call ev) || isSleep (ev_call ev) = true)
    (attemptsLog (GetVolumes c) va)) by now apply attemptsLog_Forall.
  assert (Hnone : forall v vs, rv = Ok (v :: vs) \/ (exists e, rv = Err e) ->
            ~ In (RVolumes []) (map ev_response (attemptsLog (GetVolumes c) va))).
  { intros v vs Hrv Hin. apply in_map_iff in Hin as (ev & Hev & Hin).
    apply attemptsLog_In in Hin as [->|(r0 & Hr0 & ->)]; [discriminate|].
    cbn in Hev. subst r0.
    destruct (Hva _ Hr0) as [Heq|(e & Heq)]; [|discriminate].
    destruct Hrv as [->|(e & ->)]; discriminate. }
  destruct rv as [[|v vs]|err].
  - injection Hrun as <- <-. exists (attemptsLog (GetVolumes c) va), [].
    repeat split; auto. now rewrite app_nil_r.
  - pose proof (List_retryRun ctx c 2 w1) as Hm.
    apply retryRun_answers in Hm as (ma & Hmt & _).
    destruct (retrying 2 (call_List ctx c "") w1) as [rm w2].
    cbn [fst snd] in Hmt.
    assert (w' = w2) as ->.
    { destruct rm as [[|m [|m' ms]]|e]; now injection Hrun. }
    exists (attemptsLog (GetVolumes c) va), (attemptsLog (ListMachines c "") ma).
    assert (HmP : Forall
      (fun ev => isListMachines (ev_call ev) || isSleep (ev_call ev) = true)
      (attemptsLog (ListMachines c "") ma)) by now apply attemptsLog_Forall.
    repeat split; auto.
    + now rewrite Hmt, Hvt, app_assoc.
    + intros Hin. exfalso. eapply Hnone; eauto.
  - injection Hrun as <- <-. exists (attemptsLog (GetVolumes c) va), [].
    repeat split; auto. now rewrite app_nil_r.
Qed.

(** ** The runs of [createBuilder] *)

Ltac run_call H :=
  match type of H with
  | context [invoke ?ctx ?c ?inj ?op ?w] =>
      let a := fresh "a" in
      let w1 := fresh "w" in
      let Hcall := fresh "Hcall" in
      destruct (invoke ctx c inj op w) as [a w1] eqn:Hcall;
      apply invoke_inv in Hcall as (? & ? & ? & _);
      cbv beta iota in H
  end.

Ltac log_eq :=
  repeat match goal with
         | Ht : trace ?w = _ |- context [trace ?w] => rewrite Ht
         end;
  repeat rewrite <- app_assoc; cbn [app responseOf responseOfErr]; try reflexivity.

Lemma createBuilder_createRun ctx c org region name (w : world) r w' :
  ClientFromContext ctx = Some c ->
  createBuilder ctx org region name w = Some (r, w') ->
  exists evs,
    trace w' = trace w ++ evs /\ rng w' = rng w /\
    createRun c org region name evs r.
Proof.
  intros Hc Hrun. unfold createBuilder in Hrun. rewrite Hc in Hrun.
  destruct (flyutil_ClientFromContext ctx) as [client|]; [|discriminate Hrun].
  unfold deferOnError, bind, lift, ret in Hrun.
  unfold call_CreateApp, call_AllocateIPAddress, call_WaitForApp, call_Launch,
    call_DeleteVolume, call_DeleteApp in Hrun.
  run_call Hrun. destruct a as [app|e].
  2:{ injection Hrun as <- <-. eexists. split; [log_eq|].
      split; [congruence|]. constructor. }
  run_call Hrun. destruct a as [e|].
  { run_call Hrun. injection Hrun as <- <-. eexists. split; [log_eq|].
    split; [congruence|]. constructor. }
  run_call Hrun. destruct a as [e|].
  { run_call Hrun. injection Hrun as <- <-. eexists. split; [log_eq|].
    split; [congruence|]. constructor. }
  rewrite createBuilder_loop_retrying in Hrun.
  change (retriesLeft 4 0) with 4%nat in Hrun.
  pose proof (CreateVolume_retryRun ctx c (createVolumeRequest region) 4 w2)
    as (failed & last & Hall & Hlen & Htr & _ & Hrng & Hlast & _).
  destruct (retrying 4 _ w2) as [rv w3]. cbn [fst snd] in *. subst last.
  destruct rv as [volume|e].
  2:{ run_call Hrun. injection Hrun as <- <-. eexists. split; [log_eq|].
      split; [congruence|]. now constructor. }
  run_call Hrun. destruct a as [mach|e].
  - injection Hrun as <- <-. eexists. split; [log_eq|].
    split; [congruence|]. now constructor.
  - run_call Hrun. run_call Hrun. injection Hrun as <- <-.
    eexists. split; [log_eq|]. split; [congruence|]. now constructor.
Qed.

Lemma attemptsLog_last c answers last :
  exists before, attemptsLog c (answers ++ [last]) = before ++ [Called c last].
Proof.
  induction answers as [|r rest [before IH]].
  - now exists [].
  - destruct rest as [|r' rest'].
    + exists [Called c r; Called (Sleep (1 * Second)) RDone]. reflexivity.
    + change ((r :: r' :: rest') ++ [last]) with (r :: (r' :: rest') ++ [last]).
      cbn [attemptsLog app] in *. rewrite IH.
      exists (Called c r :: Called (Sleep (1 * Second)) RDone :: before).
      reflexivity.
Qed.

Lemma registers_attemptsLog c req failed last :
  flat_map registers
    (attemptsLog (CreateVolume c req) (map RErr failed ++ [last]))
  = registers (Called (CreateVolume c req) last).
Proof.
  induction failed as [|e rest IH]; cbn [map app].
  - cbn. now rewrite app_nil_r.
  - rewrite attemptsLog_failed. cbn [flat_map registers app]. exact IH.
Qed.

Lemma attemptsLog_no_deletion c req answers :
  Forall (fun ev => isDeletion (ev_call ev) = false)
    (attemptsLog (CreateVolume c req) answers).
Proof. now apply attemptsLog_Forall. Qed.

(** C2. [createBuilder] with its rollbacks.  The calls of a run split into
    the steps, none of them a deletion, and the rollbacks that follow them.
    When the run fails, its last step is the one that failed and the error
    returned is that step's error (for [WaitForApp] inside the message
    "waiting for app ..."), whatever the rollbacks answer; the rollbacks are
    the deletions registered by the successful creations among the steps,
    last registered first.  In particular, when [Launch] fails the volume
    just created is deleted, then the app, and the error of [Launch] is
    returned.  When the run succeeds there is no rollback. *)
Theorem createBuilder_rollback ctx c org region name (w : world) r w' :
  ClientFromContext ctx = Some c ->
  createBuilder ctx org region name w = Some (r, w') ->
  exists steps rollbacks,
    trace w' = trace w ++ steps ++ rollbacks /\
    Forall (fun ev => isDeletion (ev_call ev) = false) steps /\
    match r with
    | Ok _ => rollbacks = []
    | Err err =>
        map ev_call rollbacks = compensations steps /\
        exists before failing,
          steps = before ++ [failing] /\ stepError failing = Some err
    end /\
    (forall input e,
       In (Called (Launch c input) (RErr e)) steps ->
       exists volume rb1 rb2,
         In (Called (CreateVolume c (createVolumeRequest region)) (RVolume volume))
           steps /\
         rollbacks = [Called (DeleteVolume c (vol_ID volume)) rb1;
                      Called (DeleteApp name) rb2] /\
         r = Err e).
Proof.
  intros Hc Hrun.
  destruct (createBuilder_createRun ctx c org region name w r w' Hc Hrun)
    as (evs & Htr & _ & Hcr).
  assert (Hnl : forall answers input e,
    ~ In (Called (Launch c input) (RErr e))
         (attemptsLog (CreateVolume c (createVolumeRequest region)) answers)).
  { intros answers input e Hin.
    apply attemptsLog_In in Hin as [Hin|(r0 & _ & Hin)]; discriminate. }
  destruct Hcr as [e|app e rb|app e rb|app failed e rb Hall Hlen
                  |app failed volume e rb1 rb2 Hall Hlen
                  |app failed volume mach Hall Hlen].
  - exists [Called (CreateApp (createAppInput org region name)) (RErr e)], [].
    split; [now rewrite app_nil_r|]. split; [repeat constructor|].
    split; [split; [reflexivity|]|].
    + now exists [], (Called (CreateApp (createAppInput org region name)) (RErr e)).
    + intros input e0 [Hin|[]]. discriminate.
  - exists [Called (CreateApp (createAppInput org region name)) (RApp app);
            Called (AllocateIPAddress (app_Name app) "shared_v4" "" org "") (RErr e)],
           [Called (DeleteApp name) rb].
    split; [exact Htr|]. split; [repeat constructor|].
    split; [split; [reflexivity|]|].
    + now exists [Called (CreateApp (createAppInput org region name)) (RApp app)],
        (Called (AllocateIPAddress (app_Name app) "shared_v4" "" org "") (RErr e)).
    + intros input e0 [Hin|[Hin|[]]]; discriminate.
  - exists [Called (CreateApp (createAppInput org region name)) (RApp app);
            Called (AllocateIPAddress (app_Name app) "shared_v4" "" org "") RDone;
            Called (WaitForApp c (app_Name app)) (RErr e)],
           [Called (DeleteApp name) rb].
    split; [exact Htr|]. split; [repeat constructor|].
    split; [split; [reflexivity|]|].
    + now exists
        [Called (CreateApp (createAppInput org region name)) (RApp app);
         Called (AllocateIPAddress (app_Name app) "shared_v4" "" org "") RDone],
        (Called (WaitForApp c (app_Name app)) (RErr e)).
    + intros input e0 [Hin|[Hin|[Hin|[]]]]; discriminate.
  - exists (readySteps c org region name app
            ++ attemptsLog (CreateVolume c (createVolumeRequest region))
                 (map RErr failed ++ [RErr e])),
           [Called (DeleteApp name) rb].
    split; [now rewrite Htr, <- !app_assoc|].
    split; [apply Forall_app; split;
            [repeat constructor|apply attemptsLog_no_deletion]|].
    split; [split|].
    + unfold compensations. rewrite flat_map_app, registers_attemptsLog.
      reflexivity.
    + destruct (attemptsLog_last (CreateVolume c (createVolumeRequest region))
                  (map RErr failed) (RErr e)) as [before ->].
      exists (readySteps c org region name app ++ before),
        (Called (CreateVolume c (createVolumeRequest region)) (RErr e)).
      split; [now rewrite <- app_assoc|reflexivity].
    + intros input e0 Hin. apply in_app_or in Hin as [Hin|Hin].
      * destruct Hin as [Hin|[Hin|[Hin|[]]]]; discriminate.
      * now apply Hnl in Hin.
  - exists (readySteps c org region name app
            ++ attemptsLog (CreateVolume c (createVolumeRequest region))
                 (map RErr failed ++ [RVolume volume])
            ++ [Called (Launch c (launchInput org region app volume)) (RErr e)]),
           [Called (DeleteVolume c (vol_ID volume)) rb1;
            Called (DeleteApp name) rb2].
    split; [now rewrite Htr, <- !app_assoc|].
    split; [apply Forall_app; split; [repeat constructor|];
            apply Forall_app; split;
            [apply attemptsLog_no_deletion|repeat constructor]|].
    split; [split|].
    + unfold compensations.
      rewrite !flat_map_app, registers_attemptsLog. reflexivity.
    + exists (readySteps c org region name app
              ++ attemptsLog (CreateVolume c (createVolumeRequest region))
                   (map RErr failed ++ [RVolume volume])),
        (Called (Launch c (launchInput org region app volume)) (RErr e)).
      split; [now rewrite <- !app_assoc|reflexivity].
    + intros input e0 Hin. exists volume, rb1, rb2. split; [|split; [reflexivity|]].
      * apply in_or_app. right. apply in_or_app. left.
        destruct (attemptsLog_last (CreateVolume c (createVolumeRequest region))
                    (map RErr failed) (RVolume volume)) as [before ->].
        apply in_or_app. right. now left.
      * apply in_app_or in Hin as [Hin|Hin].
        { destruct Hin as [Hin|[Hin|[Hin|[]]]]; discriminate. }
        apply in_app_or in Hin as [Hin|Hin]; [now apply Hnl in Hin|].
        destruct Hin as [Hin|[]]. now injection Hin as _ ->.
  - exists (readySteps c org region name app
            ++ attemptsLog (CreateVolume c (createVolumeRequest region))
                 (map RErr failed ++ [RVolume volume])
            ++ [Called (Launch c (launchInput org region app volume))
                  (RMachine mach)]), [].
    split; [now rewrite Htr, app_nil_r|].
    split; [apply Forall_app; split; [repeat constructor|];
            apply Forall_app; split;
            [apply attemptsLog_no_deletion|repeat constructor]|].
    split; [reflexivity|].
    intros input e0 Hin. exfalso.
    apply in_app_or in Hin as [Hin|Hin].
    { destruct Hin as [Hin|[Hin|[Hin|[]]]]; discriminate. }
    apply in_app_or in Hin as [Hin|Hin]; [now apply Hnl in Hin|].
    destruct Hin as [Hin|[]]. discriminate.
Qed.

(** C10. In a successful run of [createBuilder] a volume is created and a
    machine launched on it, and every volume creation carries as compute
    requirements, and every launch as guest, the same value: CPU kind
    "shared", 4 CPUs, 4096 MB of memory. *)
Theorem createBuilder_guest ctx c org region name (w : world) app mach w' :
  ClientFromContext ctx = Some c ->
  createBuilder ctx org region name w = Some (Ok (app, mach), w') ->
  exists evs,
    trace w' = trace w ++ evs /\
    (exists volume,
       In (Called (CreateVolume c (createVolumeRequest region)) (RVolume volume)) evs /\
       In (Called (Launch c (launchInput org region app volume)) (RMachine mach)) evs) /\
    (forall c' req resp,
       In (Called (CreateVolume c' req) resp) evs ->
       cvr_ComputeRequirements req
       = Some {| CPUKind := "shared"; CPUs := 4; MemoryMB := 4096 |}) /\
    (forall c' input resp,
       In (Called (Launch c' input) resp) evs ->
       exists config,
         lmi_Config input = Some config /\
         mc_Guest config
         = Some {| CPUKind := "shared"; CPUs := 4; MemoryMB := 4096 |}).
Proof.
  intros Hc Hrun.
  destruct (createBuilder_createRun ctx c org region name w _ w' Hc Hrun)
    as (evs & Htr & _ & Hcr).
  exists evs. split; [exact Htr|].
  remember (Ok (app, mach)) as r eqn:Hr.
  destruct Hcr as [| | | | |app' failed volume mach' Hall Hlen];
    try discriminate Hr.
  injection Hr as Ha Hm. subst app' mach'.
  set (req := createVolumeRequest region).
  set (input := launchInput org region app volume).
  destruct (attemptsLog_last (CreateVolume c req) (map RErr failed)
              (RVolume volume)) as [before Hlog].
  split; [|split].
  - exists volume. split.
    + apply in_or_app. right. apply in_or_app. left. rewrite Hlog.
      apply in_or_app. right. now left.
    + apply in_or_app. right. apply in_or_app. right. now left.
  - intros c' req' resp Hin.
    apply in_app_or in Hin as [Hin|Hin].
    { destruct Hin as [Hin|[Hin|[Hin|[]]]]; discriminate. }
    apply in_app_or in Hin as [Hin|Hin].
    + apply attemptsLog_In in Hin as [Hin|(r0 & _ & Hin)]; [discriminate|].
      now injection Hin as _ -> _.
    + destruct Hin as [Hin|[]]. discriminate.
  - intros c' input' resp Hin.
    apply in_app_or in Hin as [Hin|Hin].
    { destruct Hin as [Hin|[Hin|[Hin|[]]]]; discriminate. }
    apply in_app_or in Hin as [Hin|Hin].
    + apply attemptsLog_In in Hin as [Hin|(r0 & _ & Hin)]; discriminate.
    + destruct Hin as [Hin|[]]. injection Hin as _ <- _.
      eexists. split; reflexivity.
Qed.

(** ** The runs of [EnsureBuilder] *)

Lemma validateBuilder_frame ctx app (w : world) r w' :
  validateBuilder ctx app w = Some (r, w') ->
  rng w' = rng w /\
  exists evs, trace w' = trace w ++ evs /\
    Forall (fun ev => isRead (ev_call ev) || isSleep (ev_call ev) = true) evs.
Proof.
  intros Hrun. destruct app as [a|].
  2:{ injection Hrun as <- <-. split; [reflexivity|]. exists [].
      now rewrite app_nil_r. }
  destruct (ClientFromContext ctx) as [c|] eqn:Hc.
  2:{ now rewrite validateBuilder_no_client in Hrun. }
  rewrite (validateBuilder_retrying ctx a c w Hc) in Hrun.
  pose proof (GetVolumes_retryRun ctx c 2 w)
    as (f1 & l1 & _ & _ & Ht1 & _ & Hr1 & _).
  assert (HP1 : Forall (fun ev => isRead (ev_call ev) || isSleep (ev_call ev) = true)
                  (attemptsLog (GetVolumes c) (map RErr f1 ++ [l1])))
    by now apply attemptsLog_Forall.
  destruct (retrying 2 (call_GetVolumes ctx c) w) as [rv w1].
  cbn [fst snd] in *.
  destruct rv as [[|v vs]|err].
  1,3: injection Hrun as <- <-; split; [exact Hr1|eexists; split; eauto].
  pose proof (List_retryRun ctx c 2 w1)
    as (f2 & l2 & _ & _ & Ht2 & _ & Hr2 & _).
  assert (HP2 : Forall (fun ev => isRead (ev_call ev) || isSleep (ev_call ev) = true)
                  (attemptsLog (ListMachines c "") (map RErr f2 ++ [l2])))
    by now apply attemptsLog_Forall.
  destruct (retrying 2 (call_List ctx c "") w1) as [rm w2].
  cbn [fst snd] in *.
  assert (w' = w2) as ->.
  { destruct rm as [[|m [|m' ms]]|e]; now injection Hrun. }
  split; [congruence|].
  exists (attemptsLog (GetVolumes c) (map RErr f1 ++ [l1])
          ++ attemptsLog (ListMachines c "") (map RErr f2 ++ [l2])).
  split; [now rewrite Ht2, Ht1, app_assoc|]. apply Forall_app. now split.
Qed.

Lemma EnsureBuilder_validated_inv ctx org region builderApp (w : world) out w' :
  EnsureBuilder_validated ctx org region builderApp w = Some (out, w') ->
  exists rv w1,
    validateBuilder ctx builderApp w = Some (rv, w1) /\
    match rv with
    | Ok m => out = Ok (m, builderApp) /\ w' = w1
    | Err err =>
        match asValidateBuilderError err with
        | None => out = Err err /\ w' = w1
        | Some reason =>
            exists after,
              trace w' = trace w1 ++ after /\
              recreateRun org region builderApp reason
                (fst (haikunator_Build (rng w1))) after out
        end
    end.
Proof.
  unfold EnsureBuilder_validated. unfold bind at 1.
  destruct (validateBuilder ctx builderApp w) as [[rv w1]|]; [|discriminate].
  intros Hrun. exists rv, w1. split; [reflexivity|].
  destruct rv as [m|err]; [now injection Hrun as <- <-|].
  destruct (asValidateBuilderError err) as [reason|];
    [|now injection Hrun as <- <-].
  assert (Hprov : forall (wd : world) evs0,
    trace wd = trace w1 ++ evs0 -> rng wd = rng w1 ->
    (word <- Haikunator_Build ;;
     (let builderName := ("fly-builder-" ++ word)%string in
      let opts := newClientOpts org builderName in
      r <- lift (call_NewClientWithOptions ctx opts) ;;
      match r with
      | Some err => ret (Err err)
      | None =>
          let ctx := NewContextWithClient ctx opts in
          r <- createBuilder ctx org region builderName ;;
          match r with
          | Err err => ret (Err err)
          | Ok (app, machine) => ret (Ok (machine, Some app))
          end
      end)) wd = Some (out, w') ->
    exists evs, trace w' = trace w1 ++ evs0 ++ evs /\
      provisionRun org region (fst (haikunator_Build (rng w1))) evs out).
  { intros wd evs0 Htd Hrd Hp. unfold bind at 1, Haikunator_Build in Hp.
    rewrite Hrd in Hp.
    destruct (haikunator_Build (rng w1)) as [word g]. cbn [fst].
    cbv zeta in Hp. unfold bind at 1, lift, call_NewClientWithOptions in Hp.
    run_call Hp. cbn [trace] in *.
    destruct a as [e|].
    - injection Hp as <- <-. eexists. split; [log_eq|]. constructor.
    - unfold bind in Hp.
      destruct (createBuilder _ org region _ w0) as [[r w2]|] eqn:Hcb;
        [|discriminate].
      apply (createBuilder_createRun _ (newClientOpts org ("fly-builder-" ++ word)))
        in Hcb as (evs & Htr & _ & Hcr); [|reflexivity].
      assert (Hout : out = ensured r /\ w' = w2).
      { destruct r as [[app machine]|e]; now injection Hp as <- <-. }
      destruct Hout as [-> ->].
      exists (Called (NewClientWithOptions
                (newClientOpts org ("fly-builder-" ++ word))) RDone :: evs).
      split; [log_eq|]. now constructor. }
  unfold bind at 1 in Hrun.
  destruct (negb (reason =? NoBuilderApp)) eqn:Hreason.
  - assert (Hne : reason <> NoBuilderApp).
    { intros ->. discriminate. }
    destruct builderApp as [b|]; [|discriminate].
    destruct (flyutil_ClientFromContext ctx) as [client|]; [|discriminate].
    unfold lift, call_DeleteApp in Hrun. run_call Hrun.
    destruct a as [e|].
    + injection Hrun as <- <-. eexists. split; [log_eq|].
      now apply Delete_failed.
    + apply (Hprov _ [Called (DeleteApp (app_Name b)) RDone]) in Hrun
        as (evs & Htr & Hp); [|log_eq|congruence].
      eexists. split; [exact Htr|]. now apply Deleted.
  - assert (Heq : reason = NoBuilderApp).
    { apply negb_false_iff, Z.eqb_eq in Hreason. exact Hreason. }
    cbv beta iota in Hrun. unfold ret at 1 in Hrun.
    apply (Hprov _ []) in Hrun as (evs & Htr & Hp);
      [|now rewrite app_nil_r|reflexivity].
    exists evs. split; [exact Htr|]. now apply Fresh.
Qed.

Lemma createRun_CreateApp c org region name evs r input resp :
  createRun c org region name evs r ->
  In (Called (CreateApp input) resp) evs ->
  input = createAppInput org region name.
Proof.
  assert (Hlog : forall answers,
    ~ In (Called (CreateApp input) resp)
         (attemptsLog (CreateVolume c (createVolumeRequest region)) answers)).
  { intros answers Hin.
    apply attemptsLog_In in Hin as [Hin|(r0 & _ & Hin)]; discriminate. }
  assert (Hready : forall app,
    In (Called (CreateApp input) resp) (readySteps c org region name app) ->
    input = createAppInput org region name).
  { intros app [Hin|[Hin|[Hin|[]]]]; try discriminate. now injection Hin. }
  intros [e|app e rb|app e rb|app failed e rb Hall Hlen
         |app failed volume e rb1 rb2 Hall Hlen
         |app failed volume mach Hall Hlen] Hin.
  - destruct Hin as [Hin|[]]. now injection Hin.
  - destruct Hin as [Hin|[Hin|[Hin|[]]]]; try discriminate. now injection Hin.
  - destruct Hin as [Hin|[Hin|[Hin|[Hin|[]]]]]; try discriminate.
    now injection Hin.
  - apply in_app_or in Hin as [Hin|Hin]; [now apply (Hready app)|].
    apply in_app_or in Hin as [Hin|Hin]; [now apply Hlog in Hin|].
    destruct Hin as [Hin|[]]. discriminate.
  - apply in_app_or in Hin as [Hin|Hin]; [now apply (Hready app)|].
    apply in_app_or in Hin as [Hin|Hin]; [now apply Hlog in Hin|].
    destruct Hin as [Hin|[Hin|[Hin|[]]]]; discriminate.
  - apply in_app_or in Hin as [Hin|Hin]; [now apply (Hready app)|].
    apply in_app_or in Hin as [Hin|Hin]; [now apply Hlog in Hin|].
    destruct Hin as [Hin|[]]. discriminate.
Qed.

Lemma createRun_head c org region name evs r :
  createRun c org region name evs r ->
  exists resp later,
    evs = Called (CreateApp (createAppInput org region name)) resp :: later.
Proof. intros []; eexists; eexists; reflexivity. Qed.

Lemma provisionRun_CreateApp org region word evs out input resp :
  provisionRun org region word evs out ->
  In (Called (CreateApp input) resp) evs ->
  input = createAppInput org region ("fly-builder-" ++ word).
Proof.
  intros [e|evs' r Hcr] Hin.
  - destruct Hin as [Hin|[]]. discriminate.
  - destruct Hin as [Hin|Hin]; [discriminate|].
    eapply createRun_CreateApp; eauto.
Qed.

Lemma provisionRun_starts org region word evs out :
  provisionRun org region word evs out ->
  creationStarts org region ("fly-builder-" ++ word) out evs.
Proof.
  intros [e|evs' r Hcr].
  - eexists; eexists. split; [reflexivity|]. split; [|discriminate].
    now intros e' [= <-].
  - eexists; eexists. split; [reflexivity|]. split; [discriminate|].
    intros _. now apply createRun_head in Hcr.
Qed.

Lemma EnsureBuilder_client_inv ctx builderApp (w : world) rc w0 :
  EnsureBuilder_client ctx builderApp w = Some (rc, w0) ->
  rng w0 = rng w /\
  exists evs,
    trace w0 = trace w ++ evs /\
    (forall input resp, ~ In (Called (CreateApp input) resp) evs) /\
    Forall (fun ev => isDeletion (ev_call ev) = false /\
                      isCreation (ev_call ev) = false) evs.
Proof.
  unfold EnsureBuilder_client. destruct builderApp as [b|].
  - unfold bind, lift, ret, call_NewClientWithOptions. intros Hrun.
    run_call Hrun.
    assert (w0 = w1) as -> by (destruct a; now injection Hrun).
    split; [assumption|]. eexists. split; [eassumption|]. split.
    + intros input resp [Hin|[]]. discriminate.
    + now repeat constructor.
  - intros [= <- <-]. split; [reflexivity|]. exists [].
    rewrite app_nil_r. split; [reflexivity|]. split; [now intros ? ? []|constructor].
Qed.

Lemma EnsureBuilder_inv ctx org region (w : world) out w' :
  EnsureBuilder ctx org region w = Some (out, w') ->
  exists rc w0,
    EnsureBuilder_client ctx (org_RemoteBuilderApp org) w = Some (rc, w0) /\
    match rc with
    | Err e => out = Err e /\ w' = w0
    | Ok ctxV =>
        EnsureBuilder_validated ctxV org region (org_RemoteBuilderApp org) w0
        = Some (out, w')
    end.
Proof.
  unfold EnsureBuilder. cbv zeta. unfold bind at 1.
  destruct (EnsureBuilder_client ctx _ w) as [[rc w0]|]; [|discriminate].
  intros Hrun. exists rc, w0. split; [reflexivity|].
  destruct rc as [ctxV|e]; [exact Hrun|now injection Hrun as <- <-].
Qed.

(** C9. Every app [EnsureBuilder] creates is created under the name
    "fly-builder-" followed by the word pair generated from the random source
    as the call found it: the name depends on nothing else, neither on the
    organization and its builder app nor on the region or the context. *)
Theorem EnsureBuilder_fresh_name ctx org region (w : world) out w' :
  EnsureBuilder ctx org region w = Some (out, w') ->
  exists evs,
    trace w' = trace w ++ evs /\
    forall input resp,
      In (Called (CreateApp input) resp) evs ->
      cai_Name input = ("fly-builder-" ++ fst (haikunator_Build (rng w)))%string.
Proof.
  intros Hrun. apply EnsureBuilder_inv in Hrun as (rc & w0 & Hcl & Hrun).
  apply EnsureBuilder_client_inv in Hcl as (Hr0 & evc & Ht0 & Hnc & _).
  destruct rc as [ctxV|e].
  2:{ destruct Hrun as [-> ->]. exists evc. split; [exact Ht0|].
      intros input resp Hin. now apply Hnc in Hin. }
  apply EnsureBuilder_validated_inv in Hrun as (rv & w1 & Hv & Hrun).
  apply validateBuilder_frame in Hv as (Hr1 & evv & Ht1 & Hreads).
  assert (Hnv : forall input resp, ~ In (Called (CreateApp input) resp) evv).
  { intros input resp Hin. rewrite Forall_forall in Hreads.
    now apply Hreads in Hin. }
  assert (Hplain : w' = w1 -> exists evs,
    trace w' = trace w ++ evs /\
    forall input resp,
      In (Called (CreateApp input) resp) evs ->
      cai_Name input = ("fly-builder-" ++ fst (haikunator_Build (rng w)))%string).
  { intros ->. exists (evc ++ evv). split; [now rewrite Ht1, Ht0, app_assoc|].
    intros input resp Hin. apply in_app_or in Hin as [Hin|Hin];
      [now apply Hnc in Hin|now apply Hnv in Hin]. }
  destruct rv as [m|err]; [now apply Hplain|].
  destruct (asValidateBuilderError err) as [reason|]; [|now apply Hplain].
  destruct Hrun as (after & Hta & Hrec).
  rewrite Hr1, Hr0 in Hrec.
  exists (evc ++ evv ++ after).
  split; [now rewrite Hta, Ht1, Ht0, <- !app_assoc|].
  intros input resp Hin.
  apply in_app_or in Hin as [Hin|Hin]; [now apply Hnc in Hin|].
  apply in_app_or in Hin as [Hin|Hin]; [now apply Hnv in Hin|].
  destruct Hrec as [b e Hne Hb|b evs out Hne Hb Hp|evs out Heq Hp].
  - destruct Hin as [Hin|[]]. discriminate.
  - destruct Hin as [Hin|Hin]; [discriminate|].
    now rewrite (provisionRun_CreateApp _ _ _ _ _ _ _ Hp Hin).
  - now rewrite (provisionRun_CreateApp _ _ _ _ _ _ _ Hp Hin).
Qed.

(** C3, amended. When the validation inside [EnsureBuilder] reports a
    reason other than [NoBuilderApp], the calls made until then are neither
    deletions nor creations, and the next call deletes the organization's
    builder app; if that deletion fails its error is the outcome and no
    further call is made; if it succeeds, the creation starts: the flaps
    client for the new name, then the app creation under that name.  When
    the reason is [NoBuilderApp] the creation starts at once, with no
    deletion.  The new name is "fly-builder-" followed by the generated word
    pair, whatever the name of the deleted app. *)
Theorem EnsureBuilder_decommission ctx org region (w : world)
    ctxV w0 err w1 reason out w' :
  EnsureBuilder_client ctx (org_RemoteBuilderApp org) w = Some (Ok ctxV, w0) ->
  validateBuilder ctxV (org_RemoteBuilderApp org) w0 = Some (Err err, w1) ->
  asValidateBuilderError err = Some reason ->
  EnsureBuilder ctx org region w = Some (out, w') ->
  let name := ("fly-builder-" ++ fst (haikunator_Build (rng w)))%string in
  exists before after,
    trace w1 = trace w ++ before /\
    Forall (fun ev => isDeletion (ev_call ev) = false /\
                      isCreation (ev_call ev) = false) before /\
    trace w' = trace w1 ++ after /\
    (reason <> NoBuilderApp ->
     exists b resp rest,
       org_RemoteBuilderApp org = Some b /\
       after = Called (DeleteApp (app_Name b)) resp :: rest /\
       (forall e, resp = RErr e -> out = Err e /\ rest = []) /\
       (resp = RDone -> creationStarts org region name out rest)) /\
    (reason = NoBuilderApp -> creationStarts org region name out after).
Proof.
  intros Hcl Hv Has Hrun name.
  apply EnsureBuilder_inv in Hrun as (rc & w0' & Hcl' & Hrun).
  rewrite Hcl in Hcl'. injection Hcl' as <- <-.
  apply EnsureBuilder_validated_inv in Hrun as (rv & w1' & Hv' & Hrun).
  rewrite Hv in Hv'. injection Hv' as <- <-. rewrite Has in Hrun.
  destruct Hrun as (after & Hta & Hrec).
  apply EnsureBuilder_client_inv in Hcl as (Hr0 & evc & Ht0 & _ & Hcc).
  pose proof Hv as Hv2.
  apply validateBuilder_frame in Hv2 as (Hr1 & evv & Ht1 & Hreads).
  rewrite Hr1, Hr0 in Hrec. fold name in Hrec.
  exists (evc ++ evv), after.
  split; [now rewrite Ht1, Ht0, app_assoc|].
  split.
  { apply Forall_app. split; [exact Hcc|].
    eapply Forall_impl; [|exact Hreads]. intros [[] ?]; cbn; auto; discriminate. }
  split; [exact Hta|].
  destruct Hrec as [b e Hne Hb|b evs out Hne Hb Hp|evs out Heq Hp].
  - split; [|intros Heq; contradiction].
    intros _. exists b, (RErr e), []. split; [exact Hb|]. split; [reflexivity|].
    split; [now intros e' [= <-]|discriminate].
  - split; [|intros Heq; contradiction].
    intros _. exists b, RDone, evs. split; [exact Hb|]. split; [reflexivity|].
    split; [discriminate|]. intros _. now apply provisionRun_starts.
  - split; [intros Hne; contradiction|].
    intros _. now apply provisionRun_starts.
Qed.

(** ** The fast path, twice *)

Lemma steady_later ctx t t' : steady ctx t -> t <= t' -> steady ctx t'.
Proof.
  intros Hs Hle t'' Hle'. rewrite (Hs t') by exact Hle. apply Hs. lia.
Qed.

Lemma pure_retrying {A} ctx c (inj : result A -> Response)
    (op : bool -> E -> result A * E) extra (w : world) :
  (forall d e, snd (op d e) = e) ->
  steady ctx (now w) ->
  fst (retrying extra (invoke ctx c inj op) w)
  = fst (op (doneAt ctx (now w)) (env w)) /\
  env (snd (retrying extra (invoke ctx c inj op) w)) = env w /\
  now w <= now (snd (retrying extra (invoke ctx c inj op) w)).
Proof.
  intros Hpure. revert w.
  induction extra as [|k IH]; intros w Hs; cbn [retrying].
  - destruct (invoke ctx c inj op w) as [r w1] eqn:Hcall.
    apply invoke_inv in Hcall as (_ & Hn & _ & Hop).
    pose proof (Hpure (doneAt ctx (now w)) (env w)) as Hp.
    rewrite Hop in Hp |- *. cbn [fst snd] in Hp |- *.
    destruct r as [a|e]; [|destruct (isServerError e)]; cbn [fst snd];
      repeat split; auto; lia.
  - destruct (invoke ctx c inj op w) as [r w1] eqn:Hcall.
    apply invoke_inv in Hcall as (_ & Hn & _ & Hop).
    pose proof (Hpure (doneAt ctx (now w)) (env w)) as Hp.
    rewrite Hop in Hp |- *. cbn [fst snd] in Hp |- *.
    destruct r as [a|e]; [cbn [fst snd]; repeat split; auto; lia|].
    destruct (isServerError e); [|cbn [fst snd]; repeat split; auto; lia].
    assert (Hlater : now w <= now (time_Sleep (1 * Second) w1)).
    { cbn. rewrite Hn. unfold Second. lia. }
    destruct (IH (time_Sleep (1 * Second) w1)) as (Hf & He & Hnow).
    { now apply (steady_later ctx (now w)). }
    rewrite Hf, He. cbn [time_Sleep env].
    rewrite (Hs _ Hlater), Hp, Hop. cbn [fst]. repeat split; auto. lia.
Qed.

Lemma GetVolumes_pure ctx c extra (w : world) :
  (forall d c e, snd (flaps_GetVolumes d c e) = e) ->
  steady ctx (now w) ->
  fst (retrying extra (call_GetVolumes ctx c) w)
  = fst (flaps_GetVolumes (doneAt ctx (now w)) c (env w)) /\
  env (snd (retrying extra (call_GetVolumes ctx c) w)) = env w /\
  now w <= now (snd (retrying extra (call_GetVolumes ctx c) w)).
Proof.
  intros Hp Hs.
  apply (pure_retrying ctx (GetVolumes c) (responseOf RVolumes)
           (fun d => flaps_GetVolumes d c)); auto.
Qed.

Lemma List_pure ctx c extra (w : world) :
  (forall d c state e, snd (flaps_List d c state e) = e) ->
  steady ctx (now w) ->
  fst (retrying extra (call_List ctx c "") w)
  = fst (flaps_List (doneAt ctx (now w)) c "" (env w)) /\
  env (snd (retrying extra (call_List ctx c "") w)) = env w /\
  now w <= now (snd (retrying extra (call_List ctx c "") w)).
Proof.
  intros Hp Hs.
  apply (pure_retrying ctx (ListMachines c "") (responseOf RMachines)
           (fun d => flaps_List d c "")); auto.
Qed.

Lemma validateBuilder_pure ctx b c (w : world) :
  (forall d c e, snd (flaps_GetVolumes d c e) = e) ->
  (forall d c state e, snd (flaps_List d c state e) = e) ->
  steady ctx (now w) ->
  ClientFromContext ctx = Some c ->
  exists w',
    validateBuilder ctx (Some b) w
    = Some (listedOutcome (doneAt ctx (now w)) c (env w), w') /\
    env w' = env w /\ now w <= now w'.
Proof.
  intros Hpv Hpm Hs Hc. rewrite (validateBuilder_retrying ctx b c w Hc).
  destruct (GetVolumes_pure ctx c 2 w Hpv Hs) as (Hf & He & Hn).
  unfold listedOutcome.
  destruct (retrying 2 (call_GetVolumes ctx c) w) as [rv w1].
  cbn [fst snd] in *. rewrite <- Hf.
  destruct rv as [[|v vs]|err]; try (eexists; repeat split; eauto; fail).
  destruct (List_pure ctx c 2 w1 Hpm) as (Hf2 & He2 & Hn2);
    [now apply (steady_later ctx (now w))|].
  destruct (retrying 2 (call_List ctx c "") w1) as [rm w2].
  cbn [fst snd] in *.
  rewrite <- (Hs _ Hn), <- He, <- Hf2.
  destruct rm as [[|m [|m' ms]]|err];
    (eexists; split; [reflexivity|split; [congruence|lia]]).
Qed.

Lemma EnsureBuilder_fast ctx org region b (w : world) ctxV w0 m w1 :
  org_RemoteBuilderApp org = Some b ->
  EnsureBuilder_client ctx (Some b) w = Some (Ok ctxV, w0) ->
  validateBuilder ctxV (Some b) w0 = Some (Ok m, w1) ->
  EnsureBuilder ctx org region w = Some (Ok (m, Some b), w1).
Proof.
  intros Hb Hcl Hv. unfold EnsureBuilder. cbv zeta. rewrite Hb.
  unfold bind at 1. rewrite Hcl.
  unfold EnsureBuilder_validated, bind. now rewrite Hv.
Qed.

Lemma recreateRun_creates org region builderApp reason word after x :
  recreateRun org region builderApp reason word after (Ok x) ->
  exists input r, In (Called (CreateApp input) r) after.
Proof.
  assert (Hp : forall evs out, out = Ok x ->
    provisionRun org region word evs out ->
    exists input r, In (Called (CreateApp input) r) evs).
  { intros evs out Hout Hpr. destruct Hpr as [e|evs' r Hcr]; [discriminate|].
    apply createRun_head in Hcr as (resp & later & ->).
    eexists; eexists. right. now left. }
  intros Hrec. remember (Ok x) as out eqn:Hout.
  destruct Hrec as [b e Hne Hb|b evs out Hne Hb Hpr|evs out Heq Hpr].
  - discriminate.
  - destruct (Hp _ _ eq_refl Hpr) as (input & r & Hin).
    exists input, r. now right.
  - exact (Hp _ _ eq_refl Hpr).
Qed.

(** C6, amended. When a call of [EnsureBuilder] succeeded without creating
    anything (the organization's builder was found valid), the listing calls
    and the client construction change nothing on the remote side, and the
    context keeps its state, a second call right after it returns the same
    machine and app and makes no creation call either. *)
Theorem EnsureBuilder_fast_path_twice ctx org region (w : world) m a w1 evs1 :
  (forall d o e, snd (flapsutil_NewClientWithOptions d o e) = e) ->
  (forall d c e, snd (flaps_GetVolumes d c e) = e) ->
  (forall d c state e, snd (flaps_List d c state e) = e) ->
  steady ctx (now w) ->
  EnsureBuilder ctx org region w = Some (Ok (m, a), w1) ->
  trace w1 = trace w ++ evs1 ->
  Forall (fun ev => isCreation (ev_call ev) = false) evs1 ->
  exists w2 evs2,
    EnsureBuilder ctx org region w1 = Some (Ok (m, a), w2) /\
    trace w2 = trace w1 ++ evs2 /\
    Forall (fun ev => isCreation (ev_call ev) = false) evs2.
Proof.
  intros Hpc Hpv Hpm Hs Hrun Ht1 Hno.
  apply EnsureBuilder_inv in Hrun as (rc & w0 & Hcl & Hrun).
  destruct rc as [ctxV|e]; [|now destruct Hrun].
  apply EnsureBuilder_validated_inv in Hrun as (rv & w1' & Hv & Hrun).
  pose proof Hcl as Hcl2.
  apply EnsureBuilder_client_inv in Hcl2 as (_ & evc & Ht0 & _ & _).
  pose proof Hv as Hv2.
  apply validateBuilder_frame in Hv2 as (_ & evv & Htv & _).
  assert (Hfast : rv = Ok m /\ a = org_RemoteBuilderApp org /\ w1 = w1').
  { destruct rv as [m'|err].
    - destruct Hrun as [[= <- <-] <-]. auto.
    - destruct (asValidateBuilderError err) as [reason|];
        [|now destruct Hrun].
      exfalso. destruct Hrun as (after & Hta & Hrec).
      apply recreateRun_creates in Hrec as (input & r & Hin).
      rewrite Hta, Htv, Ht0, <- !app_assoc in Ht1.
      apply app_inv_head in Ht1. subst evs1.
      rewrite !Forall_app in Hno. destruct Hno as (_ & _ & Hno).
      rewrite Forall_forall in Hno. now apply Hno in Hin. }
  destruct Hfast as (-> & -> & <-). clear Hrun.
  destruct (org_RemoteBuilderApp org) as [b|] eqn:Hb; [|discriminate].
  unfold EnsureBuilder_client, bind, lift, ret, call_NewClientWithOptions in Hcl.
  destruct (invoke ctx _ _ _ w) as [r wc] eqn:Hcall.
  apply invoke_inv in Hcall as (_ & Hn0 & _ & Hop).
  destruct r as [e|]; [discriminate|]. injection Hcl as <- <-.
  set (opts := builderClientOpts b) in *.
  set (ctxV := NewContextWithClient ctx opts) in *.
  assert (He0 : env wc = env w).
  { specialize (Hpc (doneAt ctx (now w)) opts (env w)). now rewrite Hop in Hpc. }
  assert (HsV : forall t, steady ctx t -> steady ctxV t).
  { intros t H t' Hle. exact (H t' Hle). }
  destruct (validateBuilder_pure ctxV b opts wc) as (w1' & Hv1 & He1 & Hn1);
    auto; [apply HsV; now rewrite Hn0|].
  rewrite Hv in Hv1. injection Hv1 as Hm <-.
  assert (Hd1 : doneAt ctx (now w1) = doneAt ctx (now w)).
  { apply Hs. lia. }
  destruct (invoke ctx (NewClientWithOptions opts) responseOfErr
              (fun d => flapsutil_NewClientWithOptions d opts) w1)
    as [r2 wc2] eqn:Hcall2.
  pose proof Hcall2 as Hinv2.
  apply invoke_inv in Hinv2 as (Htc2 & Hn2 & _ & Hop2).
  assert (Hr2 : r2 = None /\ env wc2 = env w).
  { rewrite Hd1, He1, He0, Hop in Hop2. now injection Hop2 as <- <-. }
  destruct Hr2 as [-> He2].
  destruct (validateBuilder_pure ctxV b opts wc2) as (w2 & Hv2 & _ & _);
    auto; [apply HsV, (steady_later ctx (now w)); [exact Hs|lia]|].
  assert (Hsame : listedOutcome (doneAt ctxV (now wc2)) opts (env wc2) = Ok m).
  { rewrite Hm, He2, <- He0. f_equal.
    change (doneAt ctx (now wc2) = doneAt ctx (now wc)).
    rewrite Hn2, Hn0. exact Hd1. }
  rewrite Hsame in Hv2.
  pose proof Hv2 as Hv3.
  apply validateBuilder_frame in Hv3 as (_ & evv2 & Htv2 & Hreads).
  exists w2, (Called (NewClientWithOptions opts) RDone :: evv2).
  split; [|split].
  - apply (EnsureBuilder_fast ctx org region b w1 ctxV wc2); auto.
    unfold EnsureBuilder_client, bind, lift, ret, call_NewClientWithOptions.
    fold opts. now rewrite Hcall2.
  - rewrite Htv2, Htc2. cbn. now rewrite <- app_assoc.
  - constructor; [reflexivity|].
    eapply Forall_impl; [|exact Hreads]. intros [[] ?]; cbn; auto; discriminate.
Qed.

(** ** Cancellation *)

Lemma retrying_ext {A} extra (attempt attempt' : world -> result A * world) w :
  (forall w, attempt w = attempt' w) ->
  retrying extra attempt w = retrying extra attempt' w.
Proof.
  intros Hext. revert w. induction extra as [|k IH]; intros w; cbn [retrying];
    rewrite Hext; destruct (attempt' w) as [[a|e] w1]; try reflexivity.
  destruct (isServerError e); [apply IH|reflexivity].
Qed.

Lemma invoke_blind {A} ctx ctx' c (inj : A -> Response) op (w : world) :
  (forall d d' e, op d e = op d' e) ->
  invoke ctx c inj op w = invoke ctx' c inj op w.
Proof.
  intros Hblind. unfold invoke.
  now rewrite (Hblind (doneAt ctx (now w)) (doneAt ctx' (now w))).
Qed.

Lemma retrying_permanent {A} extra (attempt : world -> result A * world) w e w1 :
  attempt w = (Err e, w1) ->
  isServerError e = false ->
  retrying extra attempt w = (Err e, w1).
Proof.
  intros Hcall He. destruct extra; cbn [retrying]; now rewrite Hcall, He.
Qed.

(** C8, amended. The retry loops never look at the context: they only hand
    it to the remote call.  When the remote calls answer the same whether
    the context is done or not, each loop runs the same under any two
    contexts, cancelled or not: same attempts, same sleeps, same outcome.
    A cancellation reaches the caller only as the error of a remote call: an
    attempt answered with an error that is no server error ends the loop at
    once with that error, like any permanent failure. *)
Theorem retry_loops_blind_to_cancellation ctx ctx' c region (w : world) :
  ((forall d d' c e, flaps_GetVolumes d c e = flaps_GetVolumes d' c e) ->
   (forall d d' c state e, flaps_List d c state e = flaps_List d' c state e) ->
   (forall d d' c req e,
      flaps_CreateVolume d c req e = flaps_CreateVolume d' c req e) ->
   validateBuilderVolumes_loop ctx c 0 w = validateBuilderVolumes_loop ctx' c 0 w /\
   validateBuilderMachines_loop ctx c 0 w = validateBuilderMachines_loop ctx' c 0 w /\
   createBuilder_loop ctx c region 0 w = createBuilder_loop ctx' c region 0 w) /\
  (forall numRetries e w1,
     isServerError e = false ->
     (call_GetVolumes ctx c w = (Err e, w1) ->
      validateBuilderVolumes_loop ctx c numRetries w = (Err e, w1)) /\
     (call_List ctx c "" w = (Err e, w1) ->
      validateBuilderMachines_loop ctx c numRetries w = (Err e, w1)) /\
     (call_CreateVolume ctx c (createVolumeRequest region) w = (Err e, w1) ->
      createBuilder_loop ctx c region numRetries w = (Err e, w1))).
Proof.
  split.
  - intros Hv Hm Hc.
    rewrite !validateBuilderVolumes_loop_retrying,
      !validateBuilderMachines_loop_retrying, !createBuilder_loop_retrying.
    repeat split; apply retrying_ext; intros w0; apply invoke_blind; intros; auto.
  - intros numRetries e w1 He.
    rewrite validateBuilderVolumes_loop_retrying,
      validateBuilderMachines_loop_retrying, createBuilder_loop_retrying.
    repeat split; intros Hcall; now apply retrying_permanent.
Qed.

(** ** Further properties of the runs *)

Lemma validateBuilder_returns ctx app (w : world) :
  app = None \/ (exists c, ClientFromContext ctx = Some c) ->
  exists r w', validateBuilder ctx app w = Some (r, w').
Proof.
  intros Hc. destruct app as [a|]; [|now eexists; eexists].
  destruct Hc as [Hc|[c Hc]]; [discriminate|].
  rewrite (validateBuilder_retrying ctx a c w Hc).
  destruct (retrying 2 (call_GetVolumes ctx c) w) as [[[|v vs]|e] w1];
    try (eexists; eexists; reflexivity).
  destruct (retrying 2 (call_List ctx c "") w1) as [[[|m [|m' ms]]|e] w2];
    eexists; eexists; reflexivity.
Qed.

Lemma createBuilder_returns ctx client c org region name (w : world) :
  flyutil_ClientFromContext ctx = Some client ->
  ClientFromContext ctx = Some c ->
  exists r w', createBuilder ctx org region name w = Some (r, w').
Proof.
  intros Hcl Hc. unfold createBuilder. rewrite Hcl, Hc.
  unfold deferOnError, bind, lift, ret.
  destruct (call_CreateApp _ _ w) as [[app|e] w1];
    [|eexists; eexists; reflexivity].
  destruct (call_AllocateIPAddress _ _ _ _ _ _ w1) as [[e|] w2].
  { destruct (call_DeleteApp _ _ w2). eexists; eexists; reflexivity. }
  destruct (call_WaitForApp _ _ _ w2) as [[e|] w3].
  { destruct (call_DeleteApp _ _ w3). eexists; eexists; reflexivity. }
  destruct (createBuilder_loop _ _ _ _ w3) as [[volume|e] w4].
  2:{ destruct (call_DeleteApp _ _ w4). eexists; eexists; reflexivity. }
  destruct (call_Launch _ _ _ w4) as [[mach|e] w5];
    [eexists; eexists; reflexivity|].
  destruct (call_DeleteVolume _ _ _ w5) as [? w6].
  destruct (call_DeleteApp _ _ w6). eexists; eexists; reflexivity.
Qed.

(** X1. With the API client in the context, [EnsureBuilder] calls no method
    on a nil client, so the run returns: it reaches the flaps client only
    after it has stored one in the context, whatever flaps client the context
    came with, and reads the name of the builder app only when there is
    one. *)
Theorem EnsureBuilder_returns ctx client org region (w : world) :
  flyutil_ClientFromContext ctx = Some client ->
  exists out w', EnsureBuilder ctx org region w = Some (out, w').
Proof.
  intros Hcl.
  assert (Hprov : forall ctxV (wd : world),
    flyutil_ClientFromContext ctxV = Some client ->
    exists out w',
    (word <- Haikunator_Build ;;
     (let builderName := ("fly-builder-" ++ word)%string in
      let opts := newClientOpts org builderName in
      r <- lift (call_NewClientWithOptions ctxV opts) ;;
      match r with
      | Some err => ret (Err err)
      | None =>
          let ctx := NewContextWithClient ctxV opts in
          r <- createBuilder ctx org region builderName ;;
          match r with
          | Err err => ret (Err err)
          | Ok (app, machine) => ret (Ok (machine, Some app))
          end
      end)) wd = Some (out, w')).
  { intros ctxV wd HclV. unfold bind at 1, Haikunator_Build.
    destruct (haikunator_Build (rng wd)) as [word g]. cbv zeta.
    unfold bind at 1, lift.
    destruct (call_NewClientWithOptions _ _ _) as [[e|] w2];
      [eexists; eexists; reflexivity|].
    unfold bind.
    destruct (createBuilder_returns
                (NewContextWithClient ctxV (newClientOpts org ("fly-builder-" ++ word)))
                client
                (newClientOpts org ("fly-builder-" ++ word))
                org region ("fly-builder-" ++ word) w2 HclV eq_refl)
      as (r & w3 & ->).
    destruct r as [[app machine]|e]; eexists; eexists; reflexivity. }
  unfold EnsureBuilder. cbv zeta. unfold bind at 1, EnsureBuilder_client.
  destruct (org_RemoteBuilderApp org) as [b|].
  - unfold bind at 1, lift, ret.
    destruct (call_NewClientWithOptions _ _ w) as [[e|] w0];
      [eexists; eexists; reflexivity|].
    unfold EnsureBuilder_validated. unfold bind at 1.
    destruct (validateBuilder_returns
                (NewContextWithClient ctx (builderClientOpts b)) (Some b) w0)
      as (r & w1 & ->); [right; now eexists|].
    destruct r as [m|err]; [eexists; eexists; reflexivity|].
    destruct (asValidateBuilderError err) as [reason|];
      [|eexists; eexists; reflexivity].
    unfold bind at 1.
    change (flyutil_ClientFromContext
              (NewContextWithClient ctx (builderClientOpts b)))
      with (flyutil_ClientFromContext ctx).
    rewrite Hcl.
    destruct (negb (reason =? NoBuilderApp)).
    + unfold lift. destruct (call_DeleteApp _ _ w1) as [[e|] w2];
        [eexists; eexists; reflexivity|now apply Hprov].
    + unfold ret at 1. now apply Hprov.
  - unfold ret at 1. unfold EnsureBuilder_validated. unfold bind at 1.
    cbn [validateBuilder ret asValidateBuilderError].
    unfold bind at 1. change (negb (NoBuilderApp =? NoBuilderApp)) with false.
    cbv iota. unfold ret at 1. now apply Hprov.
Qed.

(** ** Measures of the runs *)

Lemma remoteCalls_app evs evs' :
  remoteCalls (evs ++ evs') = (remoteCalls evs + remoteCalls evs')%nat.
Proof. unfold remoteCalls. now rewrite filter_app, length_app. Qed.

Lemma slept_app evs evs' : slept (evs ++ evs') = slept evs + slept evs'.
Proof.
  induction evs as [|[c r] evs IH]; [reflexivity|].
  cbn [app slept fold_right ev_call]. fold (slept (evs ++ evs')). fold (slept evs).
  rewrite IH. destruct c; lia.
Qed.

Lemma attemptsLog_measures c answers :
  isRemote c = true ->
  remoteCalls (attemptsLog c answers) = length answers /\
  slept (attemptsLog c answers) = Z.of_nat (pred (length answers)) * Second.
Proof.
  intros Hc. induction answers as [|r rest [IHc IHs]]; [now split|].
  destruct rest as [|r' rest'].
  - cbn. unfold remoteCalls. cbn. rewrite Hc. split; [reflexivity|].
    destruct c; try reflexivity. discriminate.
  - change (attemptsLog c (r :: r' :: rest'))
      with ([Called c r; Called (Sleep (1 * Second)) RDone]
            ++ attemptsLog c (r' :: rest')).
    rewrite remoteCalls_app, slept_app, IHc, IHs. split.
    + unfold remoteCalls. cbn. now rewrite Hc.
    + cbn [slept fold_right ev_call app]. destruct c; try discriminate;
        cbn [length pred]; unfold Second; lia.
Qed.

Lemma retryRun_measures {A} budget c (inj : A -> Response) (w : world) out :
  isRemote c = true ->
  retryRun budget c inj w out ->
  exists answers,
    trace (snd out) = trace w ++ attemptsLog c answers /\
    (remoteCalls (attemptsLog c answers) <= budget)%nat /\
    0 <= slept (attemptsLog c answers) <= Z.of_nat (pred budget) * Second /\
    In (Called c (responseOf inj (fst out))) (attemptsLog c answers).
Proof.
  intros Hc (failed & last & _ & Hlen & Htr & _ & _ & Hlast & _).
  exists (map RErr failed ++ [last]). split; [exact Htr|].
  destruct (attemptsLog_measures c (map RErr failed ++ [last]) Hc) as [-> ->].
  rewrite length_app, length_map. cbn [length].
  replace (length failed + 1)%nat with (S (length failed)) by lia. cbn [pred].
  split; [lia|]. split; [unfold Second; nia|].
  destruct (attemptsLog_last c (map RErr failed) last) as [before ->].
  subst last. apply in_or_app. right. now left.
Qed.

Lemma validateBuilder_measures ctx app (w : world) r w' :
  validateBuilder ctx app w = Some (r, w') ->
  exists evs,
    trace w' = trace w ++ evs /\
    Forall (fun ev => isDeletion (ev_call ev) = false /\
                      isCreation (ev_call ev) = false) evs /\
    (remoteCalls evs <= 6)%nat /\
    0 <= slept evs <= 4 * Second /\
    (forall m, r = Ok m ->
       exists c, ClientFromContext ctx = Some c /\
                 In (Called (ListMachines c "") (RMachines [m])) evs).
Proof.
  intros Hrun.
  assert (Hq : forall c answers, isRead c = true ->
    Forall (fun ev => isDeletion (ev_call ev) = false /\
                      isCreation (ev_call ev) = false) (attemptsLog c answers)).
  { intros c answers Hc. apply attemptsLog_Forall; [|now split].
    intros r0. destruct c; try discriminate; now split. }
  destruct app as [a|].
  2:{ injection Hrun as <- <-. exists []. rewrite app_nil_r.
      repeat split; auto; try (cbn; unfold Second; lia). discriminate. }
  destruct (ClientFromContext ctx) as [c|] eqn:Hc.
  2:{ now rewrite validateBuilder_no_client in Hrun. }
  rewrite (validateBuilder_retrying ctx a c w Hc) in Hrun.
  destruct (retryRun_measures 3 (GetVolumes c) RVolumes w _ eq_refl
              (GetVolumes_retryRun ctx c 2 w)) as (va & Hvt & Hvc & Hvs & _).
  destruct (retrying 2 (call_GetVolumes ctx c) w) as [rv w1].
  cbn [fst snd pred] in *.
  destruct rv as [[|v vs]|err].
  1,3: injection Hrun as <- <-; exists (attemptsLog (GetVolumes c) va);
    repeat split; auto; try lia; try discriminate.
  destruct (retryRun_measures 3 (ListMachines c "") RMachines w1 _ eq_refl
              (List_retryRun ctx c 2 w1)) as (ma & Hmt & Hmc & Hms & Hlast).
  destruct (retrying 2 (call_List ctx c "") w1) as [rm w2].
  cbn [fst snd pred] in *.
  assert (Hout : w' = w2 /\
                 (forall m, r = Ok m -> rm = Ok [m])).
  { destruct rm as [[|m [|m' ms]]|e]; injection Hrun as <- <-;
      split; auto; try discriminate. now intros m0 [= <-]. }
  destruct Hout as [-> Hok].
  exists (attemptsLog (GetVolumes c) va ++ attemptsLog (ListMachines c "") ma).
  rewrite remoteCalls_app, slept_app.
  split; [now rewrite Hmt, Hvt, app_assoc|].
  split; [apply Forall_app; split; now apply Hq|].
  split; [lia|]. split; [lia|].
  intros m Hm. exists c. split; [reflexivity|].
  apply in_or_app. right. rewrite (Hok m Hm) in Hlast. exact Hlast.
Qed.

Lemma createVolume_attempts_measures c req failed last :
  (length failed < 5)%nat ->
  (remoteCalls (attemptsLog (CreateVolume c req) (map RErr failed ++ [last])) <= 5)%nat /\
  0 <= slept (attemptsLog (CreateVolume c req) (map RErr failed ++ [last]))
    <= 4 * Second.
Proof.
  intros Hlen.
  destruct (attemptsLog_measures (CreateVolume c req) (map RErr failed ++ [last])
              eq_refl) as [-> ->].
  rewrite length_app, length_map. cbn [length].
  replace (length failed + 1)%nat with (S (length failed)) by lia. cbn [pred].
  split; [lia|]. unfold Second. lia.
Qed.

Lemma createRun_measures c org region name evs r :
  createRun c org region name evs r ->
  (remoteCalls evs <= 11)%nat /\ 0 <= slept evs <= 4 * Second.
Proof.
  intros [e|app e rb|app e rb|app failed e rb Hall Hlen
         |app failed volume e rb1 rb2 Hall Hlen
         |app failed volume mach Hall Hlen];
    try (cbn; unfold Second; split; lia).
  all: rewrite !remoteCalls_app, !slept_app.
  all: match goal with
       | |- context [attemptsLog (CreateVolume ?c ?req) (map RErr ?f ++ [?l])] =>
           destruct (createVolume_attempts_measures c req f l Hlen) as [Hc Hs]
       end.
  all: cbn [readySteps remoteCalls slept filter fold_right length ev_call isRemote]
         in *; lia.
Qed.

Lemma provisionRun_measures org region word evs out :
  provisionRun org region word evs out ->
  (remoteCalls evs <= 12)%nat /\ 0 <= slept evs <= 4 * Second.
Proof.
  intros [e|evs' r Hcr]; [cbn; unfold Second; split; lia|].
  apply createRun_measures in Hcr as [Hc Hs].
  change (Called ?x ?y :: evs') with ([Called x y] ++ evs').
  rewrite remoteCalls_app, slept_app. cbn in *. lia.
Qed.

Lemma recreateRun_measures org region builderApp reason word evs out :
  recreateRun org region builderApp reason word evs out ->
  (remoteCalls evs <= 13)%nat /\ 0 <= slept evs <= 4 * Second.
Proof.
  intros [b e Hne Hb|b evs' out' Hne Hb Hp|evs' out' Heq Hp].
  - cbn. unfold Second. split; lia.
  - apply provisionRun_measures in Hp as [Hc Hs].
    change (Called ?x ?y :: evs') with ([Called x y] ++ evs').
    rewrite remoteCalls_app, slept_app. cbn in *. lia.
  - apply provisionRun_measures in Hp as [Hc Hs]. lia.
Qed.

(** The shape of every run of [EnsureBuilder]: a part that changes nothing on
    the remote side (client construction and validation), then either
    nothing more, or the replacement of the builder. *)
Lemma EnsureBuilder_run ctx org region (w : world) out w' :
  EnsureBuilder ctx org region w = Some (out, w') ->
  exists quiet after,
    trace w' = trace w ++ quiet ++ after /\
    Forall (fun ev => isDeletion (ev_call ev) = false /\
                      isCreation (ev_call ev) = false) quiet /\
    (remoteCalls quiet <= 7)%nat /\
    0 <= slept quiet <= 4 * Second /\
    ((after = [] /\
      ((exists e, out = Err e) \/
       (exists m b,
          org_RemoteBuilderApp org = Some b /\ out = Ok (m, Some b) /\
          In (Called (ListMachines (builderClientOpts b) "") (RMachines [m]))
            quiet))) \/
     (exists reason,
        recreateRun org region (org_RemoteBuilderApp org) reason
          (fst (haikunator_Build (rng w))) after out)).
Proof.
  intros Hrun. apply EnsureBuilder_inv in Hrun as (rc & w0 & Hcl & Hrun).
  assert (Hclient : rng w0 = rng w /\
    exists evc, trace w0 = trace w ++ evc /\
      Forall (fun ev => isDeletion (ev_call ev) = false /\
                        isCreation (ev_call ev) = false) evc /\
      (remoteCalls evc <= 1)%nat /\ slept evc = 0 /\
      (forall ctxV, rc = Ok ctxV ->
         match org_RemoteBuilderApp org with
         | Some b => ClientFromContext ctxV = Some (builderClientOpts b)
         | None => True
         end)).
  { unfold EnsureBuilder_client in Hcl.
    destruct (org_RemoteBuilderApp org) as [b|].
    - unfold bind, lift, ret, call_NewClientWithOptions in Hcl. run_call Hcl.
      assert (w0 = w1) as -> by (destruct a; now injection Hcl).
      split; [assumption|]. eexists. split; [eassumption|].
      split; [now repeat constructor|]. split; [cbn; lia|].
      split; [reflexivity|]. intros ctxV ->.
      destruct a; [discriminate|]. now injection Hcl as <-.
    - injection Hcl as <- <-. split; [reflexivity|]. exists [].
      rewrite app_nil_r. repeat split; auto. }
  destruct Hclient as (Hr0 & evc & Ht0 & Hqc & Hcc & Hsc & Hctx).
  destruct rc as [ctxV|e].
  2:{ destruct Hrun as [-> ->]. exists evc, []. rewrite app_nil_r.
      repeat split; auto; try lia; try (rewrite Hsc; unfold Second; lia).
      left. split; [reflexivity|]. left. now exists e. }
  apply EnsureBuilder_validated_inv in Hrun as (rv & w1 & Hv & Hrun).
  pose proof Hv as Hf. apply validateBuilder_frame in Hf as (Hr1 & _).
  pose proof Hv as Hv0.
  apply validateBuilder_measures in Hv as (evv & Ht1 & Hqv & Hcv & Hsv & Hok).
  assert (Hquiet :
    Forall (fun ev => isDeletion (ev_call ev) = false /\
                      isCreation (ev_call ev) = false) (evc ++ evv) /\
    (remoteCalls (evc ++ evv) <= 7)%nat /\
    0 <= slept (evc ++ evv) <= 4 * Second).
  { rewrite remoteCalls_app, slept_app, Hsc. split; [now apply Forall_app|].
    split; lia. }
  destruct Hquiet as (Hq & Hc & Hs).
  assert (Hplain : w' = w1 ->
    trace w' = trace w ++ (evc ++ evv) ++ []).
  { intros ->. now rewrite app_nil_r, Ht1, Ht0, app_assoc. }
  destruct rv as [m|err].
  - destruct Hrun as [-> ->]. exists (evc ++ evv), [].
    split; [now apply Hplain|]. repeat split; auto; try lia.
    left. split; [reflexivity|]. right.
    destruct (Hok m eq_refl) as (c & Hcv' & Hin).
    specialize (Hctx ctxV eq_refl).
    destruct (org_RemoteBuilderApp org) as [b|].
    + exists m, b. rewrite Hctx in Hcv'. injection Hcv' as <-.
      repeat split; auto. apply in_or_app. now right.
    + (* without a builder app validation does not answer [Ok] *)
      discriminate Hv0.
  - destruct (asValidateBuilderError err) as [reason|].
    + destruct Hrun as (after & Hta & Hrec). rewrite Hr1, Hr0 in Hrec.
      exists (evc ++ evv), after.
      split; [now rewrite Hta, Ht1, Ht0, <- !app_assoc|].
      repeat split; auto; try lia. right. now exists reason.
    + destruct Hrun as [-> ->]. exists (evc ++ evv), [].
      split; [now apply Hplain|]. repeat split; auto; try lia.
      left. split; [reflexivity|]. left. now exists err.
Qed.

(** X2. A run of [EnsureBuilder] is bounded: at most 20 calls to the
    collaborators (7 to build the client and validate, 13 to replace the
    builder) and sleeps that add up to 8 seconds at most. *)
Theorem EnsureBuilder_bounded ctx org region (w : world) out w' :
  EnsureBuilder ctx org region w = Some (out, w') ->
  exists evs,
    trace w' = trace w ++ evs /\
    (remoteCalls evs <= 20)%nat /\
    0 <= slept evs <= 8 * Second.
Proof.
  intros Hrun.
  apply EnsureBuilder_run in Hrun
    as (quiet & after & Htr & _ & Hqc & Hqs & [[-> _]|[reason Hrec]]).
  - exists quiet. rewrite app_nil_r in Htr. split; [exact Htr|].
    unfold Second in *. split; lia.
  - apply recreateRun_measures in Hrec as [Hc Hs].
    exists (quiet ++ after). rewrite remoteCalls_app, slept_app.
    split; [exact Htr|]. unfold Second in *. split; lia.
Qed.

(** ** What a run leaves behind *)

Lemma leftover_app evs evs' :
  leftover (evs ++ evs') = fold_left account evs' (leftover evs).
Proof. apply fold_left_app. Qed.

Lemma account_quiet l ev :
  isDeletion (ev_call ev) = false ->
  isCreation (ev_call ev) = false ->
  account l ev = l.
Proof. destruct ev as [[] r]; cbn; intros; try discriminate; reflexivity. Qed.

Lemma leftover_quiet evs :
  Forall (fun ev => isDeletion (ev_call ev) = false /\
                    isCreation (ev_call ev) = false) evs ->
  leftover evs = nothing.
Proof.
  unfold leftover. generalize nothing as l.
  induction evs as [|ev evs IH]; intros l Hq; [reflexivity|].
  inversion Hq as [|? ? [Hd Hc] Hrest]; subst. cbn [fold_left].
  rewrite account_quiet by assumption. now apply IH.
Qed.

Lemma account_attempts c req failed last l :
  fold_left account
    (attemptsLog (CreateVolume c req) (map RErr failed ++ [last])) l
  = account l (Called (CreateVolume c req) last).
Proof.
  induction failed as [|e rest IH]; [reflexivity|].
  cbn [map app]. rewrite attemptsLog_failed. cbn [fold_left]. exact IH.
Qed.

Lemma without_same x : without x [x] = [].
Proof. unfold without. cbn. now rewrite String.eqb_refl. Qed.

Lemma createRun_leftover c org region name evs r :
  createRun c org region name evs r ->
  match r with
  | Err _ => leftover evs = nothing
  | Ok (app, mach) =>
      exists volume,
        In (Called (CreateApp (createAppInput org region name)) (RApp app)) evs /\
        In (Called (CreateVolume c (createVolumeRequest region)) (RVolume volume))
          evs /\
        In (Called (Launch c (launchInput org region app volume)) (RMachine mach))
          evs /\
        leftover evs = {| live_apps := [name];
                          live_volumes := [vol_ID volume];
                          live_machines := [mach] |}
  end.
Proof.
  intros [e|app e rb|app e rb|app failed e rb Hall Hlen
         |app failed volume e rb1 rb2 Hall Hlen
         |app failed volume mach Hall Hlen].
  - reflexivity.
  - cbn. now rewrite String.eqb_refl.
  - cbn. now rewrite String.eqb_refl.
  - rewrite leftover_app, fold_left_app, account_attempts. cbn.
    unfold without. cbn. now rewrite String.eqb_refl.
  - rewrite leftover_app, fold_left_app, account_attempts. cbn.
    unfold without. cbn. now rewrite !String.eqb_refl.
  - exists volume. split; [now left|]. split; [|split].
    + apply in_or_app. right. apply in_or_app. left.
      destruct (attemptsLog_last (CreateVolume c (createVolumeRequest region))
                  (map RErr failed) (RVolume volume)) as [before ->].
      apply in_or_app. right. now left.
    + apply in_or_app. right. apply in_or_app. right. now left.
    + rewrite leftover_app, fold_left_app, account_attempts. reflexivity.
Qed.

Lemma recreateRun_leftover org region builderApp reason word evs out :
  recreateRun org region builderApp reason word evs out ->
  match out with
  | Err _ => leftover evs = nothing
  | Ok (mach, oa) =>
      exists app volume,
        oa = Some app /\
        In (Called (CreateApp (createAppInput org region ("fly-builder-" ++ word)))
              (RApp app)) evs /\
        In (Called (CreateVolume (newClientOpts org ("fly-builder-" ++ word))
                      (createVolumeRequest region)) (RVolume volume)) evs /\
        In (Called (Launch (newClientOpts org ("fly-builder-" ++ word))
                      (launchInput org region app volume)) (RMachine mach)) evs /\
        leftover evs = {| live_apps := ["fly-builder-" ++ word]%string;
                          live_volumes := [vol_ID volume];
                          live_machines := [mach] |}
  end.
Proof.
  assert (Hp : forall pre evs0 out0,
    leftover pre = nothing ->
    provisionRun org region word evs0 out0 ->
    match out0 with
    | Err _ => leftover (pre ++ evs0) = nothing
    | Ok (mach, oa) =>
        exists app volume,
          oa = Some app /\
          In (Called (CreateApp (createAppInput org region ("fly-builder-" ++ word)))
                (RApp app)) (pre ++ evs0) /\
          In (Called (CreateVolume (newClientOpts org ("fly-builder-" ++ word))
                        (createVolumeRequest region)) (RVolume volume))
            (pre ++ evs0) /\
          In (Called (Launch (newClientOpts org ("fly-builder-" ++ word))
                        (launchInput org region app volume)) (RMachine mach))
            (pre ++ evs0) /\
          leftover (pre ++ evs0)
          = {| live_apps := ["fly-builder-" ++ word]%string;
               live_volumes := [vol_ID volume];
               live_machines := [mach] |}
    end).
  { intros pre evs0 out0 Hpre Hpr. destruct Hpr as [e|evs' r Hcr].
    - rewrite leftover_app, Hpre. reflexivity.
    - apply createRun_leftover in Hcr.
      assert (Hstep : leftover
                (pre ++ Called (NewClientWithOptions
                                  (newClientOpts org ("fly-builder-" ++ word)))
                          RDone :: evs')
              = leftover evs').
      { rewrite leftover_app, Hpre. reflexivity. }
      destruct r as [[app mach]|e]; cbn [ensured].
      + destruct Hcr as (volume & Ha & Hv & Hl & Hleft).
        exists app, volume. split; [reflexivity|].
        repeat split; try (apply in_or_app; right; right; assumption).
        rewrite Hstep. exact Hleft.
      + rewrite Hstep. exact Hcr. }
  intros [b e Hne Hb|b evs' out' Hne Hb Hpr|evs' out' Heq Hpr].
  - reflexivity.
  - exact (Hp [Called (DeleteApp (app_Name b)) RDone] evs' out' eq_refl Hpr).
  - exact (Hp [] evs' out' eq_refl Hpr).
Qed.

(** X3. When [EnsureBuilder] fails, it leaves nothing behind: every app and
    every volume whose creation succeeded during the run is the target of a
    later delete call of the same run, and no machine was launched. *)
Theorem EnsureBuilder_failure_leaves_nothing ctx org region (w : world) e w' evs :
  EnsureBuilder ctx org region w = Some (Err e, w') ->
  trace w' = trace w ++ evs ->
  leftover evs = nothing.
Proof.
  intros Hrun Hevs.
  apply EnsureBuilder_run in Hrun
    as (quiet & after & Htr & Hq & _ & _ & Hcases).
  rewrite Htr in Hevs. apply app_inv_head in Hevs. subst evs.
  rewrite leftover_app, (leftover_quiet quiet Hq).
  destruct Hcases as [[-> _]|[reason Hrec]]; [reflexivity|].
  apply recreateRun_leftover in Hrec. exact Hrec.
Qed.

(** X4. When [EnsureBuilder] succeeds, either it returns the organization's
    builder app with the one machine the listing answered, and its calls
    created and deleted nothing; or it returns the app and the machine the
    remote answered to the creation and to the launch, the machine mounts the
    volume created in the run, and the app (under the generated name), that
    volume and that machine are exactly what the run leaves behind: nothing
    it created was deleted. *)
Theorem EnsureBuilder_success ctx org region (w : world) m oa w' evs :
  EnsureBuilder ctx org region w = Some (Ok (m, oa), w') ->
  trace w' = trace w ++ evs ->
  let name := ("fly-builder-" ++ fst (haikunator_Build (rng w)))%string in
  (exists b,
     org_RemoteBuilderApp org = Some b /\ oa = Some b /\
     In (Called (ListMachines (builderClientOpts b) "") (RMachines [m])) evs /\
     Forall (fun ev => isDeletion (ev_call ev) = false /\
                       isCreation (ev_call ev) = false) evs /\
     leftover evs = nothing) \/
  (exists app volume,
     oa = Some app /\
     In (Called (CreateApp (createAppInput org region name)) (RApp app)) evs /\
     In (Called (CreateVolume (newClientOpts org name) (createVolumeRequest region))
           (RVolume volume)) evs /\
     In (Called (Launch (newClientOpts org name)
                   (launchInput org region app volume)) (RMachine m)) evs /\
     leftover evs = {| live_apps := [name];
                       live_volumes := [vol_ID volume];
                       live_machines := [m] |}).
Proof.
  intros Hrun Hevs name.
  apply EnsureBuilder_run in Hrun
    as (quiet & after & Htr & Hq & _ & _ & Hcases).
  rewrite Htr in Hevs. apply app_inv_head in Hevs. subst evs.
  destruct Hcases as [[-> [[e He]|(m' & b & Hb & Hout & Hin)]]|[reason Hrec]].
  - discriminate.
  - left. injection Hout as <- ->. exists b. rewrite app_nil_r.
    repeat split; auto. now apply leftover_quiet.
  - right. apply recreateRun_leftover in Hrec.
    destruct Hrec as (app & volume & -> & Ha & Hv & Hl & Hleft).
    exists app, volume. split; [reflexivity|].
    repeat split; try (apply in_or_app; right; assumption).
    rewrite leftover_app, (leftover_quiet quiet Hq). exact Hleft.
Qed.

(** X5. An error of the listings is not a verdict.  When validation fails
    with an error in which [errors.As] finds no [ValidateBuilderError] (the
    error of a remote call), [EnsureBuilder] returns that very error; it has
    then deleted nothing, created nothing and drawn no name: the builder app
    is left as it was. *)
Theorem EnsureBuilder_remote_error ctx org region (w : world) ctxV w0 err w1 :
  EnsureBuilder_client ctx (org_RemoteBuilderApp org) w = Some (Ok ctxV, w0) ->
  validateBuilder ctxV (org_RemoteBuilderApp org) w0 = Some (Err err, w1) ->
  asValidateBuilderError err = None ->
  EnsureBuilder ctx org region w = Some (Err err, w1) /\
  rng w1 = rng w /\
  exists evs,
    trace w1 = trace w ++ evs /\
    Forall (fun ev => isDeletion (ev_call ev) = false /\
                      isCreation (ev_call ev) = false) evs.
Proof.
  intros Hcl Hv Has. split; [|split].
  - unfold EnsureBuilder. cbv zeta. unfold bind at 1. rewrite Hcl.
    unfold EnsureBuilder_validated, bind. now rewrite Hv, Has.
  - apply EnsureBuilder_client_inv in Hcl as (Hr0 & _).
    apply validateBuilder_frame in Hv as (Hr1 & _). congruence.
  - apply EnsureBuilder_client_inv in Hcl as (_ & evc & Ht0 & _ & Hqc).
    apply validateBuilder_measures in Hv as (evv & Ht1 & Hqv & _).
    exists (evc ++ evv). split; [now rewrite Ht1, Ht0, app_assoc|].
    now apply Forall_app.
Qed.

(** X6. With a builder app, the verdict of [validateBuilder] is read off the
    answer to its last call: an error answer is returned as it is; an empty
    volume list gives [NoBuilderVolume]; a machine list gives its machine
    when it holds exactly one, [InvalidMachineCount] otherwise.  No other
    answer ends a validation. *)
Theorem validateBuilder_last_answer ctx a (w : world) r w' :
  validateBuilder ctx (Some a) w = Some (r, w') ->
  exists c before call answer,
    ClientFromContext ctx = Some c /\
    trace w' = trace w ++ before ++ [Called call answer] /\
    match answer with
    | RErr e => (call = GetVolumes c \/ call = ListMachines c "") /\ r = Err e
    | RVolumes volumes =>
        call = GetVolumes c /\ volumes = [] /\
        r = Err (ValidateErr NoBuilderVolume)
    | RMachines machines =>
        call = ListMachines c "" /\
        r = match machines with
            | [m] => Ok m
            | _ => Err (ValidateErr InvalidMachineCount)
            end
    | _ => False
    end.
Proof.
  intros Hrun.
  destruct (ClientFromContext ctx) as [c|] eqn:Hc.
  2:{ now rewrite validateBuilder_no_client in Hrun. }
  rewrite (validateBuilder_retrying ctx a c w Hc) in Hrun.
  destruct (GetVolumes_retryRun ctx c 2 w)
    as (f1 & l1 & _ & _ & Ht1 & _ & _ & Hl1 & _).
  destruct (retrying 2 (call_GetVolumes ctx c) w) as [rv w1].
  cbn [fst snd] in *.
  destruct (attemptsLog_last (GetVolumes c) (map RErr f1) l1) as [b1 Hb1].
  rewrite Hb1 in Ht1.
  destruct rv as [[|v vs]|err]; cbn in Hl1; subst l1.
  - injection Hrun as <- <-. exists c, b1, (GetVolumes c), (RVolumes []).
    repeat split; auto.
  - destruct (List_retryRun ctx c 2 w1)
      as (f2 & l2 & _ & _ & Ht2 & _ & _ & Hl2 & _).
    destruct (retrying 2 (call_List ctx c "") w1) as [rm w2].
    cbn [fst snd] in *.
    destruct (attemptsLog_last (ListMachines c "") (map RErr f2) l2) as [b2 Hb2].
    rewrite Hb2 in Ht2.
    exists c, ((b1 ++ [Called (GetVolumes c) (RVolumes (v :: vs))]) ++ b2),
      (ListMachines c "").
    destruct rm as [ms|err]; cbn in Hl2; subst l2.
    + exists (RMachines ms).
      assert (w' = w2 /\
              r = match ms with
                  | [m] => Ok m
                  | _ => Err (ValidateErr InvalidMachineCount)
                  end) as [-> ->].
      { destruct ms as [|m [|m' ms']]; now injection Hrun as <- <-. }
      split; [reflexivity|]. split; [|now split].
      rewrite Ht2, Ht1. now rewrite <- !app_assoc.
    + exists (RErr err). injection Hrun as <- <-.
      split; [reflexivity|]. split; [|now split; [right|]].
      rewrite Ht2, Ht1. now rewrite <- !app_assoc.
  - injection Hrun as <- <-. exists c, b1, (GetVolumes c), (RErr err).
    repeat split; auto.
Qed.

(** X7. The messages of [ValidateBuilderError.Error]: a value other than the
    three reasons reads "unknown error validating builder", and only such a
    value does; any other message tells which reason it stands for. *)
Theorem ValidateBuilderError_Error_messages :
  (forall e,
     ValidateBuilderError_Error e = "unknown error validating builder"%string <->
     e <> NoBuilderApp /\ e <> NoBuilderVolume /\ e <> InvalidMachineCount) /\
  (forall e1 e2,
     ValidateBuilderError_Error e1 = ValidateBuilderError_Error e2 ->
     ValidateBuilderError_Error e1 <> "unknown error validating builder"%string ->
     e1 = e2).
Proof.
  assert (Hcases : forall e,
    (e = NoBuilderApp /\ ValidateBuilderError_Error e = "no builder app"%string) \/
    (e = NoBuilderVolume /\
     ValidateBuilderError_Error e = "no builder volume"%string) \/
    (e = InvalidMachineCount /\
     ValidateBuilderError_Error e = "invalid machine count"%string) \/
    (e <> NoBuilderApp /\ e <> NoBuilderVolume /\ e <> InvalidMachineCount /\
     ValidateBuilderError_Error e = "unknown error validating builder"%string)).
  { intros e. unfold ValidateBuilderError_Error.
    destruct (Z.eqb_spec e NoBuilderApp) as [->|H0]; [now left|].
    destruct (Z.eqb_spec e NoBuilderVolume) as [->|H1]; [now right; left|].
    destruct (Z.eqb_spec e InvalidMachineCount) as [->|H2];
      [now right; right; left|].
    now right; right; right. }
  split.
  - intros e. destruct (Hcases e) as [[-> ->]|[[-> ->]|[[-> ->]|(H0 & H1 & H2 & ->)]]];
      split; try discriminate; try tauto.
    all: intros (A & B & C); congruence.
  - intros e1 e2 Heq Hknown.
    destruct (Hcases e1) as [[-> H1]|[[-> H1]|[[-> H1]|(_ & _ & _ & H1)]]];
      [| | |contradiction];
      rewrite H1 in Heq;
      destruct (Hcases e2) as [[-> H2]|[[-> H2]|[[-> H2]|(_ & _ & _ & H2)]]];
      rewrite H2 in Heq; try discriminate; reflexivity.
Qed.

(** ** Where a returned error comes from *)

Lemma createRun_error_origin c org region name evs e :
  createRun c org region name evs (Err e) ->
  exists ev, In ev evs /\ stepError ev = Some e.
Proof.
  intros Hcr. remember (Err e) as r eqn:Hr.
  destruct Hcr as [e'|app e' rb|app e' rb|app failed e' rb Hall Hlen
                  |app failed volume e' rb1 rb2 Hall Hlen
                  |app failed volume mach Hall Hlen];
    try discriminate Hr; injection Hr as <-.
  - eexists. split; [now left|reflexivity].
  - eexists. split; [right; now left|reflexivity].
  - eexists. split; [right; right; now left|reflexivity].
  - exists (Called (CreateVolume c (createVolumeRequest region)) (RErr e')).
    split; [|reflexivity].
    apply in_or_app. right. apply in_or_app. left.
    destruct (attemptsLog_last (CreateVolume c (createVolumeRequest region))
                (map RErr failed) (RErr e')) as [before ->].
    apply in_or_app. right. now left.
  - exists (Called (Launch c (launchInput org region app volume)) (RErr e')).
    split; [|reflexivity].
    apply in_or_app. right. apply in_or_app. right. now left.
Qed.

Lemma validateBuilder_error_origin ctx a (w : world) err w' :
  validateBuilder ctx (Some a) w = Some (Err err, w') ->
  asValidateBuilderError err = None ->
  exists evs ev,
    trace w' = trace w ++ evs /\ In ev evs /\ stepError ev = Some err.
Proof.
  intros Hrun Has.
  destruct (ClientFromContext ctx) as [c|] eqn:Hc.
  2:{ now rewrite validateBuilder_no_client in Hrun. }
  rewrite (validateBuilder_retrying ctx a c w Hc) in Hrun.
  destruct (GetVolumes_retryRun ctx c 2 w)
    as (f1 & l1 & _ & _ & Ht1 & _ & _ & Hl1 & _).
  destruct (retrying 2 (call_GetVolumes ctx c) w) as [rv w1].
  cbn [fst snd] in *.
  destruct (attemptsLog_last (GetVolumes c) (map RErr f1) l1) as [b1 Hb1].
  destruct rv as [[|v vs]|e1]; cbn in Hl1; subst l1.
  - injection Hrun as <- <-. discriminate Has.
  - destruct (List_retryRun ctx c 2 w1)
      as (f2 & l2 & _ & _ & Ht2 & _ & _ & Hl2 & _).
    destruct (retrying 2 (call_List ctx c "") w1) as [rm w2].
    cbn [fst snd] in *.
    destruct (attemptsLog_last (ListMachines c "") (map RErr f2) l2) as [b2 Hb2].
    destruct rm as [ms|e2]; cbn in Hl2; subst l2.
    + destruct ms as [|m [|m' ms']]; try discriminate Hrun;
        injection Hrun as Hr Hw; subst err; discriminate Has.
    + injection Hrun as <- <-.
      exists (attemptsLog (GetVolumes c) (map RErr f1 ++ [RVolumes (v :: vs)])
              ++ attemptsLog (ListMachines c "") (map RErr f2 ++ [RErr e2])),
        (Called (ListMachines c "") (RErr e2)).
      split; [now rewrite Ht2, Ht1, app_assoc|]. split; [|reflexivity].
      apply in_or_app. right. rewrite Hb2. apply in_or_app. right. now left.
  - injection Hrun as <- <-.
    exists (attemptsLog (GetVolumes c) (map RErr f1 ++ [RErr e1])),
      (Called (GetVolumes c) (RErr e1)).
    split; [exact Ht1|]. split; [|reflexivity].
    rewrite Hb1. apply in_or_app. right. now left.
Qed.

(** X8. Every error [EnsureBuilder] returns is the error some call of the
    run was answered with (for [WaitForApp], inside the message "waiting for
    app ..."): a verdict of the validation is never returned to the caller. *)
Theorem EnsureBuilder_error_origin ctx org region (w : world) e w' evs :
  EnsureBuilder ctx org region w = Some (Err e, w') ->
  trace w' = trace w ++ evs ->
  exists ev, In ev evs /\ stepError ev = Some e.
Proof.
  intros Hrun Hevs.
  apply EnsureBuilder_inv in Hrun as (rc & w0 & Hcl & Hrun).
  assert (Hclient : exists evc, trace w0 = trace w ++ evc /\
    forall e', rc = Err e' -> In (Called (NewClientWithOptions
      (match org_RemoteBuilderApp org with
       | Some b => builderClientOpts b
       | None => newClientOpts org ""
       end)) (RErr e')) evc).
  { unfold EnsureBuilder_client in Hcl.
    destruct (org_RemoteBuilderApp org) as [b|].
    - unfold bind, lift, ret, call_NewClientWithOptions in Hcl. run_call Hcl.
      assert (w0 = w1) as -> by (destruct a; now injection Hcl).
      eexists. split; [eassumption|]. intros e' ->.
      destruct a as [e0|]; [|discriminate]. injection Hcl as <-. now left.
    - injection Hcl as <- <-. exists []. rewrite app_nil_r.
      split; [reflexivity|discriminate]. }
  destruct Hclient as (evc & Ht0 & Hce).
  destruct rc as [ctxV|e0].
  2:{ destruct Hrun as [[= <-] ->]. rewrite Ht0 in Hevs.
      apply app_inv_head in Hevs. subst evs.
      eexists. split; [apply (Hce e eq_refl)|reflexivity]. }
  apply EnsureBuilder_validated_inv in Hrun as (rv & w1 & Hv & Hrun).
  destruct rv as [m|err]; [now destruct Hrun|].
  destruct (asValidateBuilderError err) as [reason|] eqn:Has.
  - destruct Hrun as (after & Hta & Hrec).
    apply validateBuilder_frame in Hv as (_ & evv & Ht1 & _).
    rewrite Hta, Ht1, Ht0, <- !app_assoc in Hevs.
    apply app_inv_head in Hevs. subst evs.
    assert (Hafter : exists ev, In ev after /\ stepError ev = Some e).
    { remember (Err e) as out eqn:Hout.
      destruct Hrec as [b e' Hne Hb|b evs' out' Hne Hb Hp|evs' out' Heq Hp].
      - injection Hout as <-. eexists. split; [now left|reflexivity].
      - destruct Hp as [e'|evs'' r Hcr].
        + injection Hout as <-. eexists. split; [right; now left|reflexivity].
        + destruct r as [[app machine]|e']; [discriminate|].
          injection Hout as <-.
          apply createRun_error_origin in Hcr as (ev & Hin & Hs).
          exists ev. split; [right; now right|exact Hs].
      - destruct Hp as [e'|evs'' r Hcr].
        + injection Hout as <-. eexists. split; [now left|reflexivity].
        + destruct r as [[app machine]|e']; [discriminate|].
          injection Hout as <-.
          apply createRun_error_origin in Hcr as (ev & Hin & Hs).
          exists ev. split; [now right|exact Hs]. }
    destruct Hafter as (ev & Hin & Hs). exists ev. split; [|exact Hs].
    apply in_or_app. right. apply in_or_app. now right.
  - destruct Hrun as [[= <-] ->].
    destruct (org_RemoteBuilderApp org) as [a|];
      [|injection Hv as <- <-; discriminate Has].
    apply validateBuilder_error_origin in Hv as (evv & ev & Ht1 & Hin & Hs);
      [|exact Has].
    rewrite Ht1, Ht0, <- !app_assoc in Hevs.
    apply app_inv_head in Hevs. subst evs.
    exists ev. split; [|exact Hs].
    apply in_or_app. now right.
Qed.

(** ** What is deleted *)

Lemma createRun_deletions c org region name evs r ev :
  createRun c org region name evs r ->
  In ev evs ->
  (forall n, ev_call ev = DeleteApp n -> n = name) /\
  (forall c' id,
     ev_call ev = DeleteVolume c' id ->
     exists v,
       In (Called (CreateVolume c (createVolumeRequest region)) (RVolume v)) evs /\
       c' = c /\ id = vol_ID v).
Proof.
  assert (Hlog : forall answers,
    In ev (attemptsLog (CreateVolume c (createVolumeRequest region)) answers) ->
    isDeletion (ev_call ev) = false).
  { intros answers Hin.
    apply attemptsLog_In in Hin as [->|(r0 & _ & ->)]; reflexivity. }
  assert (Hnd : isDeletion (ev_call ev) = false ->
    (forall n, ev_call ev = DeleteApp n -> n = name) /\
    (forall c' id,
       ev_call ev = DeleteVolume c' id ->
       exists v,
         In (Called (CreateVolume c (createVolumeRequest region)) (RVolume v)) evs /\
         c' = c /\ id = vol_ID v)).
  { intros Hd. split; [intros n Hn|intros c' id Hn]; rewrite Hn in Hd;
      discriminate. }
  assert (Hready : forall app,
    In ev (readySteps c org region name app) -> isDeletion (ev_call ev) = false).
  { intros app [<-|[<-|[<-|[]]]]; reflexivity. }
  assert (Happ : ev_call ev = DeleteApp name ->
    (forall n, ev_call ev = DeleteApp n -> n = name) /\
    (forall c' id,
       ev_call ev = DeleteVolume c' id ->
       exists v,
         In (Called (CreateVolume c (createVolumeRequest region)) (RVolume v)) evs /\
         c' = c /\ id = vol_ID v)).
  { intros Hc. split; [intros n Hn|intros c' id Hn]; rewrite Hn in Hc;
      [now injection Hc|discriminate]. }
  intros Hcr Hin. revert Hnd Happ.
  destruct Hcr as [e|app e rb|app e rb|app failed e rb Hall Hlen
                  |app failed volume e rb1 rb2 Hall Hlen
                  |app failed volume mach Hall Hlen]; intros Hnd Happ.
  - destruct Hin as [<-|[]]. now apply Hnd.
  - destruct Hin as [<-|[<-|[<-|[]]]]; [now apply Hnd|now apply Hnd|now apply Happ].
  - destruct Hin as [<-|[<-|[<-|[<-|[]]]]];
      [now apply Hnd|now apply Hnd|now apply Hnd|now apply Happ].
  - apply in_app_or in Hin as [Hin|Hin]; [apply Hnd; eapply Hready; eauto|].
    apply in_app_or in Hin as [Hin|Hin]; [apply Hnd; eapply Hlog; eauto|].
    destruct Hin as [<-|[]]. now apply Happ.
  - apply in_app_or in Hin as [Hin|Hin]; [apply Hnd; eapply Hready; eauto|].
    apply in_app_or in Hin as [Hin|Hin]; [apply Hnd; eapply Hlog; eauto|].
    destruct Hin as [<-|[<-|[<-|[]]]]; [now apply Hnd| |now apply Happ].
    split; [discriminate|]. intros c' id [= <- <-]. exists volume.
    split; [|now split].
    apply in_or_app. right. apply in_or_app. left.
    destruct (attemptsLog_last (CreateVolume c (createVolumeRequest region))
                (map RErr failed) (RVolume volume)) as [before ->].
    apply in_or_app. right. now left.
  - apply in_app_or in Hin as [Hin|Hin]; [apply Hnd; eapply Hready; eauto|].
    apply in_app_or in Hin as [Hin|Hin]; [apply Hnd; eapply Hlog; eauto|].
    destruct Hin as [<-|[]]. now apply Hnd.
Qed.

(** X9. [EnsureBuilder] deletes nothing foreign: every app it asks to delete
    is the organization's builder app or the app under the name generated in
    this run, and every volume it asks to delete is a volume whose creation
    succeeded in this run. *)
Theorem EnsureBuilder_deletes_its_own ctx org region (w : world) out w' evs :
  EnsureBuilder ctx org region w = Some (out, w') ->
  trace w' = trace w ++ evs ->
  let name := ("fly-builder-" ++ fst (haikunator_Build (rng w)))%string in
  (forall n r,
     In (Called (DeleteApp n) r) evs ->
     (exists b, org_RemoteBuilderApp org = Some b /\ n = app_Name b) \/
     n = name) /\
  (forall c id r,
     In (Called (DeleteVolume c id) r) evs ->
     exists req v,
       In (Called (CreateVolume c req) (RVolume v)) evs /\ id = vol_ID v).
Proof.
  intros Hrun Hevs name.
  apply EnsureBuilder_run in Hrun
    as (quiet & after & Htr & Hq & _ & _ & Hcases).
  rewrite Htr in Hevs. apply app_inv_head in Hevs. subst evs.
  assert (Hall : forall ev,
    In ev (quiet ++ after) ->
    (forall n,
       ev_call ev = DeleteApp n ->
       (exists b, org_RemoteBuilderApp org = Some b /\ n = app_Name b) \/
       n = name) /\
    (forall c id,
       ev_call ev = DeleteVolume c id ->
       exists req v,
         In (Called (CreateVolume c req) (RVolume v)) (quiet ++ after) /\
         id = vol_ID v)).
  { intros ev Hin.
    assert (Hnd : isDeletion (ev_call ev) = false ->
      (forall n,
         ev_call ev = DeleteApp n ->
         (exists b, org_RemoteBuilderApp org = Some b /\ n = app_Name b) \/
         n = name) /\
      (forall c id,
         ev_call ev = DeleteVolume c id ->
         exists req v,
           In (Called (CreateVolume c req) (RVolume v)) (quiet ++ after) /\
           id = vol_ID v)).
    { intros Hd. split; [intros n Hn|intros c' id Hn]; rewrite Hn in Hd;
        discriminate. }
    apply in_app_or in Hin as [Hin|Hin].
    { apply Hnd. rewrite Forall_forall in Hq. now apply Hq. }
    assert (Hprov : forall pre evs0 out0,
      after = pre ++ evs0 ->
      provisionRun org region (fst (haikunator_Build (rng w))) evs0 out0 ->
      In ev evs0 ->
      (forall n,
         ev_call ev = DeleteApp n ->
         (exists b, org_RemoteBuilderApp org = Some b /\ n = app_Name b) \/
         n = name) /\
      (forall c id,
         ev_call ev = DeleteVolume c id ->
         exists req v,
           In (Called (CreateVolume c req) (RVolume v)) (quiet ++ after) /\
           id = vol_ID v)).
    { intros pre evs0 out0 Hafter Hp Hin0.
      destruct Hp as [e|evs' r Hcr].
      - destruct Hin0 as [<-|[]]. now apply Hnd.
      - destruct Hin0 as [<-|Hin0]; [now apply Hnd|].
        destruct (createRun_deletions _ _ _ _ _ _ ev Hcr Hin0) as [Ha Hv].
        split.
        + intros n Hn. right. now apply Ha.
        + intros c id Hc. destruct (Hv c id Hc) as (v & Hinv & -> & ->).
          eexists; exists v. split; [|reflexivity].
          apply in_or_app. right. rewrite Hafter.
          apply in_or_app. right. right. exact Hinv. }
    destruct Hcases as [[-> _]|[reason Hrec]]; [destruct Hin|].
    destruct Hrec as [b e Hne Hb|b evs' out' Hne Hb Hp|evs' out' Heq Hp].
    - destruct Hin as [<-|[]]. split; [|discriminate].
      intros n [= <-]. left. now exists b.
    - destruct Hin as [<-|Hin].
      + split; [|discriminate]. intros n [= <-]. left. now exists b.
      + exact (Hprov [Called (DeleteApp (app_Name b)) RDone] evs' out' eq_refl
                 Hp Hin).
    - exact (Hprov [] evs' out' eq_refl Hp Hin). }
  split.
  - intros n r Hin. exact (proj1 (Hall _ Hin) n eq_refl).
  - intros c id r Hin. exact (proj2 (Hall _ Hin) c id eq_refl).
Qed.

(** ** What is launched *)

Lemma createRun_launch c org region name evs r c' input resp :
  createRun c org region name evs r ->
  In (Called (Launch c' input) resp) evs ->
  c' = c /\
  exists app volume,
    In (Called (CreateApp (createAppInput org region name)) (RApp app)) evs /\
    In (Called (CreateVolume c (createVolumeRequest region)) (RVolume volume)) evs /\
    input = launchInput org region app volume.
Proof.
  assert (Hlog : forall answers,
    ~ In (Called (Launch c' input) resp)
         (attemptsLog (CreateVolume c (createVolumeRequest region)) answers)).
  { intros answers Hin.
    apply attemptsLog_In in Hin as [Hin|(r0 & _ & Hin)]; discriminate Hin. }
  assert (Hready : forall app,
    ~ In (Called (Launch c' input) resp) (readySteps c org region name app)).
  { intros app [Hin|[Hin|[Hin|[]]]]; discriminate Hin. }
  assert (Hfound : forall app failed volume tail,
    c' = c -> input = launchInput org region app volume ->
    c' = c /\
    exists app0 volume0,
      In (Called (CreateApp (createAppInput org region name)) (RApp app0))
        (readySteps c org region name app
         ++ attemptsLog (CreateVolume c (createVolumeRequest region))
              (map RErr failed ++ [RVolume volume])
         ++ tail) /\
      In (Called (CreateVolume c (createVolumeRequest region)) (RVolume volume0))
        (readySteps c org region name app
         ++ attemptsLog (CreateVolume c (createVolumeRequest region))
              (map RErr failed ++ [RVolume volume])
         ++ tail) /\
      input = launchInput org region app0 volume0).
  { intros app failed volume tail Hc Hi. split; [exact Hc|].
    exists app, volume. split; [apply in_or_app; left; now left|].
    split; [|exact Hi].
    apply in_or_app. right. apply in_or_app. left.
    destruct (attemptsLog_last (CreateVolume c (createVolumeRequest region))
                (map RErr failed) (RVolume volume)) as [before ->].
    apply in_or_app. right. now left. }
  intros Hcr Hin.
  destruct Hcr as [e|app e rb|app e rb|app failed e rb Hall Hlen
                  |app failed volume e rb1 rb2 Hall Hlen
                  |app failed volume mach Hall Hlen].
  - destruct Hin as [Hin|[]]; discriminate Hin.
  - destruct Hin as [Hin|[Hin|[Hin|[]]]]; discriminate Hin.
  - destruct Hin as [Hin|[Hin|[Hin|[Hin|[]]]]]; discriminate Hin.
  - apply in_app_or in Hin as [Hin|Hin]; [now apply Hready in Hin|].
    apply in_app_or in Hin as [Hin|Hin]; [now apply Hlog in Hin|].
    destruct Hin as [Hin|[]]; discriminate Hin.
  - apply in_app_or in Hin as [Hin|Hin]; [now apply Hready in Hin|].
    apply in_app_or in Hin as [Hin|Hin]; [now apply Hlog in Hin|].
    destruct Hin as [Hin|[Hin|[Hin|[]]]]; try discriminate Hin.
    injection Hin as <- <- _. now apply Hfound.
  - apply in_app_or in Hin as [Hin|Hin]; [now apply Hready in Hin|].
    apply in_app_or in Hin as [Hin|Hin]; [now apply Hlog in Hin|].
    destruct Hin as [Hin|[]]; try discriminate Hin.
    injection Hin as <- <- _. now apply Hfound.
Qed.

(** X10. What [EnsureBuilder] launches: a machine is launched only through
    the flaps client of the generated name, after the app and the volume of
    this run were created, and its only mount puts that volume at "/data"
    under the name the created app was answered with. *)
Theorem EnsureBuilder_launch ctx org region (w : world) out w' evs c input resp :
  EnsureBuilder ctx org region w = Some (out, w') ->
  trace w' = trace w ++ evs ->
  In (Called (Launch c input) resp) evs ->
  let name := ("fly-builder-" ++ fst (haikunator_Build (rng w)))%string in
  c = newClientOpts org name /\
  exists app volume,
    In (Called (CreateApp (createAppInput org region name)) (RApp app)) evs /\
    In (Called (CreateVolume c (createVolumeRequest region)) (RVolume volume)) evs /\
    input = launchInput org region app volume /\
    option_map mc_Mounts (lmi_Config input)
    = Some [ {| mm_Path := "/data";
                mm_Volume := vol_ID volume;
                mm_Name := app_Name app |} ].
Proof.
  intros Hrun Hevs Hin name.
  apply EnsureBuilder_run in Hrun
    as (quiet & after & Htr & Hq & _ & _ & Hcases).
  rewrite Htr in Hevs. apply app_inv_head in Hevs. subst evs.
  apply in_app_or in Hin as [Hin|Hin].
  { rewrite Forall_forall in Hq. apply Hq in Hin as [_ Hin]. discriminate Hin. }
  assert (Hprov : forall pre evs0 out0,
    after = pre ++ evs0 ->
    provisionRun org region (fst (haikunator_Build (rng w))) evs0 out0 ->
    In (Called (Launch c input) resp) evs0 ->
    c = newClientOpts org name /\
    exists app volume,
      In (Called (CreateApp (createAppInput org region name)) (RApp app))
        (quiet ++ after) /\
      In (Called (CreateVolume c (createVolumeRequest region)) (RVolume volume))
        (quiet ++ after) /\
      input = launchInput org region app volume /\
      option_map mc_Mounts (lmi_Config input)
      = Some [ {| mm_Path := "/data";
                  mm_Volume := vol_ID volume;
                  mm_Name := app_Name app |} ]).
  { intros pre evs0 out0 Hafter Hp Hin0.
    destruct Hp as [e|evs' r Hcr].
    - destruct Hin0 as [Hin0|[]]; discriminate Hin0.
    - destruct Hin0 as [Hin0|Hin0]; [discriminate Hin0|].
      destruct (createRun_launch _ _ _ _ _ _ _ _ _ Hcr Hin0)
        as (-> & app & volume & Ha & Hv & ->).
      split; [reflexivity|]. exists app, volume.
      assert (Hlater : forall ev,
        In ev evs' ->
        In ev (quiet ++ pre ++
               Called (NewClientWithOptions
                         (newClientOpts org
                            ("fly-builder-" ++ fst (haikunator_Build (rng w)))))
                 RDone :: evs')).
      { intros ev Hev. apply in_or_app. right. apply in_or_app. right.
        now right. }
      rewrite Hafter. split; [now apply Hlater|]. split; [now apply Hlater|].
      split; reflexivity. }
  destruct Hcases as [[-> _]|[reason Hrec]]; [destruct Hin|].
  destruct Hrec as [b e Hne Hb|b evs' out' Hne Hb Hp|evs' out' Heq Hp].
  - destruct Hin as [Hin|[]]; discriminate Hin.
  - destruct Hin as [Hin|Hin]; [discriminate Hin|].
    exact (Hprov [Called (DeleteApp (app_Name b)) RDone] evs' out' eq_refl Hp Hin).
  - exact (Hprov [] evs' out' eq_refl Hp Hin).
Qed.

(** ** How often the remote state is changed *)

Lemma calls_app p evs evs' :
  calls p (evs ++ evs') = (calls p evs + calls p evs')%nat.
Proof. unfold calls. now rewrite filter_app, length_app. Qed.

Lemma calls_attemptsLog p c answers :
  (forall d, p (Sleep d) = false) ->
  calls p (attemptsLog c answers) = if p c then length answers else 0%nat.
Proof.
  intros Hs. induction answers as [|r rest IH]; [now destruct (p c)|].
  destruct rest as [|r' rest'].
  - unfold calls. cbn. now destruct (p c).
  - change (attemptsLog c (r :: r' :: rest'))
      with ([Called c r; Called (Sleep (1 * Second)) RDone]
            ++ attemptsLog c (r' :: rest')).
    rewrite calls_app, IH. unfold calls. cbn. rewrite Hs.
    now destruct (p c).
Qed.

Lemma calls_quiet p evs :
  (forall c, p c = true -> isDeletion c = true \/ isCreation c = true) ->
  Forall (fun ev => isDeletion (ev_call ev) = false /\
                    isCreation (ev_call ev) = false) evs ->
  calls p evs = 0%nat.
Proof.
  intros Hp Hq. induction Hq as [|ev evs [Hd Hc] _ IH]; [reflexivity|].
  unfold calls in *. cbn. destruct (p (ev_call ev)) eqn:Hpe; [|exact IH].
  apply Hp in Hpe as [Hpe|Hpe]; congruence.
Qed.

Lemma createRun_calls c org region name evs r :
  createRun c org region name evs r ->
  (calls isCreateApp evs <= 1)%nat /\
  (calls isAllocateIPAddress evs <= 1)%nat /\
  (calls isCreateVolume evs <= 5)%nat /\
  (calls isLaunch evs <= 1)%nat /\
  (calls isDeleteVolume evs <= 1)%nat /\
  (calls isDeleteApp evs <= 1)%nat.
Proof.
  intros [e|app e rb|app e rb|app failed e rb Hall Hlen
         |app failed volume e rb1 rb2 Hall Hlen
         |app failed volume mach Hall Hlen];
    try (cbn; repeat split; lia).
  all: rewrite !calls_app, !calls_attemptsLog by reflexivity.
  all: rewrite length_app, length_map.
  all: cbn; repeat split; lia.
Qed.

(** X11. How often a run of [EnsureBuilder] changes the remote state: it
    creates at most one app, allocates at most one address, launches at most
    one machine and deletes at most one volume; it asks for a volume at most
    five times and for the deletion of an app at most twice. *)
Theorem EnsureBuilder_mutations ctx org region (w : world) out w' evs :
  EnsureBuilder ctx org region w = Some (out, w') ->
  trace w' = trace w ++ evs ->
  (calls isCreateApp evs <= 1)%nat /\
  (calls isAllocateIPAddress evs <= 1)%nat /\
  (calls isCreateVolume evs <= 5)%nat /\
  (calls isLaunch evs <= 1)%nat /\
  (calls isDeleteVolume evs <= 1)%nat /\
  (calls isDeleteApp evs <= 2)%nat.
Proof.
  intros Hrun Hevs.
  apply EnsureBuilder_run in Hrun
    as (quiet & after & Htr & Hq & _ & _ & Hcases).
  rewrite Htr in Hevs. apply app_inv_head in Hevs. subst evs.
  rewrite !calls_app.
  rewrite (calls_quiet isCreateApp quiet), (calls_quiet isAllocateIPAddress quiet),
    (calls_quiet isCreateVolume quiet), (calls_quiet isLaunch quiet),
    (calls_quiet isDeleteVolume quiet), (calls_quiet isDeleteApp quiet); auto.
  2-7: intros [] Hc; try discriminate Hc; auto.
  assert (Hprov : forall evs0 out0,
    provisionRun org region (fst (haikunator_Build (rng w))) evs0 out0 ->
    (calls isCreateApp evs0 <= 1)%nat /\
    (calls isAllocateIPAddress evs0 <= 1)%nat /\
    (calls isCreateVolume evs0 <= 5)%nat /\
    (calls isLaunch evs0 <= 1)%nat /\
    (calls isDeleteVolume evs0 <= 1)%nat /\
    (calls isDeleteApp evs0 <= 1)%nat).
  { intros evs0 out0 [e|evs' r Hcr]; [cbn; repeat split; lia|].
    apply createRun_calls in Hcr. exact Hcr. }
  destruct Hcases as [[-> _]|[reason Hrec]]; [cbn; repeat split; lia|].
  destruct Hrec as [b e Hne Hb|b evs' out' Hne Hb Hp|evs' out' Heq Hp].
  - cbn. repeat split; lia.
  - apply Hprov in Hp as (H1 & H2 & H3 & H4 & H5 & H6).
    change (Called ?x ?y :: evs') with ([Called x y] ++ evs').
    rewrite !calls_app. cbn. repeat split; lia.
  - apply Hprov in Hp as (H1 & H2 & H3 & H4 & H5 & H6).
    cbn. repeat split; lia.
Qed.

(** ** Without the API client *)


End Facts.

(** * Examples *)

Lemma validateBuilder_outcome_witness :
  validateBuilder ctxOld (Some oldBuilder) healthy = Some (Ok m1, healthy_validated).
Proof.
  destruct (validateBuilder_outcome ctxOld (Some oldBuilder) healthy) as [_ H].
  destruct (H oldBuilder oldClient [vol1] healthy_listed eq_refl eq_refl eq_refl)
    as [_ H2].
  destruct (H2 ltac:(discriminate) [m1] healthy_validated eq_refl) as [_ H3].
  exact (H3 m1 eq_refl).
Defined.

Lemma validateBuilder_reads_only_witness :
  exists volumeCalls machineCalls,
    trace volumeless_validated = trace volumeless ++ volumeCalls ++ machineCalls /\
    Forall (fun ev => isGetVolumes (ev_call ev) || isSleep (ev_call ev) = true)
      volumeCalls /\
    Forall (fun ev => isListMachines (ev_call ev) || isSleep (ev_call ev) = true)
      machineCalls /\
    Forall (fun ev => isRemote (ev_call ev) = true -> isRead (ev_call ev) = true)
      (volumeCalls ++ machineCalls) /\
    (In (RVolumes []) (map ev_response volumeCalls) -> machineCalls = []).
Proof.
  apply (validateBuilder_reads_only ctxOld (Some oldBuilder) volumeless
           (Err (ValidateErr NoBuilderVolume)) volumeless_validated).
  vm_compute. reflexivity.
Defined.

Lemma createBuilder_rollback_witness :
  createBuilder ctxNew orgWithout "ams" newName launchFails
  = Some (Err (OtherErr "no capacity"), launchFails_end) /\
  exists steps rollbacks,
    trace launchFails_end = trace launchFails ++ steps ++ rollbacks /\
    Forall (fun ev => isDeletion (ev_call ev) = false) steps /\
    (map ev_call rollbacks = compensations steps /\
     exists before failing,
       steps = before ++ [failing] /\
       stepError failing = Some (OtherErr "no capacity")) /\
    (forall input e,
       In (Called (Launch newClient input) (RErr e)) steps ->
       exists volume rb1 rb2,
         In (Called (CreateVolume newClient (createVolumeRequest "ams"))
               (RVolume volume)) steps /\
         rollbacks = [Called (DeleteVolume newClient (vol_ID volume)) rb1;
                      Called (DeleteApp newName) rb2] /\
         @Err (App * Machine) (OtherErr "no capacity") = Err e).
Proof.
  assert (Hrun : createBuilder ctxNew orgWithout "ams" newName launchFails
                 = Some (Err (OtherErr "no capacity"), launchFails_end))
    by (vm_compute; reflexivity).
  split; [exact Hrun|].
  exact (createBuilder_rollback ctxNew newClient orgWithout "ams" newName
           launchFails _ launchFails_end eq_refl Hrun).
Defined.

Lemma createBuilder_guest_witness :
  exists evs,
    trace provisions_end = trace provisions ++ evs /\
    (exists volume,
       In (Called (CreateVolume newClient (createVolumeRequest "ams")) (RVolume volume))
         evs /\
       In (Called (Launch newClient (launchInput orgWithout "ams" newBuilder volume))
             (RMachine m1)) evs) /\
    (forall c' req resp,
       In (Called (CreateVolume c' req) resp) evs ->
       cvr_ComputeRequirements req
       = Some {| CPUKind := "shared"; CPUs := 4; MemoryMB := 4096 |}) /\
    (forall c' input resp,
       In (Called (Launch c' input) resp) evs ->
       exists config,
         lmi_Config input = Some config /\
         mc_Guest config
         = Some {| CPUKind := "shared"; CPUs := 4; MemoryMB := 4096 |}).
Proof.
  apply (createBuilder_guest ctxNew newClient orgWithout "ams" newName
           provisions newBuilder m1 provisions_end).
  - reflexivity.
  - vm_compute. reflexivity.
Defined.

Lemma EnsureBuilder_fresh_name_witness :
  exists evs,
    trace firstRun_end = trace firstRun ++ evs /\
    forall input resp,
      In (Called (CreateApp input) resp) evs ->
      cai_Name input = "fly-builder-red-sun"%string.
Proof.
  assert (Hrun : EnsureBuilder background orgWithout "ams" firstRun
                 = Some (Ok (m1, Some newBuilder), firstRun_end))
    by (vm_compute; reflexivity).
  exact (EnsureBuilder_fresh_name background orgWithout "ams" firstRun
           (Ok (m1, Some newBuilder)) firstRun_end Hrun).
Defined.

Lemma EnsureBuilder_decommission_witness :
  exists before after,
    trace (replaces_validated "red-sun" newBuilder)
    = trace (replaces "red-sun" newBuilder) ++ before /\
    Forall (fun ev => isDeletion (ev_call ev) = false /\
                      isCreation (ev_call ev) = false) before /\
    trace (replaces_end "red-sun" newBuilder)
    = trace (replaces_validated "red-sun" newBuilder) ++ after /\
    (NoBuilderVolume <> NoBuilderApp ->
     exists b resp rest,
       org_RemoteBuilderApp orgWith = Some b /\
       after = Called (DeleteApp (app_Name b)) resp :: rest /\
       (forall e, resp = RErr e ->
                  Ok (m1, Some newBuilder) = Err e /\ rest = []) /\
       (resp = RDone ->
        creationStarts orgWith "ams" "fly-builder-red-sun"
          (Ok (m1, Some newBuilder)) rest)) /\
    (NoBuilderVolume = NoBuilderApp ->
     creationStarts orgWith "ams" "fly-builder-red-sun"
       (Ok (m1, Some newBuilder)) after).
Proof.
  assert (Hclient : EnsureBuilder_client background (org_RemoteBuilderApp orgWith)
                      (replaces "red-sun" newBuilder)
                    = Some (Ok ctxOld, replaces_client "red-sun" newBuilder))
    by (vm_compute; reflexivity).
  assert (Hvalid : validateBuilder ctxOld (org_RemoteBuilderApp orgWith)
                     (replaces_client "red-sun" newBuilder)
                   = Some (Err (ValidateErr NoBuilderVolume),
                           replaces_validated "red-sun" newBuilder))
    by (vm_compute; reflexivity).
  assert (Hrun : EnsureBuilder background orgWith "ams"
                   (replaces "red-sun" newBuilder)
                 = Some (Ok (m1, Some newBuilder),
                         replaces_end "red-sun" newBuilder))
    by (vm_compute; reflexivity).
  exact (EnsureBuilder_decommission background orgWith "ams"
           (replaces "red-sun" newBuilder) ctxOld
           (replaces_client "red-sun" newBuilder)
           (ValidateErr NoBuilderVolume)
           (replaces_validated "red-sun" newBuilder) NoBuilderVolume
           (Ok (m1, Some newBuilder)) (replaces_end "red-sun" newBuilder)
           Hclient Hvalid eq_refl Hrun).
Defined.

(** The generated name can be the name of the app just deleted.  The
    organization's builder "fly-builder-old-moon" has no volume; it is
    deleted, the generator draws "old-moon", and the new app is created under
    the name "fly-builder-old-moon". *)
Lemma EnsureBuilder_recreates_same_name :
  validateBuilder ctxOld (Some oldBuilder) (replaces_client "old-moon" sameNameBuilder)
  = Some (Err (ValidateErr NoBuilderVolume),
          replaces_validated "old-moon" sameNameBuilder) /\
  EnsureBuilder background orgWith "ams" (replaces "old-moon" sameNameBuilder)
  = Some (Ok (m1, Some sameNameBuilder), replaces_end "old-moon" sameNameBuilder) /\
  In (Called (DeleteApp (app_Name oldBuilder)) RDone)
    (trace (replaces_end "old-moon" sameNameBuilder)) /\
  In (Called (CreateApp (createAppInput orgWith "ams" (app_Name oldBuilder)))
        (RApp sameNameBuilder))
    (trace (replaces_end "old-moon" sameNameBuilder)) /\
  app_Name sameNameBuilder = app_Name oldBuilder.
Proof.
  split; [vm_compute; reflexivity|].
  split; [vm_compute; reflexivity|].
  split; [cbn; tauto|].
  split; [cbn; tauto|reflexivity].
Qed.

Lemma EnsureBuilder_fast_path_twice_witness :
  exists w2 evs2,
    EnsureBuilder background orgWith "ams" settled_once
    = Some (Ok (m1, Some oldBuilder), w2) /\
    trace w2 = trace settled_once ++ evs2 /\
    Forall (fun ev => isCreation (ev_call ev) = false) evs2.
Proof.
  assert (Hrun : EnsureBuilder background orgWith "ams" settled
                 = Some (Ok (m1, Some oldBuilder), settled_once))
    by (vm_compute; reflexivity).
  assert (Hsteady : steady background (now settled)).
  { intros t' _. reflexivity. }
  assert (Hquiet : Forall (fun ev => isCreation (ev_call ev) = false) settled_run).
  { repeat constructor. }
  exact (EnsureBuilder_fast_path_twice background orgWith "ams" settled
           m1 (Some oldBuilder) settled_once settled_run
           (fun _ _ _ => eq_refl) (fun _ _ _ => eq_refl) (fun _ _ _ _ => eq_refl)
           Hsteady Hrun eq_refl Hquiet).
Defined.

(** [EnsureBuilder] never records the builder it created in the organization
    it was given.  Called twice in a row for an organization without a
    builder app, it creates a builder each time: the second call, started in
    the world the first one left, creates "fly-builder-blue-sky" and returns
    another machine and another app. *)
Lemma EnsureBuilder_creates_twice :
  EnsureBuilder background orgWithout "ams" twice
  = Some (Ok (m1, Some newBuilder), twice_once) /\
  EnsureBuilder background orgWithout "ams" twice_once
  = Some (Ok (m2, Some otherBuilder), twice_end) /\
  trace twice_end = trace twice_once ++ twice_second /\
  In (Called (CreateApp (createAppInput orgWithout "ams" "fly-builder-blue-sky"))
        (RApp otherBuilder)) twice_second /\
  (m2, Some otherBuilder) <> (m1, Some newBuilder).
Proof.
  split; [vm_compute; reflexivity|].
  split; [vm_compute; reflexivity|].
  split; [reflexivity|].
  split; [cbn; tauto|discriminate].
Qed.

Lemma retry_loops_blind_to_cancellation_witness :
  (validateBuilderVolumes_loop cancelledSoon oldClient 0 failing
   = validateBuilderVolumes_loop ctxOld oldClient 0 failing /\
   validateBuilderMachines_loop cancelledSoon oldClient 0 failing
   = validateBuilderMachines_loop ctxOld oldClient 0 failing /\
   createBuilder_loop cancelledSoon oldClient "ams" 0 failing
   = createBuilder_loop ctxOld oldClient "ams" 0 failing) /\
  validateBuilderVolumes_loop cancelledSoon oldClient 0 cancelReported
  = (Err (OtherErr "context canceled"), cancelReported_end).
Proof.
  destruct (retry_loops_blind_to_cancellation cancelledSoon ctxOld oldClient
              "ams" failing) as [Hblind _].
  destruct (retry_loops_blind_to_cancellation cancelledSoon ctxOld oldClient
              "ams" cancelReported) as [_ Hreported].
  split.
  - apply Hblind; reflexivity.
  - apply (Hreported 0 (OtherErr "context canceled") cancelReported_end eq_refl).
    reflexivity.
Defined.

(** No loop checks the context between attempts.  Here the context is
    cancelled during the first sleep; the volume listing loop still makes its
    second and third attempts, sleeps in between, and returns the 503 of the
    third attempt, as it does under a context that is never cancelled. *)
Lemma cancelled_loop_keeps_retrying :
  doneAt cancelledSoon (now failing) = false /\
  doneAt cancelledSoon (now failing + 1 * Second) = true /\
  validateBuilderVolumes_loop cancelledSoon oldClient 0 failing
  = (Err (FlapsError 503), failing_end) /\
  trace failing_end
  = [Called (GetVolumes oldClient) (RErr (FlapsError 503));
     Called (Sleep (1 * Second)) RDone;
     Called (GetVolumes oldClient) (RErr (FlapsError 503));
     Called (Sleep (1 * Second)) RDone;
     Called (GetVolumes oldClient) (RErr (FlapsError 503))] /\
  validateBuilderVolumes_loop ctxOld oldClient 0 failing
  = (Err (FlapsError 503), failing_end).
Proof.
  repeat split; vm_compute; reflexivity.
Qed.

Lemma retry_budgets_witness :
  retryRun 3 (GetVolumes oldClient) RVolumes failing
    (validateBuilderVolumes_loop ctxOld oldClient 0 failing) /\
  retryRun 3 (ListMachines oldClient "") RMachines failing
    (validateBuilderMachines_loop ctxOld oldClient 0 failing) /\
  retryRun 5 (CreateVolume oldClient (createVolumeRequest "ams")) RVolume failing
    (createBuilder_loop ctxOld oldClient "ams" 0 failing).
Proof. exact (retry_budgets ctxOld oldClient "ams" failing). Defined.

(** The error of a used-up budget carries no tag.  After three 503 the
    volume listing loop returns the very error of its third attempt; and
    [createBuilder] returns the same error value when the volume creation
    used up its five attempts as when the launch failed once with a 503. *)
Lemma exhausted_error_is_untagged :
  validateBuilderVolumes_loop ctxOld oldClient 0 failing
  = (Err (FlapsError 503), failing_end) /\
  last (trace failing_end) (Called (Sleep 0) RDone)
  = Called (GetVolumes oldClient) (RErr (FlapsError 503)) /\
  createBuilder ctxNew orgWithout "ams" newName volumeExhausted
  = Some (Err (FlapsError 503), volumeExhausted_end) /\
  createBuilder ctxNew orgWithout "ams" newName launchUnavailable
  = Some (Err (FlapsError 503), launchUnavailable_end).
Proof.
  repeat split; vm_compute; reflexivity.
Qed.

Lemma retry_iff_server_error_witness :
  isServerError (FlapsError 404) = false /\
  classifiedRun 3 (GetVolumes oldClient) RVolumes (call_GetVolumes ctxOld oldClient)
    refusing (validateBuilderVolumes_loop ctxOld oldClient 0 refusing) /\
  validateBuilderVolumes_loop ctxOld oldClient 0 refusing
  = (Err (FlapsError 404), refusing_end).
Proof.
  destruct (retry_iff_server_error ctxOld oldClient "ams" refusing)
    as (_ & H404 & Hv & _).
  split; [exact H404|]. split; [exact Hv|]. vm_compute. reflexivity.
Defined.

(** The budgets at their boundary. *)
Example listing_succeeds_on_third_attempt :
  validateBuilderVolumes_loop ctxOld oldClient 0
    (start [unavailable; unavailable; RVolumes [vol1]] [])
  = (Ok [vol1],
     mkWorld [] [] (2 * Second)
       (attemptsLog (GetVolumes oldClient)
          [unavailable; unavailable; RVolumes [vol1]])).
Proof. vm_compute. reflexivity. Qed.

Example listing_gives_up_after_third_attempt :
  validateBuilderMachines_loop ctxOld oldClient 0
    (start [unavailable; unavailable; unavailable; RMachines [m1]] [])
  = (Err (FlapsError 503),
     mkWorld [RMachines [m1]] [] (2 * Second)
       (attemptsLog (ListMachines oldClient "")
          [unavailable; unavailable; unavailable])).
Proof. vm_compute. reflexivity. Qed.

Example volume_created_on_fifth_attempt :
  createBuilder_loop ctxNew newClient "ams" 0
    (start [unavailable; unavailable; unavailable; unavailable; RVolume vol1] [])
  = (Ok vol1,
     mkWorld [] [] (4 * Second)
       (attemptsLog (CreateVolume newClient (createVolumeRequest "ams"))
          [unavailable; unavailable; unavailable; unavailable; RVolume vol1])).
Proof. vm_compute. reflexivity. Qed.

Example volume_creation_gives_up_after_fifth_attempt :
  createBuilder_loop ctxNew newClient "ams" 0
    (start [unavailable; unavailable; unavailable; unavailable; unavailable;
            RVolume vol1] [])
  = (Err (FlapsError 503),
     mkWorld [RVolume vol1] [] (4 * Second)
       (attemptsLog (CreateVolume newClient (createVolumeRequest "ams"))
          [unavailable; unavailable; unavailable; unavailable; unavailable])).
Proof. vm_compute. reflexivity. Qed.

Example not_found_is_not_retried :
  validateBuilderVolumes_loop ctxOld oldClient 0
    (start [RErr (FlapsError 404); RVolumes [vol1]] [])
  = (Err (FlapsError 404),
     mkWorld [RVolumes [vol1]] [] 0
       [Called (GetVolumes oldClient) (RErr (FlapsError 404))]).
Proof. vm_compute. reflexivity. Qed.

Example wait_error_is_wrapped :
  createBuilder ctxNew orgWithout "ams" newName
    (start [RApp newBuilder; RDone; RErr (OtherErr "timeout"); RDone] [])
  = Some (Err (WrapErr "waiting for app fly-builder-red-sun: " (OtherErr "timeout")),
          mkWorld [] [] 0
            [Called (CreateApp (createAppInput orgWithout "ams" newName))
               (RApp newBuilder);
             Called (AllocateIPAddress "fly-builder-red-sun" "shared_v4" ""
                       orgWithout "") RDone;
             Called (WaitForApp newClient "fly-builder-red-sun")
               (RErr (OtherErr "timeout"));
             Called (DeleteApp newName) RDone]).
Proof. vm_compute. reflexivity. Qed.

(** * Further examples *)

Lemma EnsureBuilder_bounded_witness :
  EnsureBuilder background orgWith "ams" longest
  = Some (Err (OtherErr "no capacity"), longest_end) /\
  remoteCalls longest_run = 20%nat /\
  slept longest_run = 8 * Second /\
  exists evs,
    trace longest_end = trace longest ++ evs /\
    (remoteCalls evs <= 20)%nat /\
    0 <= slept evs <= 8 * Second.
Proof.
  assert (Hrun : EnsureBuilder background orgWith "ams" longest
                 = Some (Err (OtherErr "no capacity"), longest_end))
    by (vm_compute; reflexivity).
  split; [exact Hrun|]. split; [reflexivity|]. split; [reflexivity|].
  exact (EnsureBuilder_bounded background orgWith "ams" longest _ longest_end Hrun).
Defined.

Lemma EnsureBuilder_failure_leaves_nothing_witness :
  leftover longest_run = nothing.
Proof.
  assert (Hrun : EnsureBuilder background orgWith "ams" longest
                 = Some (Err (OtherErr "no capacity"), longest_end))
    by (vm_compute; reflexivity).
  exact (EnsureBuilder_failure_leaves_nothing background orgWith "ams" longest
           (OtherErr "no capacity") longest_end longest_run Hrun eq_refl).
Defined.

Lemma EnsureBuilder_success_witness :
  (exists b,
     org_RemoteBuilderApp orgWith = Some b /\ Some newBuilder = Some b /\
     In (Called (ListMachines (builderClientOpts b) "") (RMachines [m1]))
       (trace (replaces_end "red-sun" newBuilder)) /\
     Forall (fun ev => isDeletion (ev_call ev) = false /\
                       isCreation (ev_call ev) = false)
       (trace (replaces_end "red-sun" newBuilder)) /\
     leftover (trace (replaces_end "red-sun" newBuilder)) = nothing) \/
  (exists app volume,
     Some newBuilder = Some app /\
     In (Called (CreateApp (createAppInput orgWith "ams" "fly-builder-red-sun"))
           (RApp app)) (trace (replaces_end "red-sun" newBuilder)) /\
     In (Called (CreateVolume redClient (createVolumeRequest "ams"))
           (RVolume volume)) (trace (replaces_end "red-sun" newBuilder)) /\
     In (Called (Launch redClient (launchInput orgWith "ams" app volume))
           (RMachine m1)) (trace (replaces_end "red-sun" newBuilder)) /\
     leftover (trace (replaces_end "red-sun" newBuilder))
     = {| live_apps := ["fly-builder-red-sun"%string];
          live_volumes := [vol_ID volume];
          live_machines := [m1] |}).
Proof.
  assert (Hrun : EnsureBuilder background orgWith "ams"
                   (replaces "red-sun" newBuilder)
                 = Some (Ok (m1, Some newBuilder),
                         replaces_end "red-sun" newBuilder))
    by (vm_compute; reflexivity).
  exact (EnsureBuilder_success background orgWith "ams"
           (replaces "red-sun" newBuilder) m1 (Some newBuilder)
           (replaces_end "red-sun" newBuilder)
           (trace (replaces_end "red-sun" newBuilder)) Hrun eq_refl).
Defined.

Lemma EnsureBuilder_remote_error_witness :
  EnsureBuilder background orgWith "ams" notFound
  = Some (Err (FlapsError 404), notFound_end) /\
  rng notFound_end = rng notFound /\
  exists evs,
    trace notFound_end = trace notFound ++ evs /\
    Forall (fun ev => isDeletion (ev_call ev) = false /\
                      isCreation (ev_call ev) = false) evs.
Proof.
  assert (Hclient : EnsureBuilder_client background (org_RemoteBuilderApp orgWith)
                      notFound
                    = Some (Ok ctxOld, notFound_client))
    by (vm_compute; reflexivity).
  assert (Hvalid : validateBuilder ctxOld (org_RemoteBuilderApp orgWith)
                     notFound_client
                   = Some (Err (FlapsError 404), notFound_end))
    by (vm_compute; reflexivity).
  exact (EnsureBuilder_remote_error background orgWith "ams" notFound ctxOld
           notFound_client (FlapsError 404) notFound_end Hclient Hvalid eq_refl).
Defined.

Lemma validateBuilder_last_answer_witness :
  exists c before call answer,
    ClientFromContext ctxOld = Some c /\
    trace volumeless_validated
    = trace volumeless ++ before ++ [Called call answer] /\
    match answer with
    | RErr e =>
        (call = GetVolumes c \/ call = ListMachines c "") /\
        Err (ValidateErr NoBuilderVolume) = @Err Machine e
    | RVolumes volumes =>
        call = GetVolumes c /\ volumes = [] /\
        @Err Machine (ValidateErr NoBuilderVolume)
        = Err (ValidateErr NoBuilderVolume)
    | RMachines machines =>
        call = ListMachines c "" /\
        Err (ValidateErr NoBuilderVolume)
        = match machines with
          | [m] => Ok m
          | _ => Err (ValidateErr InvalidMachineCount)
          end
    | _ => False
    end.
Proof.
  assert (Hrun : validateBuilder ctxOld (Some oldBuilder) volumeless
                 = Some (Err (ValidateErr NoBuilderVolume), volumeless_validated))
    by (vm_compute; reflexivity).
  exact (validateBuilder_last_answer ctxOld oldBuilder volumeless
           (Err (ValidateErr NoBuilderVolume)) volumeless_validated Hrun).
Defined.

Lemma ValidateBuilderError_Error_messages_witness :
  ValidateBuilderError_Error 7 = "unknown error validating builder"%string.
Proof.
  destruct ValidateBuilderError_Error_messages as [H _].
  apply (H 7). repeat split; discriminate.
Defined.

Lemma EnsureBuilder_error_origin_witness :
  exists ev, In ev longest_run /\ stepError ev = Some (OtherErr "no capacity").
Proof.
  assert (Hrun : EnsureBuilder background orgWith "ams" longest
                 = Some (Err (OtherErr "no capacity"), longest_end))
    by (vm_compute; reflexivity).
  exact (EnsureBuilder_error_origin background orgWith "ams" longest
           (OtherErr "no capacity") longest_end longest_run Hrun eq_refl).
Defined.

Lemma EnsureBuilder_deletes_its_own_witness :
  ((exists b, org_RemoteBuilderApp orgWith = Some b /\
              "fly-builder-old-moon"%string = app_Name b) \/
   "fly-builder-old-moon"%string = "fly-builder-red-sun"%string) /\
  ((exists b, org_RemoteBuilderApp orgWith = Some b /\
              "fly-builder-red-sun"%string = app_Name b) \/
   "fly-builder-red-sun"%string = "fly-builder-red-sun"%string) /\
  exists req v,
    In (Called (CreateVolume redClient req) (RVolume v)) longest_run /\
    "vol_2"%string = vol_ID v.
Proof.
  assert (Hrun : EnsureBuilder background orgWith "ams" longest
                 = Some (Err (OtherErr "no capacity"), longest_end))
    by (vm_compute; reflexivity).
  assert (Hold : In (Called (DeleteApp "fly-builder-old-moon") RDone) longest_run)
    by (vm_compute; tauto).
  assert (Hnew : In (Called (DeleteApp "fly-builder-red-sun") RDone) longest_run)
    by (vm_compute; tauto).
  assert (Hvol : In (Called (DeleteVolume redClient "vol_2") RDone) longest_run)
    by (vm_compute; tauto).
  destruct (EnsureBuilder_deletes_its_own background orgWith "ams" longest
              _ longest_end longest_run Hrun eq_refl) as [Happ Hv].
  split; [exact (Happ _ _ Hold)|]. split; [exact (Happ _ _ Hnew)|].
  exact (Hv _ _ _ Hvol).
Defined.

Lemma EnsureBuilder_launch_witness :
  In (Called (Launch redClient (launchInput orgWith "ams" newBuilder vol2))
        (RErr (OtherErr "no capacity"))) longest_run /\
  redClient = newClientOpts orgWith "fly-builder-red-sun" /\
  exists app volume,
    In (Called (CreateApp (createAppInput orgWith "ams" "fly-builder-red-sun"))
          (RApp app)) longest_run /\
    In (Called (CreateVolume redClient (createVolumeRequest "ams"))
          (RVolume volume)) longest_run /\
    launchInput orgWith "ams" newBuilder vol2 = launchInput orgWith "ams" app volume /\
    option_map mc_Mounts (lmi_Config (launchInput orgWith "ams" newBuilder vol2))
    = Some [ {| mm_Path := "/data";
                mm_Volume := vol_ID volume;
                mm_Name := app_Name app |} ].
Proof.
  assert (Hrun : EnsureBuilder background orgWith "ams" longest
                 = Some (Err (OtherErr "no capacity"), longest_end))
    by (vm_compute; reflexivity).
  assert (Hin : In (Called (Launch redClient
                              (launchInput orgWith "ams" newBuilder vol2))
                      (RErr (OtherErr "no capacity"))) longest_run)
    by (vm_compute; tauto).
  split; [exact Hin|].
  exact (EnsureBuilder_launch background orgWith "ams" longest _ longest_end
           longest_run redClient _ _ Hrun eq_refl Hin).
Defined.

Lemma EnsureBuilder_mutations_witness :
  (calls isCreateApp longest_run <= 1)%nat /\
  (calls isAllocateIPAddress longest_run <= 1)%nat /\
  (calls isCreateVolume longest_run <= 5)%nat /\
  (calls isLaunch longest_run <= 1)%nat /\
  (calls isDeleteVolume longest_run <= 1)%nat /\
  (calls isDeleteApp longest_run <= 2)%nat.
Proof.
  assert (Hrun : EnsureBuilder background orgWith "ams" longest
                 = Some (Err (OtherErr "no capacity"), longest_end))
    by (vm_compute; reflexivity).
  exact (EnsureBuilder_mutations background orgWith "ams" longest _ longest_end
           longest_run Hrun eq_refl).
Defined.

Lemma EnsureBuilder_returns_witness :
  exists out w', EnsureBuilder background orgWith "ams" longest = Some (out, w').
Proof.
  exact (EnsureBuilder_returns background fleetClient orgWith "ams" longest
           eq_refl).
Defined.

